(** * BookScraper: a shallow embedding of the three scrapers

    The development follows [web_scraper_deepseek.py] top to bottom: the
    strings and dictionaries the scraper handles, the part of BeautifulSoup's
    tree API it calls, the world it acts on (HTTP, clock, log file, file
    system), and then the methods of [BookScraper] with their
    [try]/[except] structure.  The [__main__] block and the two short
    scripts, [web_scraper_chatgpt.py] and [web_scraper.py], follow.  The
    theorems come last. *)

From Stdlib Require Import ZArith Ascii String.
From stdpp Require Import base option list strings gmap pretty.

Set Warnings "-register-all".

Local Open Scope string_scope.
Local Open Scope list_scope.
Local Open Scope Z_scope.

(** ** Python strings

    A [string] is read as a sequence of code points below 256. *)

(** [str.isspace] on one code point below 256: TAB..CR, FS..US, space, NEL and
    the no-break space. *)
Definition py_isspace (c : ascii) : bool :=
  let n := nat_of_ascii c in
  (Nat.leb 9 n && Nat.leb n 13) || (Nat.leb 28 n && Nat.leb n 32)
  || Nat.eqb n 133 || Nat.eqb n 160.

Fixpoint str_lstrip (s : string) : string :=
  match s with
  | EmptyString => EmptyString
  | String c s' => if py_isspace c then str_lstrip s' else s
  end.

Fixpoint str_rstrip (s : string) : string :=
  match s with
  | EmptyString => EmptyString
  | String c s' =>
      match str_rstrip s' with
      | EmptyString => if py_isspace c then EmptyString else String c EmptyString
      | r => String c r
      end
  end.

(** [s.strip()] *)
Definition str_strip (s : string) : string := str_rstrip (str_lstrip s).

(** [sep.join(l)] *)
Fixpoint str_join (sep : string) (l : list string) : string :=
  match l with
  | [] => ""
  | [x] => x
  | x :: l' => x +:+ sep +:+ str_join sep l'
  end.

(** [''.join(l)] *)
Definition str_concat (l : list string) : string := fold_right append "" l.

(** [c in s] for a one-character [c] *)
Fixpoint str_contains (c : ascii) (s : string) : bool :=
  match s with
  | EmptyString => false
  | String c' s' => Ascii.eqb c c' || str_contains c s'
  end.

(** [s.split(c)]: the pieces between the occurrences of [c], never empty as a
    list. *)
Fixpoint str_split (c : ascii) (s : string) : list string :=
  match s with
  | EmptyString => [""]
  | String c' s' =>
      if Ascii.eqb c c' then "" :: str_split c s'
      else match str_split c s' with
           | [] => [String c' ""]
           | p :: ps => String c' p :: ps
           end
  end.

(** [s.split(c, 1)] as a pair; [None] when [c] does not occur. *)
Fixpoint str_cut (c : ascii) (s : string) : option (string * string) :=
  match s with
  | EmptyString => None
  | String c' s' =>
      if Ascii.eqb c c' then Some ("", s')
      else match str_cut c s' with
           | Some (a, b) => Some (String c' a, b)
           | None => None
           end
  end.

(** [s.rstrip('/')] *)
Fixpoint str_rstrip_slash (s : string) : string :=
  match s with
  | EmptyString => EmptyString
  | String c s' =>
      match str_rstrip_slash s' with
      | EmptyString => if Ascii.eqb c "/" then EmptyString else String c EmptyString
      | r => String c r
      end
  end.

Definition str_is_empty (s : string) : bool :=
  match s with EmptyString => true | _ => false end.

(** The quotation mark, [chr(34)]. *)
Definition dquote : ascii := ascii_of_nat 34.
Definition CR : ascii := ascii_of_nat 13.
Definition LF : ascii := ascii_of_nat 10.

(** ** Python values and dictionaries

    The values a record holds are strings, and for [rating] an integer.  A
    [dict] keeps its keys in insertion order, which is what
    [data[0].keys()] hands to the CSV writer, so it is an association list. *)

Inductive PyVal :=
| VStr (s : string)
| VInt (n : Z).

(** [str(v)] *)
Definition py_str (v : PyVal) : string :=
  match v with
  | VStr s => s
  | VInt n => pretty n
  end.

Definition Dict := list (string * PyVal).

(** [d.keys()] *)
Definition dict_keys (d : Dict) : list string := map fst d.

(** The value under the first occurrence of key [k]. *)
Fixpoint assoc {V} (l : list (string * V)) (k : string) : option V :=
  match l with
  | [] => None
  | (k', v) :: l' => if String.eqb k k' then Some v else assoc l' k
  end.

(** [d.get(k)] *)
Definition dict_get (d : Dict) (k : string) : option PyVal := assoc d k.

(** [bool(d)]: a dict is true when it has a key. *)
Definition dict_truthy (d : Dict) : bool :=
  match d with [] => false | _ => true end.

(** [s[:n]] *)
Fixpoint str_take (n : nat) (s : string) : string :=
  match n, s with
  | S n', String c s' => String c (str_take n' s')
  | _, _ => EmptyString
  end.

(** The newline inside a string. *)
Definition NL : string := String LF "".

(** ** Exceptions *)

Inductive RequestError :=
| ConnectionError | Timeout | TooManyRedirects | InvalidURL | HTTPError.

(** The classes of the exceptions met; [OSError] stands for [OSError] itself
    and for its subclasses that are not listed. *)
Inductive ExnClass :=
| RequestException (k : RequestError)
| AttributeError | TypeError | KeyError | IndexError | ValueError
| FileNotFoundError | FileExistsError | IsADirectoryError | NotADirectoryError
| PermissionError | OSError.

(** An exception instance: its class and what [str(e)] prints. *)
Record Exn := mkExn { exn_class : ExnClass; exn_str : string }.

(** [isinstance(e, requests.exceptions.RequestException)] *)
Definition is_RequestException (e : Exn) : bool :=
  match exn_class e with RequestException _ => true | _ => false end.

(** [isinstance(e, OSError)] *)
Definition is_OSError (e : Exn) : bool :=
  match exn_class e with
  | FileNotFoundError | FileExistsError | IsADirectoryError | NotADirectoryError
  | PermissionError | OSError => true
  | _ => false
  end.

Definition is_FileExistsError (e : Exn) : bool :=
  match exn_class e with FileExistsError => true | _ => false end.

(** [isinstance(e, Exception)]: every class above derives from [Exception]. *)
Definition is_Exception (e : Exn) : bool := true.

(** The outcome of evaluating an expression: a value or a raised exception. *)
Inductive Result (A : Type) :=
| Ok (a : A)
| Raise (e : Exn).
Arguments Ok {A} a.
Arguments Raise {A} e.

#[export] Instance Result_ret : MRet Result := λ A a, Ok a.
#[export] Instance Result_bind : MBind Result := λ A B f r,
  match r with
  | Ok a => f a
  | Raise e => Raise e
  end.

(** ** BeautifulSoup's tree, as [html.parser] builds it

    A tag carries its name, its attributes and its children.  [class] is the
    one multi-valued attribute the scraper reads: the tree builder stores it
    as the list of its whitespace-separated tokens, while [title] and [href]
    stay strings.

    A string of the document is a [NavigableString], or an instance of one of
    its subclasses: the builder gives a comment, a CDATA section, a
    declaration, a doctype or a processing instruction its own class, and
    gives the text inside [script], [style], [template], [rt] and [rp] the
    class of that container. *)

Inductive StringClass :=
| Comment | CData | ProcessingInstruction | Declaration | Doctype
| Stylesheet | Script | TemplateString | RubyTextString | RubyParenthesisString.

Inductive PageElement :=
| NavigableString (s : string)
| TypedString (cls : StringClass) (s : string)
| Tag (name : string) (class_ : option (list string))
      (attrs : list (string * string)) (contents : list PageElement).

(** [type(e).__name__] of a string *)
Definition StringClass_name (cls : StringClass) : string :=
  match cls with
  | Comment => "Comment"
  | CData => "CData"
  | ProcessingInstruction => "ProcessingInstruction"
  | Declaration => "Declaration"
  | Doctype => "Doctype"
  | Stylesheet => "Stylesheet"
  | Script => "Script"
  | TemplateString => "TemplateString"
  | RubyTextString => "RubyTextString"
  | RubyParenthesisString => "RubyParenthesisString"
  end.

Definition StringClass_eqb (a b : StringClass) : bool :=
  String.eqb (StringClass_name a) (StringClass_name b).

(** [tag.descendants]: every node below [e], in document order. *)
Fixpoint descendants (e : PageElement) : list PageElement :=
  match e with
  | NavigableString _ | TypedString _ _ => []
  | Tag _ _ _ cs =>
      (fix below (l : list PageElement) : list PageElement :=
         match l with
         | [] => []
         | c :: l' => c :: descendants c ++ below l'
         end) cs
  end.

(** How a [class_] filter is matched against a tag's class attribute: one of
    the tokens is the wanted string, or the tokens joined by a space are. *)
Definition class_matches (cls : option (list string)) (want : string) : bool :=
  match cls with
  | None => str_is_empty want
  | Some toks =>
      existsb (String.eqb want) toks || String.eqb (str_join " " toks) want
  end.

(** Whether [e] is a tag called [name], of class [cls] when one is asked. *)
Definition tag_matches (name : string) (cls : option string) (e : PageElement) : bool :=
  match e with
  | NavigableString _ | TypedString _ _ => false
  | Tag n c _ _ =>
      String.eqb n name
      && match cls with
         | None => true
         | Some want => class_matches c want
         end
  end.

(** [tag.find_all(name, class_=cls)] *)
Definition find_all (name : string) (cls : option string) (e : PageElement)
  : list PageElement :=
  filter (λ d, tag_matches name cls d = true) (descendants e).

(** [tag.find(name, class_=cls)]: the first match, or [None]. *)
Definition find (name : string) (cls : option string) (e : PageElement)
  : option PageElement :=
  head (find_all name cls e).

(** [builder.string_containers.get(name)]: the class the builder gives the
    strings inside a tag called [name], when it is a special one. *)
Definition string_container (name : string) : option StringClass :=
  if String.eqb name "rt" then Some RubyTextString
  else if String.eqb name "rp" then Some RubyParenthesisString
  else if String.eqb name "style" then Some Stylesheet
  else if String.eqb name "script" then Some Script
  else if String.eqb name "template" then Some TemplateString
  else None.

(** [type(d) in types] for the [interesting_string_types] of a tag: the
    container's class for a special tag, [NavigableString] and [CData] for
    any other.  The test is on the exact class. *)
Definition interesting_string (container : option StringClass) (d : PageElement)
  : option string :=
  match d, container with
  | NavigableString s, None => Some s
  | TypedString CData s, None => Some s
  | TypedString cls s, Some k => if StringClass_eqb cls k then Some s else None
  | _, _ => None
  end.

(** [e.text], which is [e.get_text()]: the strings of the interesting classes
    below a tag, concatenated; a string is its own text when it is a
    [NavigableString] or a [CData], and has the empty text otherwise. *)
Definition text (e : PageElement) : string :=
  match e with
  | Tag name _ _ _ =>
      str_concat (omap (interesting_string (string_container name)) (descendants e))
  | _ => default "" (interesting_string None e)
  end.

(** [BeautifulSoup(markup, 'html.parser')]: the document object is a tag named
    [[document]] above the parsed top-level nodes. *)
Definition BeautifulSoup (markup : list PageElement) : PageElement :=
  Tag "[document]" None [] markup.

(** *** Attribute and item access, with Python's failures on [None] *)

Definition NoneType_has_no_attribute (a : string) : Exn :=
  mkExn AttributeError ("'NoneType' object has no attribute '" +:+ a +:+ "'").

Definition NoneType_not_subscriptable : Exn :=
  mkExn TypeError "'NoneType' object is not subscriptable".

(** [type(e).__name__] of a string of the tree *)
Definition string_class_name (e : PageElement) : string :=
  match e with
  | TypedString cls _ => StringClass_name cls
  | _ => "NavigableString"
  end.

(** [x.child] for a tag name [child], which is [x.find(child)] on a tag; a
    string of the tree has no such attribute. *)
Definition getattr_tag (x : option PageElement) (child : string)
  : Result (option PageElement) :=
  match x with
  | None => Raise (NoneType_has_no_attribute child)
  | Some (Tag _ _ _ _ as t) => Ok (find child None t)
  | Some s =>
      Raise (mkExn AttributeError
               ("'" +:+ string_class_name s +:+ "' object has no attribute '"
                +:+ child +:+ "'"))
  end.

(** [x.text] *)
Definition getattr_text (x : option PageElement) : Result string :=
  match x with
  | None => Raise (NoneType_has_no_attribute "text")
  | Some t => Ok (text t)
  end.

Definition str_indices_must_be_integers : Exn :=
  mkExn TypeError "string indices must be integers, not 'str'".

(** [x[key]] for a string-valued attribute. *)
Definition getitem (x : option PageElement) (key : string) : Result string :=
  match x with
  | None => Raise NoneType_not_subscriptable
  | Some (Tag _ _ attrs _) =>
      match assoc attrs key with
      | Some v => Ok v
      | None => Raise (mkExn KeyError ("'" +:+ key +:+ "'"))
      end
  | Some _ => Raise str_indices_must_be_integers
  end.

(** [x['class']] *)
Definition getitem_class (x : option PageElement) : Result (list string) :=
  match x with
  | None => Raise NoneType_not_subscriptable
  | Some (Tag _ c _ _) =>
      match c with
      | Some toks => Ok toks
      | None => Raise (mkExn KeyError "'class'")
      end
  | Some _ => Raise str_indices_must_be_integers
  end.

(** [l[i]] on a list *)
Definition list_getitem (l : list string) (i : nat) : Result string :=
  match l !! i with
  | Some x => Ok x
  | None => Raise (mkExn IndexError "list index out of range")
  end.

(** [c.isprintable()] on a code point below 256 *)
Definition py_isprintable (c : ascii) : bool :=
  let n := nat_of_ascii c in
  (Nat.leb 32 n && Nat.leb n 126) || (Nat.leb 161 n && negb (Nat.eqb n 173)).

Definition hex_digit (n : nat) : ascii :=
  match String.get n "0123456789abcdef" with Some c => c | None => "0"%char end.

(** How [repr] writes one character inside the quotes [quote]. *)
Definition repr_char (quote c : ascii) : string :=
  if Ascii.eqb c quote || Ascii.eqb c "\" then String "\" (String c "")
  else if Ascii.eqb c (ascii_of_nat 9) then "\t"
  else if Ascii.eqb c LF then "\n"
  else if Ascii.eqb c CR then "\r"
  else if py_isprintable c then String c ""
  else "\x" +:+ String (hex_digit (nat_of_ascii c / 16))
                  (String (hex_digit (nat_of_ascii c mod 16)) "").

Fixpoint repr_chars (quote : ascii) (s : string) : string :=
  match s with
  | EmptyString => EmptyString
  | String c s' => repr_char quote c +:+ repr_chars quote s'
  end.

(** [repr(s)]: in single quotes, unless [s] holds a single quote and no
    double quote. *)
Definition py_repr (s : string) : string :=
  let quote := if str_contains "'" s && negb (str_contains dquote s)
               then dquote else "'"%char in
  String quote (repr_chars quote s) +:+ String quote "".

(** ** The world the scraper acts on

    What the run does to the outside is recorded as a trace of events, in the
    order they happen, next to the file system.  The file system is a tree of
    directories and regular files without links: it maps the absolute path of
    a node, the list of the names from the root down, to the node.  The root
    is always a directory.  The process has a current directory, which the
    program never changes.

    The environment decides two things the program cannot: the time stamp of
    a log record, and whether a system call is refused for a reason the tree
    does not show (permissions, quotas, name limits, I/O errors). *)

Inductive LogLevel := INFO | ERROR.

Definition levelname (lvl : LogLevel) : string :=
  match lvl with INFO => "INFO" | ERROR => "ERROR" end.

Inductive Event :=
| EvGet (url : string)                    (* session.get(url) *)
| EvSleep (secs : Z)                      (* time.sleep(secs) *)
| EvLog (lvl : LogLevel) (msg : string)   (* a record handed to the handlers *)
| EvOpen (path : string).                 (* open(path, 'w') created or truncated path *)

Inductive FsNode :=
| FsDir
| FsFile (content : string).

Abbreviation Path := (list string).

Inductive Syscall :=
| SysStat (path : string)
| SysMkdir (path : string)
| SysOpen (path : string)
| SysWrite (file : Path) (data : string)
| SysClose (file : Path).

(** A refused call: the error number, its message, and for a write how much
    of the data reached the file before the error. *)
Record Fault := mkFault {
  fault_errno : Z; fault_strerror : string; fault_written : nat
}.

Record Env := mkEnv {
  asctime : nat → string;    (* the time stamp of a record, by the length of the trace *)
  fault : Syscall → gmap Path FsNode → option Fault
}.

Record World := mkWorld {
  trace : list Event; fs : gmap Path FsNode; cwd : Path; env : Env
}.

Definition with_trace (w : World) (tr : list Event) : World :=
  mkWorld tr (fs w) (cwd w) (env w).

Definition with_fs (w : World) (m : gmap Path FsNode) : World :=
  mkWorld (trace w) m (cwd w) (env w).

(** A statement: it runs in a world and ends with a value or an exception. *)
Definition M (A : Type) : Type := World → Result A * World.

#[export] Instance M_ret : MRet M := λ A a w, (Ok a, w).
#[export] Instance M_bind : MBind M := λ A B f m w,
  match m w with
  | (Ok a, w') => f a w'
  | (Raise e, w') => (Raise e, w')
  end.

Definition raise {A} (e : Exn) : M A := λ w, (Raise e, w).

(** An expression without effects, evaluated inside a statement. *)
Definition lift {A} (r : Result A) : M A := λ w, (r, w).

(** [try: body  except C as e: handler e], where [catches] decides
    [isinstance(e, C)]. *)
Definition try_except {A} (catches : Exn → bool) (body : M A) (handler : Exn → M A) : M A :=
  λ w, match body w with
       | (Raise e, w') => if catches e then handler e w' else (Raise e, w')
       | r => r
       end.

Definition emit (e : Event) : M unit :=
  λ w, (Ok tt, with_trace w (trace w ++ [e])).

Definition time_sleep (secs : Z) : M unit := emit (EvSleep secs).

(** *** [os.path] on POSIX paths *)

(** [(p[:i], p[i:])] for [i = p.rfind('/') + 1] *)
Fixpoint rsplit_slash (p : string) : string * string :=
  match p with
  | EmptyString => ("", "")
  | String c p' =>
      let '(h, t) := rsplit_slash p' in
      if str_is_empty h
      then (if Ascii.eqb c "/" then (String c "", p') else ("", String c t))
      else (String c h, t)
  end.

(** [os.path.split(p)]: the head loses its trailing slashes unless it is made
    of slashes only. *)
Definition os_path_split (p : string) : string * string :=
  let '(h, t) := rsplit_slash p in
  (if str_is_empty (str_rstrip_slash h) then h else str_rstrip_slash h, t).

(** [os.path.dirname(p)] *)
Definition os_path_dirname (p : string) : string := fst (os_path_split p).

(** *** Path resolution

    The kernel follows a path name by name, from the root when the path
    starts with a slash and from the current directory otherwise.  Empty
    names, which repeated slashes give, are skipped; [.] stays where it is
    and [..] goes to the parent, the root being its own parent.  A name can
    only be looked up in a directory. *)

Definition ENOENT : Z := 2.
Definition EEXIST : Z := 17.
Definition ENOTDIR : Z := 20.
Definition EISDIR : Z := 21.

(** [os.strerror(n)] for the errors of the tree *)
Definition strerror (n : Z) : string :=
  if n =? ENOENT then "No such file or directory"
  else if n =? EEXIST then "File exists"
  else if n =? ENOTDIR then "Not a directory"
  else if n =? EISDIR then "Is a directory"
  else "Unknown error " +:+ pretty n.

(** The subclass of [OSError] an error number is raised as. *)
Definition OSError_class (n : Z) : ExnClass :=
  if n =? ENOENT then FileNotFoundError
  else if n =? EEXIST then FileExistsError
  else if n =? ENOTDIR then NotADirectoryError
  else if n =? EISDIR then IsADirectoryError
  else if (n =? 1) || (n =? 13) then PermissionError
  else OSError.

(** [OSError(n, msg, filename)] *)
Definition os_error (n : Z) (msg : string) (filename : option string) : Exn :=
  mkExn (OSError_class n)
    ("[Errno " +:+ pretty n +:+ "] " +:+ msg
     +:+ match filename with
         | Some p => ": " +:+ py_repr p
         | None => ""
         end).

(** The error of the tree itself, on [path]. *)
Definition errno (n : Z) (path : string) : Exn := os_error n (strerror n) (Some path).

(** The error of a refused call. *)
Definition fault_error (f : Fault) (filename : option string) : Exn :=
  os_error (fault_errno f) (fault_strerror f) filename.

(** A path with a NUL character is refused before any call is made. *)
Definition has_nul (p : string) : bool := str_contains (ascii_of_nat 0) p.

Definition embedded_null_byte : Exn := mkExn ValueError "embedded null byte".

Definition is_absolute (p : string) : bool :=
  match p with String "/" _ => true | _ => false end.

Fixpoint ends_with_slash (p : string) : bool :=
  match p with
  | EmptyString => false
  | String c EmptyString => Ascii.eqb c "/"
  | String _ p' => ends_with_slash p'
  end.

(** The names of a path, the empty ones left out. *)
Definition components (p : string) : list string :=
  filter (λ c, str_is_empty c = false) (str_split "/" p).

Definition is_dot (c : string) : bool := String.eqb c "." || String.eqb c "..".

Definition node_at (m : gmap Path FsNode) (p : Path) : option FsNode :=
  match p with
  | [] => Some FsDir
  | _ => m !! p
  end.

(** Looking a name up in [dir]: the error when [dir] is no directory. *)
Definition search (m : gmap Path FsNode) (dir : Path) : option Z :=
  match node_at m dir with
  | Some FsDir => None
  | Some (FsFile _) => Some ENOTDIR
  | None => Some ENOENT
  end.

Definition step (dir : Path) (c : string) : Path :=
  if String.eqb c "." then dir
  else if String.eqb c ".." then removelast dir
  else dir ++ [c].

(** Where following [names] from [dir] leads, or the error on the way. *)
Fixpoint walk (m : gmap Path FsNode) (dir : Path) (names : list string) : Z + Path :=
  match names with
  | [] => inr dir
  | c :: rest =>
      match search m dir with
      | Some e => inl e
      | None => walk m (step dir c) rest
      end
  end.

Definition start (w : World) (p : string) : Path :=
  if is_absolute p then [] else cwd w.

(** [stat(p)]: the node [p] names.  A path that ends with a slash, [.] or
    [..] names a directory or nothing. *)
Definition stat (w : World) (p : string) : Z + FsNode :=
  if str_is_empty p then inl ENOENT
  else
    match walk (fs w) (start w p) (components p) with
    | inl e => inl e
    | inr target =>
        match node_at (fs w) target with
        | None => inl ENOENT
        | Some FsDir => inr FsDir
        | Some (FsFile c) =>
            if ends_with_slash p || is_dot (List.last (components p) "")
            then inl ENOTDIR else inr (FsFile c)
        end
    end.

(** What a path that is to be created names: the directory its last name is
    looked up in, and that name; no name when the path is the root or ends
    with [.] or [..], which exist whenever they can be reached. *)
Definition resolve_parent (w : World) (p : string) : Z + (Path * option string) :=
  match reverse (components p) with
  | [] => inr ([], None)
  | c :: before =>
      match walk (fs w) (start w p) (reverse before) with
      | inl e => inl e
      | inr dir =>
          match search (fs w) dir with
          | Some e => inl e
          | None => inr (dir, if is_dot c then None else Some c)
          end
      end
  end.

(** [os.path.exists(p)]: whether [os.stat(p)] succeeds. *)
Definition os_path_exists (p : string) : M bool :=
  λ w,
    (Ok (if has_nul p then false
         else match fault (env w) (SysStat p) (fs w) with
              | Some _ => false
              | None => match stat w p with inr _ => true | inl _ => false end
              end), w).

(** [os.path.isdir(p)] *)
Definition os_path_isdir (p : string) : M bool :=
  λ w,
    (Ok (if has_nul p then false
         else match fault (env w) (SysStat p) (fs w) with
              | Some _ => false
              | None => match stat w p with inr FsDir => true | _ => false end
              end), w).

(** [os.mkdir(name)] *)
Definition os_mkdir (name : string) : M unit :=
  λ w,
    if has_nul name then (Raise embedded_null_byte, w)
    else if str_is_empty name then (Raise (errno ENOENT name), w)
    else
      match fault (env w) (SysMkdir name) (fs w) with
      | Some f => (Raise (fault_error f (Some name)), w)
      | None =>
          match resolve_parent w name with
          | inl e => (Raise (errno e name), w)
          | inr (_, None) => (Raise (errno EEXIST name), w)
          | inr (dir, Some c) =>
              match fs w !! (dir ++ [c]) with
              | Some _ => (Raise (errno EEXIST name), w)
              | None => (Ok tt, with_fs w (<[dir ++ [c] := FsDir]> (fs w)))
              end
          end
      end.

(** [os.makedirs(name, exist_ok=exist_ok)]: the missing ancestors first, then
    [name] itself.  The recursion is on the head of the path, which is shorter
    than the path, so the length of [name] bounds its depth. *)
Fixpoint makedirs_rec (fuel : nat) (name : string) (exist_ok : bool) : M unit :=
  let '(head, tail) := os_path_split name in
  let '(head, tail) := if str_is_empty tail then os_path_split head else (head, tail) in
  let ancestors : M bool :=
    if negb (str_is_empty head) && negb (str_is_empty tail)
    then
      head_exists ← os_path_exists head;
      if head_exists : bool then mret false
      else
        match fuel with
        | O => mret tt
        | S fuel' =>
            try_except is_FileExistsError
              (makedirs_rec fuel' head exist_ok) (λ _, mret tt)
        end;;
        mret (String.eqb tail ".")
    else mret false in
  returned ← ancestors;
  if returned : bool then mret tt
  else
    try_except is_OSError (os_mkdir name)
      (λ e, isd ← os_path_isdir name;
            if negb exist_ok || negb isd then raise e else mret tt).

Definition os_makedirs (name : string) (exist_ok : bool) : M unit :=
  makedirs_rec (String.length name) name exist_ok.

(** *** Files *)

(** [open(filename, 'w', ...)]: creates the file, or empties the one that is
    there.  The file object is known by the absolute path of its file. *)
Definition open_w (filename : string) : M Path :=
  λ w,
    if has_nul filename then (Raise embedded_null_byte, w)
    else if str_is_empty filename then (Raise (errno ENOENT filename), w)
    else
      match fault (env w) (SysOpen filename) (fs w) with
      | Some f => (Raise (fault_error f (Some filename)), w)
      | None =>
          match resolve_parent w filename with
          | inl e => (Raise (errno e filename), w)
          | inr (_, None) => (Raise (errno EISDIR filename), w)
          | inr (dir, Some c) =>
              if ends_with_slash filename then (Raise (errno EISDIR filename), w)
              else
                match fs w !! (dir ++ [c]) with
                | Some FsDir => (Raise (errno EISDIR filename), w)
                | _ =>
                    (Ok (dir ++ [c]),
                     mkWorld (trace w ++ [EvOpen filename])
                       (<[dir ++ [c] := FsFile ""]> (fs w)) (cwd w) (env w))
                end
          end
      end.

(** What a write of [s] does to a file's content. *)
Definition append_to (s : string) (n : FsNode) : FsNode :=
  match n with
  | FsFile c => FsFile (c +:+ s)
  | FsDir => FsDir
  end.

(** [file.write(s)] on an open file: all of [s] reaches the file, or the
    call is refused after part of it did. *)
Definition file_write (file : Path) (s : string) : M unit :=
  λ w,
    match fault (env w) (SysWrite file s) (fs w) with
    | Some f =>
        (Raise (fault_error f None),
         with_fs w (alter (append_to (str_take (fault_written f) s)) file (fs w)))
    | None => (Ok tt, with_fs w (alter (append_to s) file (fs w)))
    end.

(** [file.close()] *)
Definition file_close (file : Path) : M unit :=
  λ w,
    match fault (env w) (SysClose file) (fs w) with
    | Some f => (Raise (fault_error f None), w)
    | None => (Ok tt, w)
    end.

(** [with open(filename, 'w', ...) as f: body f]: the file is closed when the
    body ends, also when it raises; an error of the closing replaces the
    one of the body. *)
Definition with_open_w {A} (filename : string) (body : Path → M A) : M A :=
  λ w, match open_w filename w with
       | (Raise e, w0) => (Raise e, w0)
       | (Ok f, w0) =>
           match body f w0 with
           | (Ok a, w1) =>
               match file_close f w1 with
               | (Ok _, w2) => (Ok a, w2)
               | (Raise e, w2) => (Raise e, w2)
               end
           | (Raise e, w1) =>
               match file_close f w1 with
               | (Ok _, w2) => (Raise e, w2)
               | (Raise e', w2) => (Raise e', w2)
               end
           end
       end.

(** *** [logging], as lines 11-18 configure it

    The root logger has two handlers: a [FileHandler] that appends to
    [book_scraper.log] in the current directory, and a [StreamHandler] on
    the standard error stream.  A record is formatted as
    [asctime - levelname - message].  A handler that fails to write does
    not raise. *)

Definition log_file : string := "book_scraper.log".

(** The absolute path the [FileHandler] opened. *)
Definition log_path (w : World) : Path := cwd w ++ [log_file].

(** [logging.Formatter('%(asctime)s - %(levelname)s - %(message)s').format] *)
Definition format_record (time : string) (lvl : LogLevel) (msg : string) : string :=
  time +:+ " - " +:+ levelname lvl +:+ " - " +:+ msg.

(** The line a record of the world [w] is written as. *)
Definition log_line (w : World) (lvl : LogLevel) (msg : string) : string :=
  format_record (asctime (env w) (length (trace w))) lvl msg +:+ NL.

(** What of that line reaches the file. *)
Definition log_written (w : World) (lvl : LogLevel) (msg : string) : string :=
  match fault (env w) (SysWrite (log_path w) (log_line w lvl msg)) (fs w) with
  | Some f => str_take (fault_written f) (log_line w lvl msg)
  | None => log_line w lvl msg
  end.

(** The world after a record was logged. *)
Definition logged (lvl : LogLevel) (msg : string) (w : World) : World :=
  mkWorld (trace w ++ [EvLog lvl msg])
    (alter (append_to (log_written w lvl msg)) (log_path w) (fs w))
    (cwd w) (env w).

Definition logging_log (lvl : LogLevel) (msg : string) : M unit :=
  λ w, (Ok tt, logged lvl msg w).

Definition logging_info (msg : string) : M unit := logging_log INFO msg.
Definition logging_error (msg : string) : M unit := logging_log ERROR msg.

(** *** [csv.DictWriter] with the default (excel) dialect *)

Definition csv_special (c : ascii) : bool :=
  Ascii.eqb c "," || Ascii.eqb c dquote || Ascii.eqb c CR || Ascii.eqb c LF.

Fixpoint csv_needs_quotes (s : string) : bool :=
  match s with
  | EmptyString => false
  | String c s' => csv_special c || csv_needs_quotes s'
  end.

Fixpoint csv_double_quotes (s : string) : string :=
  match s with
  | EmptyString => EmptyString
  | String c s' =>
      if Ascii.eqb c dquote then String c (String c (csv_double_quotes s'))
      else String c (csv_double_quotes s')
  end.

Definition csv_field (s : string) : string :=
  if csv_needs_quotes s
  then String dquote (csv_double_quotes s) +:+ String dquote ""
  else s.

(** One record: the fields separated by commas and ended by CR LF; a record
    that is one empty field is written as a pair of quotes. *)
Definition csv_record (fields : list string) : string :=
  match fields with
  | [EmptyString] => String dquote (String dquote "")
  | _ => str_join "," (map csv_field fields)
  end +:+ String CR (String LF "").

(** [DictWriter._dict_to_list]: a key outside [fieldnames] is an error
    ([extrasaction='raise']), a missing one is written as [restval = '']. *)
Definition _dict_to_list (fieldnames : list string) (rowdict : Dict) : Result (list string) :=
  let wrong_fields :=
    filter (λ k, existsb (String.eqb k) fieldnames = false) (dict_keys rowdict) in
  match wrong_fields with
  | _ :: _ =>
      Raise (mkExn ValueError
               ("dict contains fields not in fieldnames: "
                +:+ str_join ", " (map (λ k, "'" +:+ k +:+ "'") wrong_fields)))
  | [] =>
      Ok (map (λ k, match dict_get rowdict k with
                    | Some v => py_str v
                    | None => ""
                    end) fieldnames)
  end.

Definition writerow (csvfile : Path) (fieldnames : list string) (rowdict : Dict) : M unit :=
  fields ← lift (_dict_to_list fieldnames rowdict);
  file_write csvfile (csv_record fields).

(** [writer.writeheader()]: the row [dict(zip(fieldnames, fieldnames))]. *)
Definition writeheader (csvfile : Path) (fieldnames : list string) : M unit :=
  writerow csvfile fieldnames (map (λ k, (k, VStr k)) fieldnames).

Fixpoint writerows (csvfile : Path) (fieldnames : list string) (rowdicts : list Dict) : M unit :=
  match rowdicts with
  | [] => mret tt
  | rowdict :: rest =>
      writerow csvfile fieldnames rowdict;;
      writerows csvfile fieldnames rest
  end.

(** *** [requests]

    The web answers a GET with a response or with a transport error. *)

Record Response := mkResponse {
  status_code : Z;
  reason : string;
  resp_text : list PageElement   (* response.text, in the form html.parser reads it *)
}.

(** [response.raise_for_status()] *)
Definition raise_for_status (url : string) (r : Response) : M unit :=
  if (400 <=? status_code r) && (status_code r <? 500)
  then raise (mkExn (RequestException HTTPError)
                (pretty (status_code r) +:+ " Client Error: " +:+ reason r
                 +:+ " for url: " +:+ url))
  else if (500 <=? status_code r) && (status_code r <? 600)
  then raise (mkExn (RequestException HTTPError)
                (pretty (status_code r) +:+ " Server Error: " +:+ reason r
                 +:+ " for url: " +:+ url))
  else mret tt.

(** ** [urllib.parse.urljoin]

    The general theorems below hold for any [urljoin], which may raise.  To
    run the scraper on concrete sites, this module follows [urljoin] of
    CPython 3.11 function by function: [urlsplit] with its stripping of
    control characters and its checks of a bracketed host, [urlparse],
    [urlunparse], and the resolution of the path.  The one check left to a
    remark is [_checknetloc]: it rejects a host in which NFKC normalisation
    produces one of [/?#@:], which no code point below 256 does. *)
Module urllib_parse.

Definition uses_relative : list string :=
  [""; "ftp"; "http"; "gopher"; "nntp"; "imap"; "wais"; "file"; "https";
   "shttp"; "mms"; "prospero"; "rtsp"; "rtspu"; "sftp"; "svn"; "svn+ssh";
   "ws"; "wss"].

Definition uses_netloc : list string :=
  [""; "ftp"; "http"; "gopher"; "nntp"; "telnet"; "imap"; "wais"; "file";
   "mms"; "https"; "shttp"; "snews"; "prospero"; "rtsp"; "rtspu"; "rsync";
   "svn"; "svn+ssh"; "sftp"; "nfs"; "git"; "git+ssh"; "ws"; "wss"].

Definition uses_params : list string :=
  [""; "ftp"; "hdl"; "prospero"; "http"; "imap"; "https"; "shttp"; "rtsp";
   "rtspu"; "sip"; "sips"; "mms"; "sftp"; "tel"].

Definition str_in (s : string) (l : list string) : bool := existsb (String.eqb s) l.

Definition is_upper (c : ascii) : bool :=
  let n := nat_of_ascii c in Nat.leb 65 n && Nat.leb n 90.
Definition is_lower (c : ascii) : bool :=
  let n := nat_of_ascii c in Nat.leb 97 n && Nat.leb n 122.
Definition is_digit (c : ascii) : bool :=
  let n := nat_of_ascii c in Nat.leb 48 n && Nat.leb n 57.

(** [c in scheme_chars] *)
Definition scheme_char (c : ascii) : bool :=
  is_upper c || is_lower c || is_digit c
  || Ascii.eqb c "+" || Ascii.eqb c "-" || Ascii.eqb c ".".

(** [c in _WHATWG_C0_CONTROL_OR_SPACE] *)
Definition c0_control_or_space (c : ascii) : bool := Nat.leb (nat_of_ascii c) 32.

(** [c in _UNSAFE_URL_BYTES_TO_REMOVE] *)
Definition unsafe_url_byte (c : ascii) : bool :=
  Ascii.eqb c (ascii_of_nat 9) || Ascii.eqb c CR || Ascii.eqb c LF.

Fixpoint str_forall (p : ascii → bool) (s : string) : bool :=
  match s with
  | EmptyString => true
  | String c s' => p c && str_forall p s'
  end.

(** [s.lstrip(chars)] *)
Fixpoint lstrip_chars (p : ascii → bool) (s : string) : string :=
  match s with
  | EmptyString => EmptyString
  | String c s' => if p c then lstrip_chars p s' else s
  end.

(** [s.rstrip(chars)] *)
Fixpoint rstrip_chars (p : ascii → bool) (s : string) : string :=
  match s with
  | EmptyString => EmptyString
  | String c s' =>
      match rstrip_chars p s' with
      | EmptyString => if p c then EmptyString else String c EmptyString
      | r => String c r
      end
  end.

(** [s] without the characters that satisfy [p] *)
Fixpoint remove_chars (p : ascii → bool) (s : string) : string :=
  match s with
  | EmptyString => EmptyString
  | String c s' => if p c then remove_chars p s' else String c (remove_chars p s')
  end.

(** [s.lower()] on ASCII letters *)
Fixpoint str_lower (s : string) : string :=
  match s with
  | EmptyString => EmptyString
  | String c s' =>
      String (if is_upper c then ascii_of_nat (nat_of_ascii c + 32) else c)
             (str_lower s')
  end.

(** [(s[:i], s[i:])] for the first [i] with [p s[i]], or the end of [s]. *)
Fixpoint str_break (p : ascii → bool) (s : string) : string * string :=
  match s with
  | EmptyString => ("", "")
  | String c s' =>
      if p c then ("", s)
      else let '(a, b) := str_break p s' in (String c a, b)
  end.

(** [s.rpartition(c)[2]]: what follows the last [c], or [s]. *)
Definition after_last (c : ascii) (s : string) : string :=
  List.last (str_split c s) "".

(** *** [ipaddress.ip_address] on a string: which strings it accepts *)

Definition is_hex (c : ascii) : bool :=
  let n := nat_of_ascii c in
  is_digit c || (Nat.leb 65 n && Nat.leb n 70) || (Nat.leb 97 n && Nat.leb n 102).

(** [int(s, 10)] on decimal digits *)
Definition decimal (s : string) : Z :=
  fold_left (λ acc c, 10 * acc + (Z.of_nat (nat_of_ascii c) - 48)) (list_ascii_of_string s) 0.

(** [IPv4Address._parse_octet] succeeds *)
Definition valid_octet (s : string) : bool :=
  negb (str_is_empty s)
  && str_forall is_digit s
  && Nat.leb (String.length s) 3
  && (String.eqb s "0" || negb (match s with String "0" _ => true | _ => false end))
  && (decimal s <=? 255).

(** [IPv4Address(s)] succeeds *)
Definition valid_ipv4 (s : string) : bool :=
  negb (str_contains "/" s)
  && negb (str_is_empty s)
  && Nat.eqb (length (str_split "." s)) 4
  && forallb valid_octet (str_split "." s).

(** [IPv6Address._parse_hextet] succeeds *)
Definition valid_hextet (s : string) : bool :=
  negb (str_is_empty s) && str_forall is_hex s && Nat.leb (String.length s) 4.

(** The indices [i] of [range(1, len(parts) - 1)] with [parts[i]] empty. *)
Definition empty_middle_parts (parts : list string) : list nat :=
  filter (λ i, (1 ≤ i)%nat ∧ (i < length parts - 1)%nat
               ∧ (parts !! i = Some ""))
         (seq 0 (length parts)).

(** [IPv6Address._ip_int_from_string(s)] succeeds *)
Definition valid_ipv6_addr (s : string) : bool :=
  negb (str_is_empty s)
  && (let parts := str_split ":" s in
      Nat.leb 3 (length parts)
      && (if str_contains "." (List.last parts "")
          then valid_ipv4 (List.last parts "") else true)
      && (let parts := if str_contains "." (List.last parts "")
                       then removelast parts ++ ["0"; "0"] else parts in
          Nat.leb (length parts) 9
          && match empty_middle_parts parts with
             | [] =>
                 Nat.eqb (length parts) 8
                 && negb (str_is_empty (List.hd "" parts))
                 && negb (str_is_empty (List.last parts ""))
                 && forallb valid_hextet parts
             | [skip_index] =>
                 let first_empty := str_is_empty (List.hd "" parts) in
                 let last_empty := str_is_empty (List.last parts "") in
                 let parts_hi := if first_empty then (skip_index - 1)%nat else skip_index in
                 let parts_lo := if last_empty then (length parts - skip_index - 2)%nat
                                 else (length parts - skip_index - 1)%nat in
                 (if first_empty then Nat.eqb parts_hi 0 else true)
                 && (if last_empty then Nat.eqb parts_lo 0 else true)
                 && Nat.leb (parts_hi + parts_lo) 7
                 && forallb valid_hextet (take parts_hi parts)
                 && forallb valid_hextet (drop (length parts - parts_lo) parts)
             | _ => false
             end)).

(** [IPv6Address(s)] succeeds: the address, with a scope id after [%] or
    without. *)
Definition valid_ipv6 (s : string) : bool :=
  negb (str_contains "/" s)
  && match str_cut "%" s with
     | Some (addr, scope_id) =>
         negb (str_is_empty scope_id) && negb (str_contains "%" scope_id)
         && valid_ipv6_addr addr
     | None => valid_ipv6_addr s
     end.

(** [re.match(r"\Av[a-fA-F0-9]+\..+\Z", hostname)] succeeds *)
Definition is_ipvfuture (hostname : string) : bool :=
  match hostname with
  | String "v" rest =>
      let '(digits, tail) := str_break (λ c, negb (is_hex c)) rest in
      negb (str_is_empty digits)
      && match tail with
         | String "." after =>
             negb (str_is_empty after) && negb (str_contains LF after)
         | _ => false
         end
  | _ => false
  end.

Definition _check_bracketed_host (hostname : string) : Result unit :=
  match hostname with
  | String "v" _ =>
      if is_ipvfuture hostname then Ok tt
      else Raise (mkExn ValueError "IPvFuture address is invalid")
  | _ =>
      if valid_ipv4 hostname
      then Raise (mkExn ValueError "An IPv4 address cannot be in brackets")
      else if valid_ipv6 hostname then Ok tt
      else Raise (mkExn ValueError
                    (py_repr hostname
                     +:+ " does not appear to be an IPv4 or IPv6 address"))
  end.

Definition Invalid_IPv6_URL : Exn := mkExn ValueError "Invalid IPv6 URL".

Definition _check_bracketed_netloc (netloc : string) : Result unit :=
  let hostname_and_port := after_last "@" netloc in
  match str_cut "[" hostname_and_port with
  | Some (before_bracket, bracketed) =>
      if negb (str_is_empty before_bracket) then Raise Invalid_IPv6_URL
      else
        let '(hostname, port) :=
          match str_cut "]" bracketed with
          | Some (h, p) => (h, p)
          | None => (bracketed, "")
          end in
        if negb (str_is_empty port)
           && negb (match port with String ":" _ => true | _ => false end)
        then Raise Invalid_IPv6_URL
        else _check_bracketed_host hostname
  | None =>
      _check_bracketed_host
        (match str_cut ":" hostname_and_port with
         | Some (h, _) => h
         | None => hostname_and_port
         end)
  end.

(** The five parts of [urlsplit]. *)
Record SplitResult := mkSplit {
  s_scheme : string; s_netloc : string; s_path : string;
  s_query : string; s_fragment : string
}.

(** [urlsplit(url, scheme)] *)
Definition urlsplit (url : string) (default_scheme : string) : Result SplitResult :=
  let url := lstrip_chars c0_control_or_space url in
  let default_scheme :=
    rstrip_chars c0_control_or_space (lstrip_chars c0_control_or_space default_scheme) in
  let url := remove_chars unsafe_url_byte url in
  let default_scheme := remove_chars unsafe_url_byte default_scheme in
  let '(scheme, url) :=
    match str_cut ":" url with
    | Some (String c0 pre, post) =>
        if (is_upper c0 || is_lower c0) && str_forall scheme_char (String c0 pre)
        then (str_lower (String c0 pre), post)
        else (default_scheme, url)
    | _ => (default_scheme, url)
    end in
  split_netloc ←
    match url with
    | String "/" (String "/" rest) =>
        let '(netloc, url) :=
          str_break (λ c, Ascii.eqb c "/" || Ascii.eqb c "?" || Ascii.eqb c "#") rest in
        (if (str_contains "[" netloc && negb (str_contains "]" netloc))
            || (str_contains "]" netloc && negb (str_contains "[" netloc))
         then Raise Invalid_IPv6_URL
         else if str_contains "[" netloc && str_contains "]" netloc
         then _check_bracketed_netloc netloc
         else Ok tt);;
        Ok (netloc, url)
    | _ => Ok ("", url)
    end;
  let '(netloc, url) := split_netloc : string * string in
  let '(url, fragment) :=
    match str_cut "#" url with Some (a, b) => (a, b) | None => (url, "") end in
  let '(url, query) :=
    match str_cut "?" url with Some (a, b) => (a, b) | None => (url, "") end in
  Ok (mkSplit scheme netloc url query fragment).

(** The parts of [urlparse]: those of [urlsplit] and the [params]. *)
Record ParseResult := mkParse {
  scheme : string; netloc : string; path : string;
  params : string; query : string; fragment : string
}.

(** [_splitparams(url)]: the parameters of the last path segment. *)
Definition _splitparams (url : string) : string * string :=
  let '(h, seg) := rsplit_slash url in
  match str_cut ";" seg with
  | Some (a, b) => (h +:+ a, b)
  | None => (url, "")
  end.

(** [urlparse(url, scheme)] *)
Definition urlparse (url : string) (default_scheme : string) : Result ParseResult :=
  r ← urlsplit url default_scheme;
  let '(url, params) :=
    if str_in (s_scheme r) uses_params && str_contains ";" (s_path r)
    then _splitparams (s_path r) else (s_path r, "") in
  Ok (mkParse (s_scheme r) (s_netloc r) url params (s_query r) (s_fragment r)).

(** [urlunsplit(parts)] *)
Definition urlunsplit (r : SplitResult) : string :=
  let url := s_path r in
  let url :=
    if negb (str_is_empty (s_netloc r))
       || (negb (str_is_empty (s_scheme r)) && str_in (s_scheme r) uses_netloc
           && negb (match url with String "/" (String "/" _) => true | _ => false end))
    then "//" +:+ s_netloc r
         +:+ (match url with
              | EmptyString => url
              | String "/" _ => url
              | _ => "/" +:+ url
              end)
    else url in
  let url := if str_is_empty (s_scheme r) then url else s_scheme r +:+ ":" +:+ url in
  let url := if str_is_empty (s_query r) then url else url +:+ "?" +:+ s_query r in
  if str_is_empty (s_fragment r) then url else url +:+ "#" +:+ s_fragment r.

(** [urlunparse(parts)] *)
Definition urlunparse (r : ParseResult) : string :=
  let url := if str_is_empty (params r) then path r
             else path r +:+ ";" +:+ params r in
  urlunsplit (mkSplit (scheme r) (netloc r) url (query r) (fragment r)).

(** [segments[1:-1] = filter(None, segments[1:-1])] *)
Definition squeeze_middle (segments : list string) : list string :=
  match segments with
  | [] => []
  | [x] => [x]
  | x :: r =>
      x :: filter (λ seg, str_is_empty seg = false) (removelast r) ++ [List.last r ""]
  end.

(** The loop over [segments] that builds [resolved_path]. *)
Fixpoint resolve (segments resolved_path : list string) : list string :=
  match segments with
  | [] => resolved_path
  | seg :: rest =>
      if String.eqb seg ".." then resolve rest (removelast resolved_path)
      else if String.eqb seg "." then resolve rest resolved_path
      else resolve rest (resolved_path ++ [seg])
  end.

Definition urljoin (base url : string) : Result string :=
  if str_is_empty base then Ok url
  else if str_is_empty url then Ok base
  else
    b ← urlparse base "";
    u ← urlparse url (scheme b);
    if negb (String.eqb (scheme u) (scheme b)) || negb (str_in (scheme u) uses_relative)
    then Ok url
    else if str_in (scheme u) uses_netloc && negb (str_is_empty (netloc u))
    then Ok (urlunparse u)
    else
      let netloc' := if str_in (scheme u) uses_netloc then netloc b else netloc u in
      if str_is_empty (path u) && str_is_empty (params u)
      then Ok (urlunparse
                 (mkParse (scheme u) netloc' (path b) (params b)
                    (if str_is_empty (query u) then query b else query u) (fragment u)))
      else
        let base_parts := str_split "/" (path b) in
        let base_parts :=
          if str_is_empty (List.last base_parts "") then base_parts
          else removelast base_parts in
        let segments :=
          match path u with
          | String "/" _ => str_split "/" (path u)
          | _ => squeeze_middle (base_parts ++ str_split "/" (path u))
          end in
        let resolved_path := resolve segments [] in
        let resolved_path :=
          if String.eqb (List.last segments "") "."
             || String.eqb (List.last segments "") ".."
          then resolved_path ++ [""] else resolved_path in
        let joined := str_join "/" resolved_path in
        Ok (urlunparse
              (mkParse (scheme u) netloc' (if str_is_empty joined then "/" else joined)
                 (params u) (query u) (fragment u))).

End urllib_parse.

(** ** [class BookScraper] *)

Record Session := mkSession { headers : list (string * string) }.

Record BookScraper := mkBookScraper { base_url : string; session : Session }.

(** [BookScraper.__init__] *)
Definition BookScraper_init (base_url : string) : BookScraper :=
  mkBookScraper base_url
    (mkSession
       [("User-Agent",
         "Mozilla/5.0 (Windows NT 10.0; Win64; x64) AppleWebKit/537.36 (KHTML, like Gecko) Chrome/91.0.4472.124 Safari/537.36")]).

(** The default of [base_url]. *)
Definition default_base_url : string := "https://books.toscrape.com/".

(** The default of [output_file] in [scrape_books]. *)
Definition default_output_file : string := "books.csv".

(** [rating_map] of [_extract_book_data] *)
Definition rating_map : list (string * Z) :=
  [("One", 1); ("Two", 2); ("Three", 3); ("Four", 4); ("Five", 5)].

(** [rating_map.get(key, default)] *)
Definition rating_map_get (key : string) (default : PyVal) : PyVal :=
  match assoc rating_map key with
  | Some n => VInt n
  | None => default
  end.

Section Scraper.

(** The two collaborators outside the program: [urllib.parse.urljoin], which
    returns the joined URL or raises, and the web the session talks to,
    which answers a URL with a transport error or a response. *)
Variable urljoin : string → string → Result string.
Variable web : string → (RequestError * string) + Response.

(** [self.session.get(url)] *)
Definition session_get (self : BookScraper) (url : string) : M Response :=
  emit (EvGet url);;
  match web url with
  | inl (k, msg) => raise (mkExn (RequestException k) msg)
  | inr response => mret response
  end.

Definition _get_page_content (self : BookScraper) (url : string)
  : M (option PageElement) :=
  try_except is_RequestException
    (response ← session_get self url;
     raise_for_status url response;;
     time_sleep 1;;
     mret (Some (BeautifulSoup (resp_text response))))
    (λ e,
       logging_error ("Error fetching " +:+ url +:+ ": " +:+ exn_str e);;
       mret None).

(** The [try] block of [_extract_book_data]: it only reads the tree and
    joins the link. *)
Definition _extract_book_data_try (self : BookScraper) (book : PageElement)
  : Result Dict :=
  title ← (h3 ← getattr_tag (Some book) "h3";
           a ← getattr_tag h3 "a";
           getitem a "title");
  price ← (t ← getattr_text (find "p" (Some "price_color") book);
           mret (str_strip t));
  rating_class ← (c ← getitem_class (find "p" (Some "star-rating") book);
                  list_getitem c 1);
  let rating := rating_map_get rating_class (VStr "N/A") in
  availability ← (t ← getattr_text (find "p" (Some "instock availability") book);
                  mret (str_strip t));
  relative_url ← (h3 ← getattr_tag (Some book) "h3";
                  a ← getattr_tag h3 "a";
                  getitem a "href");
  book_url ← urljoin (base_url self) relative_url;
  mret [("title", VStr title);
        ("price", VStr price);
        ("rating", rating);
        ("availability", VStr availability);
        ("url", VStr book_url)].

Definition _extract_book_data (self : BookScraper) (book : PageElement) : M Dict :=
  try_except is_Exception
    (lift (_extract_book_data_try self book))
    (λ e,
       logging_error ("Error extracting book data: " +:+ exn_str e);;
       mret []).

(** The body of the [with] statement of [_save_to_csv]. *)
Definition write_records (data : list Dict) (csvfile : Path) : M unit :=
  match data with
  | [] => mret tt
  | d0 :: _ =>
      let fieldnames := dict_keys d0 in
      writeheader csvfile fieldnames;;
      writerows csvfile fieldnames data
  end.

(** The [try] block of [_save_to_csv]. *)
Definition _save_to_csv_try (data : list Dict) (filename : string) : M unit :=
  os_makedirs (os_path_dirname filename) true;;
  with_open_w filename (write_records data).

Definition _save_to_csv (self : BookScraper) (data : list Dict) (filename : string)
  : M unit :=
  try_except is_Exception
    (_save_to_csv_try data filename)
    (λ e, logging_error ("Error saving to CSV: " +:+ exn_str e)).

(** [for book in books: ...] of [scrape_books], returning [all_books]. *)
Fixpoint for_book_in (self : BookScraper) (books : list PageElement)
    (all_books : list Dict) : M (list Dict) :=
  match books with
  | [] => mret all_books
  | book :: rest =>
      book_data ← _extract_book_data self book;
      for_book_in self rest
        (if dict_truthy book_data then all_books ++ [book_data] else all_books)
  end.

(** [while current_url: ...] of [scrape_books]; [None] and the empty string
    are false and end the loop.  Each turn of the loop takes one unit of
    [fuel]; the result is [None] when the fuel runs out before the loop
    ends, and the list [all_books] otherwise. *)
Fixpoint while_current_url (fuel : nat) (self : BookScraper)
    (current_url : option string) (all_books : list Dict)
  : M (option (list Dict)) :=
  match current_url with
  | Some url =>
      if str_is_empty url then mret (Some all_books)
      else
        match fuel with
        | O => mret None
        | S fuel' =>
            logging_info ("Scraping page: " +:+ url);;
            soup ← _get_page_content self url;
            match soup with
            | None => mret (Some all_books)            (* break *)
            | Some soup =>
                let books := find_all "article" (Some "product_pod") soup in
                all_books ← for_book_in self books all_books;
                match find "li" (Some "next") soup with
                | Some next_button =>
                    relative_next_url ←
                      lift (a ← getattr_tag (Some next_button) "a"; getitem a "href");
                    current_url ← lift (urljoin url relative_next_url);
                    while_current_url fuel' self (Some current_url) all_books
                | None =>
                    while_current_url fuel' self None all_books
                end
            end
        end
  | None => mret (Some all_books)
  end.

Definition scrape_books (fuel : nat) (self : BookScraper) (output_file : string)
  : M (option (list Dict)) :=
  try_except is_Exception
    (walked ← while_current_url fuel self (Some (base_url self)) [];
     match walked with
     | None => mret None
     | Some all_books =>
         _save_to_csv self all_books output_file;;
         logging_info ("Successfully scraped " +:+ pretty (length all_books)
                       +:+ " books. Data saved to " +:+ output_file);;
         mret (Some all_books)
     end)
    (λ e,
       logging_error ("Error during scraping: " +:+ exn_str e);;
       mret (Some [])).

End Scraper.

(** ** Reading a trace *)

(** The URLs requested, in order. *)
Definition visited (tr : list Event) : list string :=
  omap (λ e, match e with EvGet u => Some u | _ => None end) tr.

(** The delays slept, in order. *)
Definition sleeps (tr : list Event) : list Z :=
  omap (λ e, match e with EvSleep n => Some n | _ => None end) tr.

(** The files opened for writing, in order. *)
Definition opened (tr : list Event) : list string :=
  omap (λ e, match e with EvOpen p => Some p | _ => None end) tr.

Definition is_log (e : Event) : bool :=
  match e with EvLog _ _ => true | _ => false end.

(** ** What the walk is expected to produce *)

(** [book.h3.a] *)
Definition heading_anchor (book : PageElement) : Result (option PageElement) :=
  h3 ← getattr_tag (Some book) "h3"; getattr_tag h3 "a".

(** The statuses [raise_for_status] raises on: 4xx and 5xx. *)
Definition http_error (r : Response) : bool :=
  (400 <=? status_code r) && (status_code r <? 600).

(** A success status in the words of the specification, whose fetch
    failure is a non-success response status: the 2xx range. *)
Definition success_status (r : Response) : bool :=
  (200 <=? status_code r) && (status_code r <? 300).

(** A fetch failure as the specification words it: a network error or a
    non-success status. *)
Definition spec_fetch_failure (answer : (RequestError * string) + Response) : bool :=
  match answer with
  | inl _ => true
  | inr r => negb (success_status r)
  end.

(** The five columns of a record, in the order the dict literal gives them. *)
Definition record_fields : list string :=
  ["title"; "price"; "rating"; "availability"; "url"].

(** The values [rating] can take: 1 to 5, or the string the lookup defaults to. *)
Definition is_rating (v : PyVal) : Prop :=
  (∃ n, v = VInt n ∧ 1 ≤ n ≤ 5) ∨ v = VStr "N/A".

(** A dict with exactly the five fields, strings but for [rating]. *)
Definition is_record (d : Dict) : Prop :=
  ∃ title price rating availability url,
    d = [("title", VStr title); ("price", VStr price); ("rating", rating);
         ("availability", VStr availability); ("url", VStr url)]
    ∧ is_rating rating.

(** The rating mapping in the words of the specification, with the string the
    code uses for an unrecognised label. *)
Definition rating_of_label (label : string) : PyVal :=
  if String.eqb label "One" then VInt 1
  else if String.eqb label "Two" then VInt 2
  else if String.eqb label "Three" then VInt 3
  else if String.eqb label "Four" then VInt 4
  else if String.eqb label "Five" then VInt 5
  else VStr "N/A".

(** The line the writer produces for [rowdict] under [fieldnames]. *)
Definition csv_line (fieldnames : list string) (rowdict : Dict) : string :=
  csv_record (map (λ k, match dict_get rowdict k with
                        | Some v => py_str v
                        | None => ""
                        end) fieldnames).

Definition csv_rows (fieldnames : list string) (data : list Dict) : string :=
  str_concat (map (csv_line fieldnames) data).

(** The file [_save_to_csv] leaves for [data]: nothing for an empty list,
    else the header named after the first dict's keys and one line per dict. *)
Definition csv_text (data : list Dict) : string :=
  match data with
  | [] => ""
  | d0 :: _ =>
      csv_line (dict_keys d0) (map (λ k, (k, VStr k)) (dict_keys d0))
      +:+ csv_rows (dict_keys d0) data
  end.

(** The header row of the five columns. *)
Definition csv_header : string :=
  "title,price,rating,availability,url" +:+ String CR (String LF "").

Section Walk.

Variable urljoin : string → string → Result string.
Variable web : string → (RequestError * string) + Response.

(** The page [_get_page_content] returns for [url]: none on a transport error
    and on a status [raise_for_status] raises on. *)
Definition fetched (url : string) : option PageElement :=
  match web url with
  | inl _ => None
  | inr r => if http_error r then None else Some (BeautifulSoup (resp_text r))
  end.

(** What one item contributes: its record, or the empty dict when the
    extraction raises. *)
Definition book_record (self : BookScraper) (book : PageElement) : Dict :=
  match _extract_book_data_try urljoin self book with
  | Ok d => d
  | Raise _ => []
  end.

(** The records of one page: those of its items, in document order, the
    empty ones dropped. *)
Definition page_records (self : BookScraper) (soup : PageElement) : list Dict :=
  filter (λ d, dict_truthy d = true)
    (map (book_record self) (find_all "article" (Some "product_pod") soup)).

(** [next_button.a['href']] *)
Definition next_href (next_button : PageElement) : Result string :=
  a ← getattr_tag (Some next_button) "a"; getitem a "href".

(** [linked u pages nxt]: starting with [current_url = u], the loop fetches
    the pages of [pages] one after the other, each from the URL the page
    before links to, and is left with [current_url = nxt]. *)
Inductive linked : string → list (string * PageElement) → option string → Prop :=
| linked_nil u : linked u [] (Some u)
| linked_last u soup :
    u ≠ "" →
    fetched u = Some soup →
    find "li" (Some "next") soup = None →
    linked u [(u, soup)] None
| linked_next u soup next_button href next_url pages nxt :
    u ≠ "" →
    fetched u = Some soup →
    find "li" (Some "next") soup = Some next_button →
    next_href next_button = Ok href →
    urljoin u href = Ok next_url →
    linked next_url pages nxt →
    linked u ((u, soup) :: pages) nxt.

(** The records of a run of pages, page after page. *)
Definition chain_records (self : BookScraper) (pages : list (string * PageElement))
  : list Dict :=
  concat (map (λ p, page_records self (snd p)) pages).

End Walk.

(** ** Relations between the world before and after a statement *)

(** Whatever the outcome, the world [m] ends in is related by [R] to the one
    it starts in. *)
Definition keeps (R : World → World → Prop) {A} (m : M A) : Prop :=
  ∀ w, R w (snd (m w)).

(** Nothing was added to the trace. *)
Definition same_trace (w w' : World) : Prop := trace w' = trace w.

(** The trace grew by events that request no page and sleep no delay. *)
Definition quiet (w w' : World) : Prop :=
  ∃ evs, trace w' = trace w ++ evs ∧ visited evs = [] ∧ sleeps evs = [].

(** A path component: a string without a slash. *)
Definition no_slash (s : string) : Prop := str_contains "/" s = false.

(** ** A small catalogue to run the scraper on

    Two pages laid out like the site the scraper is written for: the seed
    page lists its items with links under [catalogue/] and points to
    [catalogue/page-2.html]; the second page lists its items with links next
    to itself and has no next-page link. *)
Module Demo.

Definition seed : string := default_base_url.
Definition page2_url : string := "https://books.toscrape.com/catalogue/page-2.html".

(** One [article.product_pod], with or without its price paragraph. *)
Definition product_pod (title href rating : string) (price : option string) : PageElement :=
  Tag "article" (Some ["product_pod"]) []
    [ Tag "p" (Some ["star-rating"; rating]) [] [];
      Tag "h3" None []
        [Tag "a" None [("href", href); ("title", title)] [NavigableString title]];
      Tag "div" (Some ["product_price"]) []
        (match price with
         | Some p => [Tag "p" (Some ["price_color"]) [] [NavigableString p]]
         | None => []
         end
         ++ [Tag "p" (Some ["instock"; "availability"]) []
               [NavigableString "   In stock   "]]) ].

Definition next_link (href : string) : PageElement :=
  Tag "li" (Some ["next"]) [] [Tag "a" None [("href", href)] [NavigableString "next"]].

Definition document (body : list PageElement) : list PageElement :=
  [Tag "html" None [] [Tag "body" None [] body]].

(** A price as the site shows it: the pound sign, [chr(163)], and the amount. *)
Definition pounds (amount : string) : string := String (ascii_of_nat 163) amount.

Definition book_attic : PageElement :=
  product_pod "A Light in the Attic" "catalogue/a-light-in-the-attic_1000/index.html"
    "Three" (Some (pounds "51.77")).

(** An item without the price paragraph. *)
Definition book_no_price : PageElement :=
  product_pod "Tipping the Velvet" "catalogue/tipping-the-velvet_999/index.html"
    "Two" None.

Definition book_himalayas : PageElement :=
  product_pod "It's Only the Himalayas" "its-only-the-himalayas_981/index.html"
    "Two" (Some (pounds "45.17")).

(** An item whose anchor has an empty [title] attribute. *)
Definition book_untitled : PageElement :=
  product_pod "" "catalogue/untitled_1/index.html" "One" (Some (pounds "10.00")).

(** An item whose rating class is outside the five labels. *)
Definition book_six_stars : PageElement :=
  product_pod "Sharp Objects" "catalogue/sharp-objects_997/index.html"
    "Six" (Some (pounds "47.82")).

Definition page1 : list PageElement :=
  document [book_attic; book_no_price; next_link "catalogue/page-2.html"].

Definition page2 : list PageElement := document [book_himalayas].

Definition not_found : (RequestError * string) + Response :=
  inr (mkResponse 404 "Not Found" []).

(** The two pages, served. *)
Definition web (url : string) : (RequestError * string) + Response :=
  if String.eqb url seed then inr (mkResponse 200 "OK" page1)
  else if String.eqb url page2_url then inr (mkResponse 200 "OK" page2)
  else not_found.

(** The same site with the second page missing. *)
Definition web_page2_down (url : string) : (RequestError * string) + Response :=
  if String.eqb url seed then inr (mkResponse 200 "OK" page1)
  else not_found.

(** A site whose one page lists no item. *)
Definition web_no_items (url : string) : (RequestError * string) + Response :=
  if String.eqb url seed then inr (mkResponse 200 "OK" (document []))
  else not_found.

(** A site whose one page lists the item with the empty title. *)
Definition web_untitled (url : string) : (RequestError * string) + Response :=
  if String.eqb url seed then inr (mkResponse 200 "OK" (document [book_untitled]))
  else not_found.

Definition scraper : BookScraper := BookScraper_init seed.

(** An environment that stamps every record with the same time and refuses
    no call. *)
Definition env0 : Env := mkEnv (λ _, "2024-01-01 12:00:00,000") (λ _ _, None).

(** The current directory of the runs, and the tree around it. *)
Definition home : Path := ["home"; "user"].

Definition tree0 : gmap Path FsNode :=
  list_to_map [(["home"], FsDir); (home, FsDir); (home ++ [log_file], FsFile "")].

(** The world before the run: nothing has happened, and the current
    directory holds the empty log file the [FileHandler] opened. *)
Definition w0 : World := mkWorld [] tree0 home env0.

(** A world where [out] is a regular file. *)
Definition w_out_is_file : World :=
  mkWorld [] (<[home ++ ["out"] := FsFile ""]> tree0) home env0.

End Demo.

(** ** Standard output

    The [__main__] block of [web_scraper_deepseek.py] and the two short
    scripts print what they find.  A script runs in a console: the world, and
    the strings printed so far, one per call of [print]. *)

Record Console := mkConsole { world : World; stdout : list string }.

Definition Proc (A : Type) : Type := Console → Result A * Console.

#[export] Instance Proc_ret : MRet Proc := λ A a c, (Ok a, c).
#[export] Instance Proc_bind : MBind Proc := λ A B f m c,
  match m c with
  | (Ok a, c') => f a c'
  | (Raise e, c') => (Raise e, c')
  end.

(** [print(line)] *)
Definition print (line : string) : Proc unit :=
  λ c, (Ok tt, mkConsole (world c) (stdout c ++ [line])).

(** A statement of the scraper, run by a script. *)
Definition in_world {A} (m : M A) : Proc A :=
  λ c, let '(r, w) := m (world c) in (r, mkConsole w (stdout c)).

(** An expression without effects, evaluated by a script. *)
Definition eval {A} (r : Result A) : Proc A := λ c, (r, c).

(** [d[k]] on a dict *)
Definition dict_getitem (d : Dict) (k : string) : Result PyVal :=
  match dict_get d k with
  | Some v => Ok v
  | None => Raise (mkExn KeyError ("'" +:+ k +:+ "'"))
  end.

(** [s * n] *)
Fixpoint str_repeat (s : string) (n : nat) : string :=
  match n with
  | O => ""
  | S n' => s +:+ str_repeat s n'
  end.

(** ** The [__main__] block of [web_scraper_deepseek.py] *)

(** The six [print] calls made for one book. *)
Definition print_book (book : Dict) : Proc unit :=
  title ← eval (dict_getitem book "title");
  print ("Title: " +:+ py_str title);;
  price ← eval (dict_getitem book "price");
  print ("Price: " +:+ py_str price);;
  rating ← eval (dict_getitem book "rating");
  print ("Rating: " +:+ py_str rating +:+ "/5");;
  availability ← eval (dict_getitem book "availability");
  print ("Availability: " +:+ py_str availability);;
  url ← eval (dict_getitem book "url");
  print ("URL: " +:+ py_str url);;
  print (str_repeat "-" 50).

(** [for book in books: ...] of the block *)
Fixpoint for_book_print (books : list Dict) : Proc unit :=
  match books with
  | [] => mret tt
  | book :: rest => print_book book;; for_book_print rest
  end.

(** The block itself; [None] when the walk runs out of fuel. *)
Definition main (urljoin : string → string → Result string)
    (web : string → (RequestError * string) + Response) (fuel : nat)
  : Proc (option unit) :=
  let scraper := BookScraper_init default_base_url in
  books_data ← in_world (scrape_books urljoin web fuel scraper "data/books.csv");
  match books_data with
  | None => mret None
  | Some books_data =>
      for_book_print (take 5 books_data);;
      mret (Some tt)
  end.

(** ** The two short scripts *)

(** [requests.get(url)]: as [session.get], without a session. *)
Definition requests_get (web : string → (RequestError * string) + Response)
    (url : string) : M Response :=
  emit (EvGet url);;
  match web url with
  | inl (k, msg) => raise (mkExn (RequestException k) msg)
  | inr response => mret response
  end.

(** [web_scraper_chatgpt.py] *)
Module web_scraper_chatgpt.

(** [for book in books: ...] of [scrape_books] *)
Fixpoint for_book_in (books : list PageElement) : Proc unit :=
  match books with
  | [] => mret tt
  | book :: rest =>
      title ← eval (h3 ← getattr_tag (Some book) "h3";
                    a ← getattr_tag h3 "a";
                    getitem a "title");
      price ← eval (getattr_text (find "p" (Some "price_color") book));
      rating_class ← eval (getitem_class (find "p" (Some "star-rating") book));
      rating ← eval (list_getitem rating_class 1);
      print ("Title: " +:+ title +:+ NL +:+ "Rating: " +:+ rating +:+ NL
             +:+ "Price: " +:+ price +:+ NL);;
      for_book_in rest
  end.

Definition scrape_books (web : string → (RequestError * string) + Response)
    (url : string) : Proc unit :=
  response ← in_world (requests_get web url);
  if negb (status_code response =? 200)
  then print ("Failed to retrieve the website. Status code: "
              +:+ pretty (status_code response))
  else
    let soup := BeautifulSoup (resp_text response) in
    let books := find_all "article" (Some "product_pod") soup in
    for_book_in books.

(** The [__main__] block *)
Definition main (web : string → (RequestError * string) + Response) : Proc unit :=
  let url := "https://books.toscrape.com/" in
  scrape_books web url.

End web_scraper_chatgpt.

(** [web_scraper.py]: the statements of the module, top to bottom. *)
Module web_scraper.

(** [for book in books: ...] *)
Fixpoint for_book_in (books : list PageElement) : Proc unit :=
  match books with
  | [] => mret tt
  | book :: rest =>
      title ← eval (h3 ← getattr_tag (Some book) "h3";
                    a ← getattr_tag h3 "a";
                    getitem a "title");
      rating ← eval (p ← getattr_tag (Some book) "p";
                     c ← getitem_class p;
                     list_getitem c 1);
      price ← eval (t ← getattr_text (find "p" (Some "price_color") book);
                    mret (str_strip t));
      print ("Book title:" +:+ title +:+ " has a rating rating of : " +:+ rating
             +:+ "stars" +:+ "with price " +:+ price);;
      for_book_in rest
  end.

Definition script (web : string → (RequestError * string) + Response) : Proc unit :=
  response ← in_world (requests_get web "https://books.toscrape.com/");
  let soup := BeautifulSoup (resp_text response) in
  let books := find_all "article" None soup in
  for_book_in books.

End web_scraper.

(** ** Further notions about walks, saves and printed output *)

(** How a walk that does not go on ends: with no next-page link
    ([current_url] is [None]), or at a URL whose fetch fails. *)
Definition walk_ends (web : string → (RequestError * string) + Response)
    (nxt : option string) : Prop :=
  match nxt with
  | None => True
  | Some u => u ≠ "" ∧ fetched web u = None
  end.

(** Every node of the tree is still there, as it was. *)
Definition grows_fs (w w' : World) : Prop :=
  ∀ p node, fs w !! p = Some node → fs w' !! p = Some node.

(** The absolute path a path names when it can be followed: without links
    it depends on the names alone. *)
Definition abspath (w : World) (p : string) : Path :=
  fold_left step (components p) (start w p).

(** All that happened to the tree is that the log file gained text. *)
Definition only_logged (w w' : World) : Prop :=
  cwd w' = cwd w ∧ env w' = env w
  ∧ (∀ p, p ≠ log_path w → fs w' !! p = fs w !! p)
  ∧ match fs w !! log_path w with
    | Some (FsFile c) => ∃ s, fs w' !! log_path w = Some (FsFile (c +:+ s))
    | other => fs w' !! log_path w = other
    end.

(** The message [scrape_books] logs at its end. *)
Definition success_message (all_books : list Dict) (output_file : string) : string :=
  "Successfully scraped " +:+ pretty (length all_books)
  +:+ " books. Data saved to " +:+ output_file.

(** A tree that keeps the directories of another lets through the paths
    that one lets through. *)
Definition keeps_dirs (m m' : gmap Path FsNode) : Prop :=
  ∀ p, m !! p = Some FsDir → m' !! p = Some FsDir.

(** The process is the same: its current directory and its environment. *)
Definition same_process (w w' : World) : Prop := cwd w' = cwd w ∧ env w' = env w.

(** A record the walk can hold: the one the [try] block of
    [_extract_book_data] returns for an item of a fetched page. *)
Definition scraped (urljoin : string → string → Result string)
    (web : string → (RequestError * string) + Response) (self : BookScraper)
    (d : Dict) : Prop :=
  ∃ url soup book,
    fetched web url = Some soup
    ∧ book ∈ find_all "article" (Some "product_pod") soup
    ∧ _extract_book_data_try urljoin self book = Ok d.

(** A write changes the file written to, and nothing else. *)
Definition writes_only (f : Path) (w w' : World) : Prop :=
  same_process w w' ∧ trace w' = trace w ∧ ∀ p, p ≠ f → fs w' !! p = fs w !! p.






(** What [web_scraper_chatgpt.scrape_books] prints for one item, or the
    exception the item makes it raise. *)
Definition book_block (book : PageElement) : Result string :=
  title ← (a ← heading_anchor book; getitem a "title");
  price ← getattr_text (find "p" (Some "price_color") book);
  rating_class ← getitem_class (find "p" (Some "star-rating") book);
  rating ← list_getitem rating_class 1;
  mret ("Title: " +:+ title +:+ NL +:+ "Rating: " +:+ rating +:+ NL
        +:+ "Price: " +:+ price +:+ NL).

(** What [web_scraper.py] prints for one [article], or the exception the
    article makes it raise. *)
Definition book_line (book : PageElement) : Result string :=
  title ← (a ← heading_anchor book; getitem a "title");
  rating ← (p ← getattr_tag (Some book) "p"; c ← getitem_class p; list_getitem c 1);
  price ← (t ← getattr_text (find "p" (Some "price_color") book); mret (str_strip t));
  mret ("Book title:" +:+ title +:+ " has a rating rating of : " +:+ rating
        +:+ "stars" +:+ "with price " +:+ price).

(** The values of the expressions of a list, when none raises. *)
Fixpoint all_Ok {A} (l : list (Result A)) : option (list A) :=
  match l with
  | [] => Some []
  | Ok a :: l' => match all_Ok l' with Some r => Some (a :: r) | None => None end
  | Raise _ :: _ => None
  end.

(** ** More sites and worlds to run the code on *)
Module Sites.

(** A page whose next-page link leads back to the page itself. *)
Definition web_cycle (url : string) : (RequestError * string) + Response :=
  if String.eqb url Demo.seed
  then inr (mkResponse 200 "OK"
              (Demo.document [Demo.book_attic; Demo.next_link "/"]))
  else Demo.not_found.

(** A page whose next-page item holds no link. *)
Definition web_broken_next (url : string) : (RequestError * string) + Response :=
  if String.eqb url Demo.seed
  then inr (mkResponse 200 "OK"
              (Demo.document [Demo.book_attic; Tag "li" (Some ["next"]) [] []]))
  else Demo.not_found.

(** A site that answers every request with 503. *)
Definition web_unavailable (url : string) : (RequestError * string) + Response :=
  inr (mkResponse 503 "Service Unavailable" (Demo.document [Demo.book_attic])).

(** A site whose one page lists two complete items. *)
Definition web_two_items (url : string) : (RequestError * string) + Response :=
  if String.eqb url Demo.seed
  then inr (mkResponse 200 "OK" (Demo.document [Demo.book_attic; Demo.book_six_stars]))
  else Demo.not_found.

(** A site whose second page is answered with the status 300 and a body
    that links on to a third page. *)
Definition page3_url : string := "https://books.toscrape.com/catalogue/page-3.html".

Definition web_multiple_choices (url : string) : (RequestError * string) + Response :=
  if String.eqb url Demo.seed then inr (mkResponse 200 "OK" Demo.page1)
  else if String.eqb url Demo.page2_url
  then inr (mkResponse 300 "Multiple Choices"
              (Demo.document [Demo.book_himalayas; Demo.next_link "page-3.html"]))
  else if String.eqb url page3_url then inr (mkResponse 200 "OK" (Demo.document []))
  else Demo.not_found.


(** An item whose link is no URL: its host opens a bracket and never closes
    it. *)
Definition book_bad_link : PageElement :=
  Demo.product_pod "Olio" "//[bad" "One" (Some (Demo.pounds "23.88")).

(** A site that cannot be reached. *)
Definition web_offline (url : string) : (RequestError * string) + Response :=
  inl (ConnectionError, "Connection refused").

(** A world that already holds a file of the user. *)
Definition w_notes : World :=
  mkWorld [] (<[Demo.home ++ ["notes.txt"] := FsFile "keep me"]> Demo.tree0)
    Demo.home Demo.env0.



(** A console on the empty world, with nothing printed. *)
Definition c0 : Console := mkConsole Demo.w0 [].

End Sites.
(** ** Running statements *)

Lemma bind_run {A B} (m : M A) (f : A → M B) (w : World) :
  (m ≫= f) w = match m w with
               | (Ok a, w') => f a w'
               | (Raise e, w') => (Raise e, w')
               end.
Proof. reflexivity. Qed.

Lemma visited_app a b : visited (a ++ b) = visited a ++ visited b.
Proof. apply omap_app. Qed.

Lemma sleeps_app a b : sleeps (a ++ b) = sleeps a ++ sleeps b.
Proof. apply omap_app. Qed.

Lemma opened_app a b : opened (a ++ b) = opened a ++ opened b.
Proof. apply omap_app. Qed.

Lemma logs_not_visited evs : forallb is_log evs = true → visited evs = [].
Proof.
  induction evs as [|e evs IH]; [done|].
  simpl. intros [He Hevs]%andb_prop. destruct e; try done. by apply IH.
Qed.

Lemma logs_not_sleeps evs : forallb is_log evs = true → sleeps evs = [].
Proof.
  induction evs as [|e evs IH]; [done|].
  simpl. intros [He Hevs]%andb_prop. destruct e; try done. by apply IH.
Qed.

Lemma logs_not_opened evs : forallb is_log evs = true → opened evs = [].
Proof.
  induction evs as [|e evs IH]; [done|].
  simpl. intros [He Hevs]%andb_prop. destruct e; try done. by apply IH.
Qed.

Lemma str_app_nil_r (s : string) : s +:+ "" = s.
Proof.
  induction s as [|c s IH]; [done|].
  change (String c s +:+ "") with (String c (s +:+ "")). by rewrite IH.
Qed.

Lemma str_app_assoc (a b c : string) : (a +:+ b) +:+ c = a +:+ (b +:+ c).
Proof.
  induction a as [|x a IH]; [done|].
  change (String x ((a +:+ b) +:+ c) = String x (a +:+ (b +:+ c))). by rewrite IH.
Qed.

(** *** What logging does to the world *)

Lemma only_logged_refl w : only_logged w w.
Proof.
  repeat split; try done.
  destruct (fs w !! log_path w) as [[|c]|]; try done.
  exists "". by rewrite str_app_nil_r.
Qed.

Lemma only_logged_log_path w w' : only_logged w w' → log_path w' = log_path w.
Proof. intros (Hcwd & _). unfold log_path. by rewrite Hcwd. Qed.

Lemma only_logged_trans w1 w2 w3 :
  only_logged w1 w2 → only_logged w2 w3 → only_logged w1 w3.
Proof.
  intros H12 H23. pose proof (only_logged_log_path _ _ H12) as Hlp.
  destruct H12 as (Hc1 & He1 & Ho1 & Hl1), H23 as (Hc2 & He2 & Ho2 & Hl2).
  rewrite Hlp in Ho2, Hl2.
  split; [congruence|]. split; [congruence|]. split.
  - intros p Hp. rewrite Ho2, Ho1; done.
  - destruct (fs w1 !! log_path w1) as [[|c]|].
    + by rewrite Hl1 in Hl2.
    + destruct Hl1 as [s1 Hl1]. rewrite Hl1 in Hl2. destruct Hl2 as [s2 Hl2].
      exists (s1 +:+ s2). by rewrite <- str_app_assoc.
    + by rewrite Hl1 in Hl2.
Qed.

Lemma logged_only_logged lvl msg w : only_logged w (logged lvl msg w).
Proof.
  unfold logged. repeat split; cbn [cwd env fs]; try done.
  - intros p Hp. by rewrite lookup_alter_ne.
  - rewrite lookup_alter_eq.
    destruct (fs w !! log_path w) as [[|c]|]; cbn; try done.
    by eexists.
Qed.

(** Logging changes what files hold, not which paths are directories. *)
Lemma only_logged_dir w w' p :
  only_logged w w' → (fs w' !! p = Some FsDir ↔ fs w !! p = Some FsDir).
Proof.
  intros (_ & _ & Ho & Hl).
  destruct (decide (p = log_path w)) as [->|Hp]; [|by rewrite Ho].
  destruct (fs w !! log_path w) as [[|c]|]; try by rewrite Hl.
  destruct Hl as [s ->]. done.
Qed.


(** *** [_extract_book_data] and the loop over the items of a page *)

Lemma extract_book_data_run urljoin self book w :
  _extract_book_data urljoin self book w =
  match _extract_book_data_try urljoin self book with
  | Ok d => (Ok d, w)
  | Raise e => (Ok [], logged ERROR ("Error extracting book data: " +:+ exn_str e) w)
  end.
Proof.
  unfold _extract_book_data, try_except, lift.
  by destruct (_extract_book_data_try urljoin self book).
Qed.

Lemma extract_book_data_logs urljoin self book w :
  ∃ logs w',
    _extract_book_data urljoin self book w = (Ok (book_record urljoin self book), w')
    ∧ trace w' = trace w ++ logs
    ∧ forallb is_log logs = true
    ∧ only_logged w w'.
Proof.
  rewrite extract_book_data_run. unfold book_record.
  destruct (_extract_book_data_try urljoin self book) as [d|e].
  - exists [], w. rewrite app_nil_r. split; [done|]. split; [done|].
    split; [done|]. apply only_logged_refl.
  - eexists [_], _. split; [done|]. split; [done|]. split; [done|].
    apply logged_only_logged.
Qed.

Lemma for_book_in_run urljoin self books all_books w :
  ∃ logs w',
    for_book_in urljoin self books all_books w =
      (Ok (all_books
           ++ filter (λ d, dict_truthy d = true) (map (book_record urljoin self) books)),
       w')
    ∧ trace w' = trace w ++ logs
    ∧ forallb is_log logs = true
    ∧ only_logged w w'.
Proof.
  revert all_books w.
  induction books as [|book books IH]; intros all_books w.
  - exists [], w. simpl. rewrite !app_nil_r. split; [done|]. split; [done|].
    split; [done|]. apply only_logged_refl.
  - cbn [for_book_in map]. rewrite bind_run.
    destruct (extract_book_data_logs urljoin self book w) as (l1 & w1 & -> & Ht1 & Hl1 & Ho1).
    rewrite filter_cons.
    destruct (dict_truthy (book_record urljoin self book)) eqn:Hd.
    + destruct (IH (all_books ++ [book_record urljoin self book]) w1)
        as (l2 & w2 & -> & Ht2 & Hl2 & Ho2).
      exists (l1 ++ l2), w2. rewrite Ht2, Ht1.
      rewrite <- !app_assoc, forallb_app, Hl1, Hl2. case_decide; [|done].
      do 3 (split; [done|]). by eapply only_logged_trans.
    + destruct (IH all_books w1) as (l2 & w2 & -> & Ht2 & Hl2 & Ho2).
      exists (l1 ++ l2), w2. rewrite Ht2, Ht1.
      rewrite <- !app_assoc, forallb_app, Hl1, Hl2. case_decide; [done|].
      do 3 (split; [done|]). by eapply only_logged_trans.
Qed.

Lemma Result_bind_Ok {A B} (m : Result A) (f : A → Result B) (b : B) :
  m ≫= f = Ok b → ∃ a, m = Ok a ∧ f a = Ok b.
Proof. destruct m as [a|e]; [by exists a | done]. Qed.

Lemma rating_map_get_label label :
  rating_map_get label (VStr "N/A") = rating_of_label label.
Proof.
  unfold rating_map_get, rating_of_label, rating_map. cbn [assoc].
  repeat (destruct (String.eqb label _); [reflexivity|]).
  reflexivity.
Qed.

Lemma rating_of_label_is_rating label : is_rating (rating_of_label label).
Proof.
  unfold rating_of_label, is_rating.
  repeat (destruct (String.eqb label _); [left; eexists; split; [reflexivity|lia]|]).
  by right.
Qed.

(** What the [try] block returns, when it returns: the five fields, read
    where the source reads them. *)
Lemma extract_try_Ok urljoin self book d :
  _extract_book_data_try urljoin self book = Ok d →
  ∃ a title price_tag classes label avail_tag href book_url,
    heading_anchor book = Ok a
    ∧ getitem a "title" = Ok title
    ∧ find "p" (Some "price_color") book = Some price_tag
    ∧ getitem_class (find "p" (Some "star-rating") book) = Ok classes
    ∧ classes !! 1%nat = Some label
    ∧ find "p" (Some "instock availability") book = Some avail_tag
    ∧ getitem a "href" = Ok href
    ∧ urljoin (base_url self) href = Ok book_url
    ∧ d = [("title", VStr title);
           ("price", VStr (str_strip (text price_tag)));
           ("rating", rating_of_label label);
           ("availability", VStr (str_strip (text avail_tag)));
           ("url", VStr book_url)].
Proof.
  unfold _extract_book_data_try. intros H.
  apply Result_bind_Ok in H as (title & Htitle & H).
  apply Result_bind_Ok in H as (price & Hprice & H).
  apply Result_bind_Ok in H as (label & Hlabel & H).
  apply Result_bind_Ok in H as (avail & Havail & H).
  apply Result_bind_Ok in H as (href & Hhref & H).
  apply Result_bind_Ok in H as (book_url & Hurl & H).
  apply Result_bind_Ok in Htitle as (h3 & Hh3 & Htitle).
  apply Result_bind_Ok in Htitle as (a & Ha & Htitle).
  apply Result_bind_Ok in Hhref as (h3' & Hh3' & Hhref).
  apply Result_bind_Ok in Hhref as (a' & Ha' & Hhref).
  assert (h3' = h3) as -> by congruence.
  assert (a' = a) as -> by congruence.
  apply Result_bind_Ok in Hprice as (pt & Hpt & Hprice).
  apply Result_bind_Ok in Havail as (at' & Hat & Havail).
  apply Result_bind_Ok in Hlabel as (classes & Hclasses & Hlabel).
  destruct (find "p" (Some "price_color") book) as [price_tag|] eqn:Hp; [|done].
  destruct (find "p" (Some "instock availability") book) as [avail_tag|] eqn:Hav; [|done].
  unfold list_getitem in Hlabel.
  destruct (classes !! 1%nat) as [label'|] eqn:Hl; [|done].
  exists a, title, price_tag, classes, label, avail_tag, href, book_url.
  cbn in Hpt, Hat, Hprice, Havail, H.
  rewrite rating_map_get_label in H.
  unfold mret, Result_ret in *.
  repeat split; try done.
  - unfold heading_anchor. rewrite Hh3. exact Ha.
  - congruence.
  - congruence.
Qed.

(** Conversely, when every field is where the source looks for it and the
    link can be joined, the block returns the record. *)
Lemma extract_try_fields urljoin self book a title price_tag classes label avail_tag
    href book_url :
  heading_anchor book = Ok a →
  getitem a "title" = Ok title →
  find "p" (Some "price_color") book = Some price_tag →
  getitem_class (find "p" (Some "star-rating") book) = Ok classes →
  classes !! 1%nat = Some label →
  find "p" (Some "instock availability") book = Some avail_tag →
  getitem a "href" = Ok href →
  urljoin (base_url self) href = Ok book_url →
  _extract_book_data_try urljoin self book =
    Ok [("title", VStr title);
        ("price", VStr (str_strip (text price_tag)));
        ("rating", rating_of_label label);
        ("availability", VStr (str_strip (text avail_tag)));
        ("url", VStr book_url)].
Proof.
  unfold heading_anchor, _extract_book_data_try.
  intros Ha Htitle Hp Hc Hl Hav Hhref Hurl.
  destruct (getattr_tag (Some book) "h3") as [h3|] eqn:Hh3; [|done].
  cbn [mbind Result_bind] in Ha |- *. rewrite Ha.
  cbn [mbind Result_bind]. rewrite Htitle, Hp, Hc, Hav, Hhref.
  cbn [mbind Result_bind getattr_text mret Result_ret].
  unfold list_getitem. rewrite Hl. cbn [mbind Result_bind]. rewrite Hurl.
  cbn [mbind Result_bind].
  by rewrite rating_map_get_label.
Qed.

Lemma extract_try_is_record urljoin self book d :
  _extract_book_data_try urljoin self book = Ok d → is_record d.
Proof.
  intros (a & title & pt & cs & label & avt & href & u & _ & _ & _ & _ & _ & _ & _ & _ & ->)
    %extract_try_Ok.
  do 5 eexists. split; [reflexivity|]. apply rating_of_label_is_rating.
Qed.

Lemma page_records_are_records urljoin self soup :
  Forall is_record (page_records urljoin self soup).
Proof.
  unfold page_records. apply Forall_forall. intros d Hd.
  apply list_elem_of_filter in Hd as [Hd Hin].
  apply list_elem_of_fmap in Hin as (book & -> & _).
  unfold book_record in *.
  destruct (_extract_book_data_try urljoin self book) as [d|e] eqn:He; [|done].
  by eapply extract_try_is_record.
Qed.

(** *** [_get_page_content] *)

Ltac run :=
  repeat first
    [ rewrite bind_run
    | progress unfold logging_info, logging_error, logging_log, time_sleep, emit,
        raise, lift
    | progress cbn [trace fs cwd env with_trace with_fs mret M_ret fst snd] ].

Ltac run_in H :=
  repeat first
    [ rewrite bind_run in H
    | progress unfold logging_info, logging_error, logging_log, time_sleep, emit,
        raise, lift in H
    | progress cbn [trace fs cwd env with_trace with_fs mret M_ret fst snd] in H ].

Lemma trace_logged lvl msg w : trace (logged lvl msg w) = trace w ++ [EvLog lvl msg].
Proof. reflexivity. Qed.

(** An event that is no log record leaves the tree alone. *)
Lemma with_trace_only_logged w tr : only_logged w (with_trace w tr).
Proof.
  unfold with_trace. split; [done|]. split; [done|]. split; [done|]. cbn [fs].
  destruct (fs w !! log_path w) as [[|c]|]; try done.
  exists "". by rewrite str_app_nil_r.
Qed.

Lemma get_page_content_run web self url w :
  ∃ ev w',
    _get_page_content web self url w = (Ok (fetched web url), w')
    ∧ trace w' = trace w ++ [EvGet url; ev]
    ∧ only_logged w w'
    ∧ match fetched web url with
      | Some _ => ev = EvSleep 1 ∧ fs w' = fs w
      | None => ∃ msg, ev = EvLog ERROR ("Error fetching " +:+ url +:+ ": " +:+ msg)
      end.
Proof.
  unfold _get_page_content, try_except, session_get, fetched, http_error, raise_for_status.
  run. destruct (web url) as [[k msg]|r].
  - run. cbn [is_RequestException exn_class].
    eexists _, _. split; [reflexivity|]. rewrite trace_logged. cbn [trace with_trace].
    rewrite <- app_assoc. split; [reflexivity|]. split; [|by eexists].
    eapply only_logged_trans; [|apply logged_only_logged]. apply with_trace_only_logged.
  - run.
    destruct (400 <=? status_code r) eqn:H400;
      destruct (status_code r <? 500) eqn:H500;
      destruct (500 <=? status_code r) eqn:H500';
      destruct (status_code r <? 600) eqn:H600;
      try lia; cbn [andb]; run; cbn [is_RequestException exn_class andb];
      eexists _, _; (split; [reflexivity|]);
      rewrite ?trace_logged; cbn [trace with_trace]; rewrite <- ?app_assoc;
      (split; [reflexivity|]);
      (split;
       [ first [ eapply only_logged_trans; [|apply logged_only_logged];
                 apply with_trace_only_logged
               | eapply only_logged_trans; apply with_trace_only_logged ]
       | first [ by eexists | done ] ]).
Qed.

(** *** One turn of the [while] loop *)

Lemma while_done urljoin web fuel self all_books w :
  while_current_url urljoin web fuel self None all_books w = (Ok (Some all_books), w).
Proof. by destruct fuel. Qed.

Lemma while_empty_url urljoin web fuel self all_books w :
  while_current_url urljoin web fuel self (Some "") all_books w
  = (Ok (Some all_books), w).
Proof. by destruct fuel. Qed.

(** The fetch fails: [break]. *)
Lemma while_fetch_fails urljoin web fuel self url all_books w :
  url ≠ "" →
  fetched web url = None →
  ∃ evs w',
    while_current_url urljoin web (S fuel) self (Some url) all_books w
    = (Ok (Some all_books), w')
    ∧ trace w' = trace w ++ evs
    ∧ only_logged w w'
    ∧ visited evs = [url] ∧ sleeps evs = [] ∧ opened evs = [].
Proof.
  intros Hurl Hfetch. destruct url as [|c url]; [done|].
  cbn [while_current_url str_is_empty]. run.
  set (w1 := logged _ _ _).
  destruct (get_page_content_run web self (String c url) w1) as (ev & w2 & -> & Ht & Ho & Hev).
  rewrite Hfetch in Hev |- *. run. destruct Hev as [msg ->].
  eexists [_; _; _], w2. split; [reflexivity|]. subst w1.
  rewrite trace_logged in Ht. rewrite <- app_assoc in Ht. split; [exact Ht|].
  split; [|done].
  eapply only_logged_trans; [apply logged_only_logged | exact Ho].
Qed.

(** The fetch succeeds: the records of the page are appended, and the loop
    goes on with the next-page link, or with [None] when there is none. *)
Lemma while_page urljoin web fuel self url soup all_books w :
  url ≠ "" →
  fetched web url = Some soup →
  ∃ evs w',
    while_current_url urljoin web (S fuel) self (Some url) all_books w
    = match find "li" (Some "next") soup with
      | Some next_button =>
          relative_next_url ← lift (next_href next_button);
          current_url ← lift (urljoin url relative_next_url);
          while_current_url urljoin web fuel self (Some current_url)
            (all_books ++ page_records urljoin self soup)
      | None =>
          while_current_url urljoin web fuel self None
            (all_books ++ page_records urljoin self soup)
      end w'
    ∧ trace w' = trace w ++ evs
    ∧ only_logged w w'
    ∧ visited evs = [url] ∧ sleeps evs = [1] ∧ opened evs = [].
Proof.
  intros Hurl Hfetch. destruct url as [|c url]; [done|].
  cbn [while_current_url str_is_empty]. run.
  set (w1 := logged _ _ _).
  destruct (get_page_content_run web self (String c url) w1) as (ev & w2 & -> & Ht & Ho & Hev).
  rewrite Hfetch in Hev |- *. destruct Hev as [-> _]. run.
  destruct (for_book_in_run urljoin self
              (find_all "article" (Some "product_pod") soup) all_books w2)
    as (logs & w3 & -> & Ht3 & Hlogs & Ho3).
  exists ([EvLog INFO ("Scraping page: " +:+ String c url);
           EvGet (String c url); EvSleep 1] ++ logs), w3.
  split.
  { unfold page_records, next_href. by destruct (find "li" (Some "next") soup). }
  split.
  { rewrite Ht3, Ht. subst w1. rewrite trace_logged. by rewrite <- !app_assoc. }
  split.
  { eapply only_logged_trans; [apply logged_only_logged|].
    eapply only_logged_trans; [exact Ho | exact Ho3]. }
  rewrite visited_app, sleeps_app, opened_app.
  rewrite (logs_not_visited _ Hlogs), (logs_not_sleeps _ Hlogs),
    (logs_not_opened _ Hlogs). done.
Qed.

(** *** The loop along a chain of pages *)

Lemma while_linked urljoin web self u pages nxt :
  linked urljoin web u pages nxt →
  ∀ fuel all_books w, ∃ evs w',
    while_current_url urljoin web (length pages + fuel) self (Some u) all_books w
    = while_current_url urljoin web fuel self nxt
        (all_books ++ chain_records urljoin self pages) w'
    ∧ trace w' = trace w ++ evs
    ∧ only_logged w w'
    ∧ visited evs = map fst pages
    ∧ sleeps evs = map (λ _, 1) pages
    ∧ opened evs = [].
Proof.
  induction 1 as [u | u soup Hu Hf Hnone
                 | u soup nb href next_url pages nxt Hu Hf Hnb Hhref Hjoin _ IH];
    intros fuel all_books w.
  - exists [], w. cbn. rewrite !app_nil_r. split; [done|]. split; [done|].
    split; [apply only_logged_refl | done].
  - destruct (while_page urljoin web fuel self u soup all_books w Hu Hf)
      as (evs & w1 & Hrun & Ht & Ho & Hv & Hs & Hop).
    exists evs, w1. cbn [length Nat.add]. rewrite Hrun, Hnone.
    unfold chain_records. cbn. rewrite app_nil_r. done.
  - destruct (while_page urljoin web (length pages + fuel) self u soup all_books w Hu Hf)
      as (evs & w1 & Hrun & Ht & Ho & Hv & Hs & Hop).
    cbn [length Nat.add]. rewrite Hrun, Hnb, Hhref. run. rewrite Hjoin. run.
    destruct (IH fuel (all_books ++ page_records urljoin self soup) w1)
      as (evs' & w2 & -> & Ht' & Ho' & Hv' & Hs' & Hop').
    exists (evs ++ evs'), w2.
    rewrite visited_app, sleeps_app, opened_app, Hv, Hs, Hop, Hv', Hs', Hop'.
    unfold chain_records. cbn [map concat snd fst].
    rewrite <- !app_assoc, Ht', Ht, <- app_assoc.
    do 2 (split; [done|]). split; [by eapply only_logged_trans | done].
Qed.

(** *** What holds of the loop on every web *)

Lemma page_records_scraped urljoin web self url soup :
  fetched web url = Some soup →
  Forall (scraped urljoin web self) (page_records urljoin self soup).
Proof.
  intros Hf. unfold page_records. apply Forall_forall. intros d Hd.
  apply list_elem_of_filter in Hd as [Hd Hin].
  apply list_elem_of_fmap in Hin as (book & -> & Hbook).
  unfold book_record in *.
  destruct (_extract_book_data_try urljoin self book) as [d|e] eqn:He; [|done].
  by exists url, soup, book.
Qed.

Lemma scraped_is_record urljoin web self d : scraped urljoin web self d → is_record d.
Proof. intros (url & soup & book & _ & _ & H). by eapply extract_try_is_record. Qed.

(** The loop changes nothing in the tree but the log file and opens no file;
    what it returns extends the accumulator by records. *)
Lemma while_invariant urljoin web fuel self :
  ∀ current_url all_books w r w',
    while_current_url urljoin web fuel self current_url all_books w = (r, w') →
    only_logged w w'
    ∧ (∃ evs, trace w' = trace w ++ evs ∧ opened evs = [])
    ∧ (∀ books, r = Ok (Some books) →
         ∃ more, books = all_books ++ more ∧ Forall (scraped urljoin web self) more).
Proof.
  induction fuel as [|fuel IH]; intros current_url all_books w r w' Hrun.
  - destruct current_url as [[|c url]|]; cbn in Hrun; injection Hrun as <- <-;
      (split; [apply only_logged_refl|]); (split; [exists []; by rewrite app_nil_r|]);
      intros books [= <-]; exists []; by rewrite app_nil_r.
  - destruct current_url as [url|]; [destruct (decide (url = "")) as [->|Hurl]|].
    + rewrite while_empty_url in Hrun. injection Hrun as <- <-.
      split; [apply only_logged_refl|]. split; [exists []; by rewrite app_nil_r|].
      intros books [= <-]; exists []; by rewrite app_nil_r.
    + destruct (fetched web url) as [soup|] eqn:Hf.
      * destruct (while_page urljoin web fuel self url soup all_books w Hurl Hf)
          as (evs & w1 & Hstep & Ht & Ho & _ & _ & Hop).
        rewrite Hstep in Hrun. clear Hstep.
        assert (∃ cur,
                   (while_current_url urljoin web fuel self cur
                      (all_books ++ page_records urljoin self soup) w1 = (r, w'))
                   ∨ (∃ e, r = Raise e ∧ w' = w1)) as [cur Hcases].
        { destruct (find "li" (Some "next") soup) as [nb|].
          - run_in Hrun.
            destruct (next_href nb) as [href|e].
            + run_in Hrun. destruct (urljoin url href) as [next_url|e].
              * eexists. left. exact Hrun.
              * exists None. right. exists e. by injection Hrun as <- <-.
            + exists None. right. exists e. by injection Hrun as <- <-.
          - exists None. by left. }
        destruct Hcases as [Hrest | (e & -> & ->)].
        -- apply IH in Hrest as (Hfs & (evs' & Htr & Ho') & Hbooks).
           split; [by eapply only_logged_trans|]. split.
           ++ exists (evs ++ evs'). rewrite Htr, Ht, <- app_assoc.
              split; [done|]. by rewrite opened_app, Hop, Ho'.
           ++ intros books Hr. destruct (Hbooks books Hr) as (more & -> & Hmore).
              exists (page_records urljoin self soup ++ more).
              rewrite app_assoc. split; [done|].
              apply Forall_app. split; [by eapply page_records_scraped | done].
        -- split; [done|]. split; [by exists evs|]. done.
      * destruct (while_fetch_fails urljoin web fuel self url all_books w Hurl Hf)
          as (evs & w1 & Hstep & Ht & Ho & _ & _ & Hop).
        rewrite Hstep in Hrun. injection Hrun as <- <-.
        split; [done|]. split; [by exists evs|].
        intros books [= <-]. exists []. by rewrite app_nil_r.
    + rewrite while_done in Hrun. injection Hrun as <- <-.
      split; [apply only_logged_refl|]. split; [exists []; by rewrite app_nil_r|].
      intros books [= <-]; exists []; by rewrite app_nil_r.
Qed.

(** *** Statements that keep a relation between the worlds *)

Section Frame.

Variable R : World → World → Prop.
Hypothesis R_refl : ∀ w, R w w.
Hypothesis R_trans : ∀ w1 w2 w3, R w1 w2 → R w2 w3 → R w1 w3.

Lemma keeps_ret {A} (a : A) : keeps R (mret a).
Proof. intros w. apply R_refl. Qed.

Lemma keeps_raise {A} (e : Exn) : keeps R (@raise A e).
Proof. intros w. apply R_refl. Qed.

Lemma keeps_lift {A} (r : Result A) : keeps R (lift r).
Proof. intros w. apply R_refl. Qed.

Lemma keeps_bind {A B} (m : M A) (f : A → M B) :
  keeps R m → (∀ a, keeps R (f a)) → keeps R (m ≫= f).
Proof.
  intros Hm Hf w. rewrite bind_run. specialize (Hm w).
  destruct (m w) as [[a|e] w1]; cbn [snd] in *; [|done].
  eapply R_trans; [exact Hm | apply Hf].
Qed.

Lemma keeps_try {A} catches (body : M A) handler :
  keeps R body → (∀ e, keeps R (handler e)) → keeps R (try_except catches body handler).
Proof.
  intros Hm Hh w. unfold try_except. specialize (Hm w).
  destruct (body w) as [[a|e] w1]; cbn [snd] in *; [done|].
  destruct (catches e); [|done].
  eapply R_trans; [exact Hm | apply Hh].
Qed.

Lemma keeps_exists p : keeps R (os_path_exists p).
Proof. intros w. apply R_refl. Qed.

Lemma keeps_isdir p : keeps R (os_path_isdir p).
Proof. intros w. apply R_refl. Qed.

Lemma keeps_close f : keeps R (file_close f).
Proof. intros w. unfold file_close. case_match; apply R_refl. Qed.

Lemma keeps_with_open {A} filename (body : Path → M A) :
  keeps R (open_w filename) → (∀ f, keeps R (body f)) →
  keeps R (with_open_w filename body).
Proof.
  intros Hopen Hbody w. unfold with_open_w. specialize (Hopen w).
  destruct (open_w filename w) as [[f|e] w0]; cbn [snd] in *; [|done].
  specialize (Hbody f w0). pose proof (keeps_close f) as Hclose.
  destruct (body f w0) as [[a|e] w1]; cbn [snd] in *;
    specialize (Hclose w1);
    destruct (file_close f w1) as [[[]|e'] w2]; cbn [snd] in *;
    (eapply R_trans; [exact Hopen|]); (eapply R_trans; [exact Hbody|]); exact Hclose.
Qed.

Lemma keeps_makedirs :
  (∀ name, keeps R (os_mkdir name)) →
  ∀ fuel name exist_ok, keeps R (makedirs_rec fuel name exist_ok).
Proof.
  intros Hmkdir. induction fuel as [|fuel IH]; intros name exist_ok;
    cbn [makedirs_rec];
    destruct (os_path_split name) as [h t];
    destruct (if str_is_empty t then os_path_split h else (h, t)) as [h' t'].
  all: apply keeps_bind;
    [ destruct (negb (str_is_empty h') && negb (str_is_empty t'));
      [ apply keeps_bind; [apply keeps_exists|];
        intros [|]; [apply keeps_ret|];
        apply keeps_bind; [|intros; apply keeps_ret]
      | apply keeps_ret ]
    | intros [|]; [apply keeps_ret|];
      apply keeps_try; [apply Hmkdir|];
      intros e; apply keeps_bind; [apply keeps_isdir|];
      intros isd; destruct (negb exist_ok || negb isd);
      [apply keeps_raise | apply keeps_ret] ].
  - apply keeps_ret.
  - apply keeps_try; [apply IH | intros; apply keeps_ret].
Qed.

Lemma keeps_writerow csvfile fieldnames rowdict :
  (∀ s, keeps R (file_write csvfile s)) →
  keeps R (writerow csvfile fieldnames rowdict).
Proof. intros Hw. apply keeps_bind; [apply keeps_lift | intros; apply Hw]. Qed.

Lemma keeps_writerows csvfile fieldnames rowdicts :
  (∀ s, keeps R (file_write csvfile s)) →
  keeps R (writerows csvfile fieldnames rowdicts).
Proof.
  intros Hw. induction rowdicts as [|d rest IH]; cbn [writerows].
  - apply keeps_ret.
  - apply keeps_bind; [by apply keeps_writerow | intros _; apply IH].
Qed.

(** The [try] block of [_save_to_csv] keeps what its system calls keep. *)
Lemma keeps_save_try data filename :
  (∀ name, keeps R (os_mkdir name)) →
  keeps R (open_w filename) →
  (∀ f s, keeps R (file_write f s)) →
  keeps R (_save_to_csv_try data filename).
Proof.
  intros Hmkdir Hopen Hwrite. unfold _save_to_csv_try.
  apply keeps_bind; [by apply keeps_makedirs|]. intros _.
  apply keeps_with_open; [done|]. intros f. unfold write_records.
  destruct data as [|d0 rest]; [apply keeps_ret|].
  apply keeps_bind; [by apply keeps_writerow|]. intros _. by apply keeps_writerows.
Qed.

Lemma keeps_save self data filename :
  (∀ name, keeps R (os_mkdir name)) →
  keeps R (open_w filename) →
  (∀ f s, keeps R (file_write f s)) →
  (∀ lvl msg, keeps R (logging_log lvl msg)) →
  keeps R (_save_to_csv self data filename).
Proof.
  intros Hmkdir Hopen Hwrite Hlog. apply keeps_try; [by apply keeps_save_try|].
  intros e. apply Hlog.
Qed.

End Frame.

(** *** The file system calls of [_save_to_csv] *)

Lemma quiet_refl w : quiet w w.
Proof. exists []. by rewrite app_nil_r. Qed.

Lemma quiet_trans w1 w2 w3 : quiet w1 w2 → quiet w2 w3 → quiet w1 w3.
Proof.
  intros (e1 & H1 & Hv1 & Hs1) (e2 & H2 & Hv2 & Hs2).
  exists (e1 ++ e2). rewrite H2, H1, <- app_assoc, visited_app, sleeps_app.
  by rewrite Hv1, Hv2, Hs1, Hs2.
Qed.

Lemma mkdir_same_trace name : keeps same_trace (os_mkdir name).
Proof.
  intros w. unfold os_mkdir, same_trace.
  repeat (case_match; try done).
Qed.

Lemma write_same_trace f s : keeps same_trace (file_write f s).
Proof. intros w. unfold file_write, same_trace. by case_match. Qed.

Lemma makedirs_same_trace name exist_ok w :
  trace (snd (os_makedirs name exist_ok w)) = trace w.
Proof.
  apply (keeps_makedirs same_trace); unfold same_trace; try congruence.
  apply mkdir_same_trace.
Qed.

Lemma same_trace_quiet {A} (m : M A) : keeps same_trace m → keeps quiet m.
Proof. intros H w. exists []. rewrite app_nil_r. split; [apply H | done]. Qed.

Lemma open_w_quiet filename : keeps quiet (open_w filename).
Proof.
  intros w. unfold open_w.
  repeat (case_match; try apply quiet_refl).
  all: by exists [EvOpen filename].
Qed.

Lemma save_to_csv_quiet self data filename :
  keeps quiet (_save_to_csv self data filename).
Proof.
  apply keeps_save; try apply quiet_refl; try apply quiet_trans.
  - intros name. apply same_trace_quiet, mkdir_same_trace.
  - apply open_w_quiet.
  - intros f s. apply same_trace_quiet, write_same_trace.
  - intros lvl msg w. by exists [EvLog lvl msg].
Qed.

(** [os.makedirs('')] raises, whatever the tree holds and whatever the
    environment refuses. *)
Lemma makedirs_empty exist_ok w :
  os_makedirs "" exist_ok w = (Raise (errno ENOENT ""), w).
Proof.
  unfold os_makedirs. cbn [String.length makedirs_rec].
  cbn. unfold try_except, os_mkdir. cbn. run. unfold os_path_isdir. run.
  assert ((if has_nul "" then false
           else match fault (env w) (SysStat "") (fs w) with
                | Some _ => false
                | None => match stat w "" with inr FsDir => true | _ => false end
                end) = false) as ->.
  { cbn. by destruct (fault (env w) (SysStat "") (fs w)). }
  by destruct exist_ok.
Qed.

(** [_save_to_csv] never raises: what its [try] block raises is logged. *)
Lemma save_to_csv_run self data filename w :
  _save_to_csv self data filename w =
  match _save_to_csv_try data filename w with
  | (Ok _, w1) => (Ok tt, w1)
  | (Raise e, w1) => (Ok tt, logged ERROR ("Error saving to CSV: " +:+ exn_str e) w1)
  end.
Proof.
  unfold _save_to_csv, try_except.
  by destruct (_save_to_csv_try data filename w) as [[[]|e] w1].
Qed.

(** [scrape_books] once the loop has returned its list. *)
Lemma scrape_books_after_loop urljoin web fuel self output_file w all_books w1 :
  while_current_url urljoin web fuel self (Some (base_url self)) [] w
    = (Ok (Some all_books), w1) →
  scrape_books urljoin web fuel self output_file w =
  (Ok (Some all_books),
   logged INFO (success_message all_books output_file)
     (snd (_save_to_csv self all_books output_file w1))).
Proof.
  intros Hloop. unfold scrape_books, try_except. rewrite bind_run, Hloop.
  rewrite bind_run, save_to_csv_run.
  by destruct (_save_to_csv_try all_books output_file w1) as [[[]|e] w2].
Qed.

(** *** Paths as strings and as lists of names *)

Lemma str_split_cons c s : ∃ p ps, str_split c s = p :: ps.
Proof.
  induction s as [|x s (p & ps & IH)]; [by eexists _, _|].
  cbn [str_split]. destruct (Ascii.eqb c x); [by eexists _, _|].
  rewrite IH. by eexists _, _.
Qed.

(** Splitting at a separator splits the pieces before it and after it. *)
Lemma str_split_app c a b :
  str_split c (a +:+ String c b) = str_split c a ++ str_split c b.
Proof.
  induction a as [|x a IH].
  - change ("" +:+ String c b) with (String c b). cbn [str_split].
    by rewrite Ascii.eqb_refl.
  - change (String x a +:+ String c b) with (String x (a +:+ String c b)).
    cbn [str_split]. rewrite IH. destruct (Ascii.eqb c x); [done|].
    by destruct (str_split_cons c a) as (p & ps & ->).
Qed.

Lemma ends_with_slash_app h : ends_with_slash h = true → ∃ a, h = a +:+ "/".
Proof.
  induction h as [|c h IH]; [done|]. cbn [ends_with_slash].
  destruct h as [|c' h].
  - intros ->%Ascii.eqb_eq. by exists "".
  - intros [a ->]%IH. by exists (String c a).
Qed.

Lemma str_split_no_slash t : no_slash t → str_split "/" t = [t].
Proof.
  unfold no_slash. induction t as [|c t IH]; [done|].
  cbn [str_contains str_split]. intros [Hc Ht]%orb_false_elim.
  by rewrite Hc, (IH Ht).
Qed.

Lemma components_app h t :
  h = "" ∨ ends_with_slash h = true → no_slash t →
  components (h +:+ t) = components h ++ (if str_is_empty t then [] else [t]).
Proof.
  intros [->|[a ->]%ends_with_slash_app] Ht.
  - change ("" +:+ t) with t. unfold components. rewrite (str_split_no_slash _ Ht).
    cbn. by destruct t.
  - rewrite str_app_assoc. change ("/" +:+ t) with (String "/" t).
    unfold components. rewrite !str_split_app, !filter_app.
    rewrite (str_split_no_slash _ Ht). cbn. rewrite app_nil_r. by destruct t.
Qed.

Lemma rsplit_slash_spec p h t :
  rsplit_slash p = (h, t) →
  p = h +:+ t ∧ no_slash t ∧ (h = "" ∨ ends_with_slash h = true).
Proof.
  revert h t. induction p as [|c p IH]; intros h t.
  - intros [= <- <-]. by split; [|split; [|left]].
  - cbn [rsplit_slash]. destruct (rsplit_slash p) as [h' t'].
    destruct (IH h' t' eq_refl) as (-> & Ht' & Hh').
    destruct h' as [|x h']; cbn [str_is_empty].
    + destruct (Ascii.eqb c "/") eqn:Hc.
      * apply Ascii.eqb_eq in Hc as ->. intros [= <- <-].
        split; [done|]. split; [done|]. by right.
      * intros [= <- <-]. split; [done|]. split; [|by left].
        unfold no_slash. cbn [str_contains]. rewrite Ascii.eqb_sym, Hc. exact Ht'.
    + intros [= <- <-]. split; [done|]. split; [done|]. right.
      destruct Hh' as [?|Hh']; [done|]. exact Hh'.
Qed.

(** Stripping the slashes at the end removes empty pieces at the end. *)
Lemma str_split_rstrip_slash h :
  ∃ k, str_split "/" h = str_split "/" (str_rstrip_slash h) ++ replicate k "".
Proof.
  induction h as [|c h [k IH]]; [by exists O|].
  cbn [str_rstrip_slash str_split]. rewrite IH, (Ascii.eqb_sym c "/").
  destruct (Ascii.eqb "/" c) eqn:Hc.
  - destruct (str_rstrip_slash h) as [|x r] eqn:Hr.
    + exists (S k). done.
    + exists k. cbn [str_split]. by rewrite Hc.
  - exists k. destruct (str_rstrip_slash h) as [|x r] eqn:Hr.
    + cbn [str_split app]. by rewrite Hc.
    + cbn [str_split]. rewrite Hc.
      destruct (Ascii.eqb "/" x); [done|].
      by destruct (str_split_cons "/" r) as (p & ps & ->).
Qed.

Lemma components_rstrip_slash h : components (str_rstrip_slash h) = components h.
Proof.
  unfold components. destruct (str_split_rstrip_slash h) as [k ->].
  rewrite filter_app.
  assert (filter (λ c : string, str_is_empty c = false) (replicate k "") = []) as ->.
  { induction k as [|k IH]; [done|]. cbn [replicate]. rewrite filter_cons.
    by case_decide. }
  by rewrite app_nil_r.
Qed.

Lemma rstrip_slash_first h c r : str_rstrip_slash h = String c r → ∃ h', h = String c h'.
Proof.
  destruct h as [|x h]; [done|]. cbn [str_rstrip_slash].
  destruct (str_rstrip_slash h); [destruct (Ascii.eqb x "/")|]; intros [= <- <-];
    by eexists.
Qed.


(** The directory part of a path that does not end with a slash names what
    the path names up to its last name. *)
Lemma dirname_components p :
  ends_with_slash p = false → os_path_dirname p ≠ "" →
  components (os_path_dirname p) = removelast (components p)
  ∧ is_absolute (os_path_dirname p) = is_absolute p
  ∧ ∃ t, components p = components (os_path_dirname p) ++ [t] ∧ no_slash t ∧ t ≠ "".
Proof.
  intros Hend Hdir. unfold os_path_dirname, os_path_split in *.
  destruct (rsplit_slash p) as [h t] eqn:Hsplit.
  apply rsplit_slash_spec in Hsplit as (-> & Ht & Hh). cbn [fst] in *.
  assert (t ≠ "") as Hne.
  { intros ->. rewrite str_app_nil_r in Hend. destruct Hh as [->|Hh]; [|congruence].
    by cbn in Hdir. }
  assert (components (if str_is_empty (str_rstrip_slash h) then h else str_rstrip_slash h)
          = components h) as Hc.
  { destruct (str_is_empty (str_rstrip_slash h)); [done|apply components_rstrip_slash]. }
  rewrite Hc, (components_app _ _ Hh Ht).
  replace (str_is_empty t) with false by (by destruct t).
  split; [by rewrite removelast_last|]. split; [|by exists t].
  destruct h as [|c h]; [done|].
  change (String c h +:+ t) with (String c (h +:+ t)). cbn [is_absolute].
  destruct (str_rstrip_slash (String c h)) as [|x r] eqn:Hr; cbn [str_is_empty]; [done|].
  by apply rstrip_slash_first in Hr as [h' [= -> ->]].
Qed.

(** *** Following a path in two trees *)

Lemma node_at_snoc (m : gmap Path FsNode) dir c : node_at m (dir ++ [c]) = m !! (dir ++ [c]).
Proof. by destruct dir. Qed.

Lemma step_name dir c : is_dot c = false → step dir c = dir ++ [c].
Proof.
  unfold is_dot, step. intros [H1 H2]%orb_false_elim. by rewrite H1, H2.
Qed.

Lemma walk_app m dir names c :
  walk m dir (names ++ [c])
  = match walk m dir names with
    | inl e => inl e
    | inr d => match search m d with
               | Some e => inl e
               | None => inr (step d c)
               end
    end.
Proof.
  revert dir. induction names as [|n names IH]; intros dir; cbn [app walk].
  - by destruct (search m dir).
  - destruct (search m dir); [done|]. apply IH.
Qed.

(** Without links, a path that can be followed leads where its names say. *)
Lemma walk_abspath m dir names d :
  walk m dir names = inr d → d = fold_left step names dir.
Proof.
  revert dir. induction names as [|n names IH]; intros dir; cbn [walk fold_left].
  - by intros [= <-].
  - destruct (search m dir); [done|]. apply IH.
Qed.

Lemma search_keeps_dirs m m' dir :
  keeps_dirs m m' → search m dir = None → search m' dir = None.
Proof.
  intros Hk. destruct dir as [|c dir]; [done|]. unfold search. cbn [node_at].
  destruct (m !! _) as [[|x]|] eqn:Hm; try done. by rewrite (Hk _ Hm).
Qed.

Lemma walk_keeps_dirs m m' dir names d :
  keeps_dirs m m' → walk m dir names = inr d → walk m' dir names = inr d.
Proof.
  intros Hk. revert dir. induction names as [|n names IH]; intros dir; cbn [walk]; [done|].
  destruct (search m dir) eqn:Hs; [done|].
  rewrite (search_keeps_dirs _ _ _ Hk Hs). apply IH.
Qed.

(** *** A save that raises nothing *)

Lemma same_process_refl w : same_process w w.
Proof. done. Qed.

Lemma same_process_trans w1 w2 w3 :
  same_process w1 w2 → same_process w2 w3 → same_process w1 w3.
Proof. intros [? ?] [? ?]. split; congruence. Qed.

Lemma mkdir_same_process name : keeps same_process (os_mkdir name).
Proof. intros w. unfold os_mkdir. repeat (case_match; try done). Qed.

Lemma open_w_same_process filename : keeps same_process (open_w filename).
Proof. intros w. unfold open_w. repeat (case_match; try done). Qed.

Lemma write_same_process f s : keeps same_process (file_write f s).
Proof. intros w. unfold file_write. by case_match. Qed.

Lemma makedirs_same_process name exist_ok : keeps same_process (os_makedirs name exist_ok).
Proof.
  apply (keeps_makedirs same_process);
    [apply same_process_refl | apply same_process_trans | apply mkdir_same_process].
Qed.

(** A successful [open]: the path does not end with a slash, its last name
    is looked up in a directory and names no directory there, and the file
    is there, empty. *)
Lemma open_w_Ok filename w f w' :
  open_w filename w = (Ok f, w') →
  ∃ dir c,
    resolve_parent w filename = inr (dir, Some c)
    ∧ f = dir ++ [c]
    ∧ filename ≠ ""
    ∧ ends_with_slash filename = false
    ∧ fs w !! f ≠ Some FsDir
    ∧ w' = mkWorld (trace w ++ [EvOpen filename]) (<[f := FsFile ""]> (fs w))
             (cwd w) (env w).
Proof.
  unfold open_w. intros H.
  destruct (has_nul filename); [done|].
  destruct (str_is_empty filename) eqn:Hempty; [done|].
  destruct (fault (env w) (SysOpen filename) (fs w)); [done|].
  destruct (resolve_parent w filename) as [e|[dir [c|]]]; [done| |done].
  destruct (ends_with_slash filename); [done|].
  exists dir, c.
  destruct (fs w !! (dir ++ [c])) as [[|x]|] eqn:Hf; [done| |];
    injection H as <- <-; (split; [done|]); (split; [done|]);
    (split; [by intros ->|]); (split; [done|]); (split; [by rewrite Hf|]); done.
Qed.

Lemma resolve_parent_Ok w p dir c :
  resolve_parent w p = inr (dir, Some c) →
  ∃ before,
    components p = before ++ [c]
    ∧ walk (fs w) (start w p) before = inr dir
    ∧ search (fs w) dir = None
    ∧ is_dot c = false.
Proof.
  unfold resolve_parent.
  destruct (reverse (components p)) as [|c' before] eqn:Hrev; [done|].
  destruct (walk (fs w) (start w p) (reverse before)) as [e|d] eqn:Hwalk; [done|].
  destruct (search (fs w) d) eqn:Hs; [done|].
  destruct (is_dot c') eqn:Hdot; [done|]. intros [= <- <-].
  exists (reverse before). split; [|done].
  rewrite <- (reverse_involutive (components p)), Hrev. by rewrite reverse_cons.
Qed.

Lemma writerow_Ok csvfile fieldnames rowdict w w' :
  writerow csvfile fieldnames rowdict w = (Ok tt, w') →
  w' = with_fs w (alter (append_to (csv_line fieldnames rowdict)) csvfile (fs w)).
Proof.
  unfold writerow, _dict_to_list, csv_line. run.
  destruct (filter _ (dict_keys rowdict)); [|done].
  unfold file_write. case_match; [done|]. by intros [= <-].
Qed.

Lemma writerows_Ok csvfile fieldnames rowdicts :
  ∀ w w',
    writerows csvfile fieldnames rowdicts w = (Ok tt, w') →
    trace w' = trace w
    ∧ same_process w w'
    ∧ (∀ p, p ≠ csvfile → fs w' !! p = fs w !! p)
    ∧ (∀ c, fs w !! csvfile = Some (FsFile c) →
            fs w' !! csvfile = Some (FsFile (c +:+ csv_rows fieldnames rowdicts))).
Proof.
  induction rowdicts as [|d rest IH]; intros w w' H.
  - injection H as <-. split; [done|]. split; [done|]. split; [done|].
    intros c Hc. unfold csv_rows, str_concat. cbn [map fold_right].
    by rewrite str_app_nil_r.
  - cbn [writerows] in H. rewrite bind_run in H.
    destruct (writerow csvfile fieldnames d w) as [[[]|e] w1] eqn:Hrow; [|done].
    apply writerow_Ok in Hrow. apply IH in H as (Htr & Hproc & Hother & Hfile).
    subst w1. unfold same_process in *. cbn [trace fs cwd env with_fs] in *.
    split; [done|]. split; [done|]. split.
    + intros p Hp. rewrite Hother by done. by rewrite lookup_alter_ne.
    + intros c Hc. unfold csv_rows, str_concat. cbn [map fold_right].
      rewrite <- str_app_assoc. apply Hfile.
      by rewrite lookup_alter_eq, Hc.
Qed.

(** The body of the [with] statement, when it raises nothing, on the file
    just opened. *)
Lemma write_records_Ok f data w w' :
  write_records data f w = (Ok tt, w') →
  fs w !! f = Some (FsFile "") →
  trace w' = trace w
  ∧ same_process w w'
  ∧ (∀ p, p ≠ f → fs w' !! p = fs w !! p)
  ∧ fs w' !! f = Some (FsFile (csv_text data)).
Proof.
  unfold write_records. intros H Hf. destruct data as [|d0 rest].
  - by injection H as <-.
  - cbn zeta in H. rewrite bind_run in H. unfold writeheader in H.
    destruct (writerow f (dict_keys d0) _ w) as [[[]|e] wc] eqn:Hhead; [|done].
    apply writerow_Ok in Hhead.
    apply writerows_Ok in H as (Htr & Hproc & Hother & Hfile).
    subst wc. unfold same_process in *. cbn [trace fs cwd env with_fs] in *.
    split; [done|]. split; [done|]. split.
    + intros p Hp. rewrite Hother by done. by rewrite lookup_alter_ne.
    + unfold csv_text. apply Hfile. by rewrite lookup_alter_eq, Hf.
Qed.

Lemma with_open_w_Ok {A} filename (body : Path → M A) w a w' :
  with_open_w filename body w = (Ok a, w') →
  ∃ f w0, open_w filename w = (Ok f, w0) ∧ body f w0 = (Ok a, w').
Proof.
  unfold with_open_w. destruct (open_w filename w) as [[f|e] w0]; [|done].
  destruct (body f w0) as [[a'|e] w1] eqn:Hbody; unfold file_close;
    destruct (fault (env w1) (SysClose f) (fs w1)); try done.
  intros [= <- <-]. by exists f, w0.
Qed.

(** What a run of the [try] block of [_save_to_csv] that raises nothing
    leaves. *)
Lemma save_to_csv_try_Ok data filename w w' :
  _save_to_csv_try data filename w = (Ok tt, w') →
  trace w' = trace w ++ [EvOpen filename]
  ∧ same_process w w'
  ∧ stat w' filename = inr (FsFile (csv_text data))
  ∧ fs w' !! abspath w filename = Some (FsFile (csv_text data))
  ∧ stat w' (os_path_dirname filename) = inr FsDir.
Proof.
  unfold _save_to_csv_try. intros H. rewrite bind_run in H.
  destruct (os_makedirs (os_path_dirname filename) true w) as [[[]|e] wa] eqn:Hmk;
    [|done].
  pose proof (makedirs_same_trace (os_path_dirname filename) true w) as Htr.
  pose proof (makedirs_same_process (os_path_dirname filename) true w) as [Hcwd Henv].
  rewrite Hmk in Htr, Hcwd, Henv. cbn [snd] in Htr, Hcwd, Henv.
  assert (os_path_dirname filename ≠ "") as Hdir.
  { intros Hd. rewrite Hd, makedirs_empty in Hmk. done. }
  apply with_open_w_Ok in H as (f & wb & Hopen & Hbody).
  apply open_w_Ok in Hopen as (dir & c & Hres & -> & Hne & Hend & Hnodir & ->).
  apply resolve_parent_Ok in Hres as (before & Hcomp & Hwalk & Hsearch & Hdot).
  apply write_records_Ok in Hbody as (Htr' & [Hcwd' Henv'] & Hother & Hfile);
    [|cbn [fs]; by rewrite lookup_insert_eq].
  cbn [trace fs cwd env] in *.
  assert (keeps_dirs (fs wa) (fs w')) as Hkeep.
  { intros p Hp. rewrite Hother by congruence. rewrite lookup_insert_ne by congruence.
    done. }
  assert (start w' filename = start wa filename) as Hstart.
  { unfold start. by rewrite Hcwd'. }
  assert (is_dot (List.last (components filename) "") = false) as Hlast.
  { by rewrite Hcomp, last_last. }
  split; [by rewrite Htr', Htr|]. split; [split; congruence|]. split; [|split].
  - unfold stat. replace (str_is_empty filename) with false by (by destruct filename).
    rewrite Hcomp, walk_app, Hstart, (walk_keeps_dirs _ _ _ _ _ Hkeep Hwalk).
    rewrite (search_keeps_dirs _ _ _ Hkeep Hsearch), (step_name _ _ Hdot).
    rewrite node_at_snoc, Hfile, Hend. by rewrite last_last, Hdot.
  - unfold abspath. rewrite Hcomp, fold_left_app. cbn [fold_left].
    assert (start w filename = start wa filename) as ->.
    { unfold start. by rewrite Hcwd. }
    by rewrite <- (walk_abspath _ _ _ _ Hwalk), (step_name _ _ Hdot).
  - destruct (dirname_components filename Hend Hdir) as (Hdc & Habs & t & Hct & _).
    unfold stat.
    replace (str_is_empty (os_path_dirname filename)) with false
      by (by destruct (os_path_dirname filename)).
    assert (components (os_path_dirname filename) = before) as Hbefore.
    { rewrite Hdc, Hcomp. by rewrite removelast_last. }
    assert (start w' (os_path_dirname filename) = start wa filename) as ->.
    { unfold start. by rewrite Habs, Hcwd'. }
    rewrite Hbefore, (walk_keeps_dirs _ _ _ _ _ Hkeep Hwalk).
    pose proof (search_keeps_dirs _ _ _ Hkeep Hsearch) as Hs. unfold search in Hs.
    destruct (node_at (fs w') dir) as [[|x]|]; done.
Qed.

(** *** Reading the tree after records were logged *)

Lemma only_logged_keeps_dirs w w' : only_logged w w' → keeps_dirs (fs w) (fs w').
Proof. intros H p Hp. by apply (only_logged_dir _ _ _ H). Qed.

Lemma only_logged_start w w' p : only_logged w w' → start w' p = start w p.
Proof. intros (Hcwd & _). unfold start. by rewrite Hcwd. Qed.

(** A directory is still one. *)
Lemma stat_dir_only_logged w w' p :
  only_logged w w' → stat w p = inr FsDir → stat w' p = inr FsDir.
Proof.
  intros Hlog. pose proof (only_logged_keeps_dirs _ _ Hlog) as Hk.
  unfold stat. destruct (str_is_empty p); [done|].
  rewrite (only_logged_start _ _ _ Hlog).
  destruct (walk (fs w) (start w p) (components p)) as [e|d] eqn:Hwalk; [done|].
  rewrite (walk_keeps_dirs _ _ _ _ _ Hk Hwalk).
  destruct d as [|c d]; [done|]. cbn [node_at].
  destruct (fs w !! (c :: d)) as [[|x]|] eqn:Hd; [|by case_match|done].
  by rewrite (Hk _ Hd).
Qed.

(** A file is still one; it holds what it held, and for the log file what
    was logged since. *)
Lemma stat_file_only_logged w w' p c :
  only_logged w w' → stat w p = inr (FsFile c) →
  ∃ s, stat w' p = inr (FsFile (c +:+ s)) ∧ (abspath w p ≠ log_path w → s = "").
Proof.
  intros Hlog. pose proof (only_logged_keeps_dirs _ _ Hlog) as Hk.
  unfold stat, abspath. destruct (str_is_empty p); [done|].
  rewrite (only_logged_start _ _ _ Hlog).
  destruct (walk (fs w) (start w p) (components p)) as [e|d] eqn:Hwalk; [done|].
  rewrite (walk_keeps_dirs _ _ _ _ _ Hk Hwalk).
  rewrite <- (walk_abspath _ _ _ _ Hwalk).
  destruct d as [|n d]; [done|]. cbn [node_at].
  destruct (fs w !! (n :: d)) as [[|x]|] eqn:Hd; [done| |done].
  destruct (ends_with_slash p || is_dot (List.last (components p) "")); [done|].
  intros [= <-]. destruct Hlog as (_ & _ & Hother & Hfile).
  destruct (decide (n :: d = log_path w)) as [Heq|Hne].
  - rewrite <- Heq in Hfile. rewrite Hd in Hfile. destruct Hfile as [s Hs].
    exists s. by rewrite Hs.
  - exists "". rewrite (Hother _ Hne), Hd, str_app_nil_r. done.
Qed.

(** ** The claims *)

(** *** Missing price *)

(** C1, as the code has it: an item without the price element makes
    [_extract_book_data] log one error and return the empty dict, whatever
    else the item holds; the loop over the page then appends nothing for it.
    No record with a placeholder price is produced. *)
Theorem missing_price_drops_the_item urljoin self book w :
  find "p" (Some "price_color") book = None →
  (∃ msg, _extract_book_data urljoin self book w = (Ok [], logged ERROR msg w))
  ∧ (∀ all_books, fst (for_book_in urljoin self [book] all_books w) = Ok all_books).
Proof.
  intros Hprice.
  assert (∃ e, _extract_book_data_try urljoin self book = Raise e) as [e He].
  { destruct (_extract_book_data_try urljoin self book) as [d|e] eqn:Htry; [|by exists e].
    apply extract_try_Ok in Htry as (? & ? & pt & ? & ? & ? & ? & ? & _ & _ & Hp & _).
    congruence. }
  split.
  - rewrite extract_book_data_run, He. by eexists.
  - intros all_books. cbn [for_book_in]. rewrite bind_run, extract_book_data_run, He.
    reflexivity.
Qed.

Lemma missing_price_drops_the_item_witness :
  (∃ msg,
     _extract_book_data urllib_parse.urljoin Demo.scraper Demo.book_no_price Demo.w0
     = (Ok [], logged ERROR msg Demo.w0))
  ∧ (∀ all_books,
       fst (for_book_in urllib_parse.urljoin Demo.scraper [Demo.book_no_price]
              all_books Demo.w0) = Ok all_books).
Proof.
  apply (missing_price_drops_the_item urllib_parse.urljoin Demo.scraper
           Demo.book_no_price Demo.w0).
  vm_compute. reflexivity.
Defined.

(** C1, as stated, fails: the item [Demo.book_no_price] has its title and no
    price element, and [_extract_book_data] returns no dict whose price is
    ["unknown"]: it returns the empty dict. *)
Lemma missing_price_has_no_placeholder :
  find "p" (Some "price_color") Demo.book_no_price = None
  ∧ (heading_anchor Demo.book_no_price ≫= λ a, getitem a "title")
    = Ok "Tipping the Velvet"
  ∧ fst (_extract_book_data urllib_parse.urljoin Demo.scraper Demo.book_no_price Demo.w0)
    = Ok []
  ∧ ¬ ∃ d w',
        _extract_book_data urllib_parse.urljoin Demo.scraper Demo.book_no_price Demo.w0
        = (Ok d, w')
        ∧ dict_get d "price" = Some (VStr "unknown").
Proof.
  split; [vm_compute; reflexivity|].
  split; [vm_compute; reflexivity|].
  split; [vm_compute; reflexivity|].
  intros (d & w' & Hrun & Hprice).
  assert (fst (_extract_book_data urllib_parse.urljoin Demo.scraper
                 Demo.book_no_price Demo.w0) = Ok d) as Hd by (by rewrite Hrun).
  vm_compute in Hd. injection Hd as <-. discriminate Hprice.
Qed.

(** *** The rating lookup *)

(** C6, with the value the code uses for an unrecognised label: when the item
    has every field the block reads, its link can be joined to [base_url],
    and [label] is the second class token of its star-rating element,
    [_extract_book_data] returns a record, without logging, whose rating is
    the number of [label] in [rating_map] when it is one of One..Five, and
    the string ["N/A"] for any other token. *)
Theorem rating_lookup_total urljoin self book a title price_tag classes label
    avail_tag href book_url :
  heading_anchor book = Ok a →
  getitem a "title" = Ok title →
  find "p" (Some "price_color") book = Some price_tag →
  getitem_class (find "p" (Some "star-rating") book) = Ok classes →
  classes !! 1%nat = Some label →
  find "p" (Some "instock availability") book = Some avail_tag →
  getitem a "href" = Ok href →
  urljoin (base_url self) href = Ok book_url →
  ∃ d,
    (∀ w, _extract_book_data urljoin self book w = (Ok d, w))
    ∧ is_record d
    ∧ dict_get d "rating" = Some (rating_of_label label)
    ∧ (∀ n, (label, n) ∈ rating_map → dict_get d "rating" = Some (VInt n))
    ∧ (label ∉ ["One"; "Two"; "Three"; "Four"; "Five"] →
       dict_get d "rating" = Some (VStr "N/A")).
Proof.
  intros Ha Htitle Hprice Hclasses Hlabel Havail Hhref Hurl.
  pose proof (extract_try_fields urljoin self book a title price_tag classes label
                avail_tag href book_url Ha Htitle Hprice Hclasses Hlabel Havail Hhref Hurl)
    as Htry.
  eexists. split; [|split; [|split; [|split]]].
  - intros w. rewrite extract_book_data_run, Htry. reflexivity.
  - by eapply extract_try_is_record.
  - reflexivity.
  - intros n Hn. cbn [dict_get assoc String.eqb Ascii.eqb Bool.eqb]. f_equal.
    unfold rating_map in Hn. rewrite !elem_of_cons in Hn.
    destruct Hn as [[= -> ->]|[[= -> ->]|[[= -> ->]|[[= -> ->]|[[= -> ->]|Hn]]]]];
      try reflexivity.
    by apply elem_of_nil in Hn.
  - intros Hout. cbn [dict_get assoc String.eqb Ascii.eqb Bool.eqb]. f_equal.
    rewrite !not_elem_of_cons in Hout.
    destruct Hout as (H1 & H2 & H3 & H4 & H5 & _).
    unfold rating_of_label.
    apply String.eqb_neq in H1, H2, H3, H4, H5.
    by rewrite H1, H2, H3, H4, H5.
Qed.

Lemma rating_lookup_total_witness :
  ∃ d,
    (∀ w, _extract_book_data urllib_parse.urljoin Demo.scraper Demo.book_six_stars w
          = (Ok d, w))
    ∧ is_record d
    ∧ dict_get d "rating" = Some (rating_of_label "Six")
    ∧ (∀ n, ("Six", n) ∈ rating_map → dict_get d "rating" = Some (VInt n))
    ∧ ("Six" ∉ ["One"; "Two"; "Three"; "Four"; "Five"] →
       dict_get d "rating" = Some (VStr "N/A")).
Proof.
  apply (rating_lookup_total urllib_parse.urljoin Demo.scraper Demo.book_six_stars
           (Some (Tag "a" None
                    [("href", "catalogue/sharp-objects_997/index.html");
                     ("title", "Sharp Objects")]
                    [NavigableString "Sharp Objects"]))
           "Sharp Objects"
           (Tag "p" (Some ["price_color"]) [] [NavigableString (Demo.pounds "47.82")])
           ["star-rating"; "Six"] "Six"
           (Tag "p" (Some ["instock"; "availability"]) []
              [NavigableString "   In stock   "])
           "catalogue/sharp-objects_997/index.html"
           "https://books.toscrape.com/catalogue/sharp-objects_997/index.html");
    vm_compute; reflexivity.
Defined.

(** C6, as stated, fails on the value: for the item [Demo.book_six_stars],
    whose rating class is [Six], the record is produced and its rating is the
    string ["N/A"], not ["unknown"]. *)
Lemma unrecognised_label_is_not_unknown :
  ∃ d,
    _extract_book_data_try urllib_parse.urljoin Demo.scraper Demo.book_six_stars = Ok d
    ∧ dict_get d "rating" = Some (VStr "N/A")
    ∧ dict_get d "rating" ≠ Some (VStr "unknown").
Proof.
  eexists. split; [vm_compute; reflexivity|].
  split; [reflexivity | discriminate].
Qed.

(** *** The delay after a fetch *)



(** *** The records of the accumulator *)

(** C3, as the code has it: every dict in the list the loop accumulates is a
    record with exactly the five fields title, price, rating, availability
    and url, in that order; it was extracted from an item of a fetched page,
    and its title is the [title] attribute of that item's heading anchor,
    which nothing requires to be non-empty. *)
Theorem accumulated_records_have_five_fields urljoin web fuel self w books w' :
  while_current_url urljoin web fuel self (Some (base_url self)) [] w
    = (Ok (Some books), w') →
  Forall (λ d,
            is_record d ∧ dict_keys d = record_fields
            ∧ ∃ url soup book a title,
                fetched web url = Some soup
                ∧ book ∈ find_all "article" (Some "product_pod") soup
                ∧ _extract_book_data_try urljoin self book = Ok d
                ∧ heading_anchor book = Ok a
                ∧ getitem a "title" = Ok title
                ∧ dict_get d "title" = Some (VStr title)) books.
Proof.
  intros Hrun.
  apply while_invariant in Hrun as (_ & _ & Hbooks).
  destruct (Hbooks books eq_refl) as (more & -> & Hmore).
  cbn [app]. eapply Forall_impl; [exact Hmore|].
  intros d Hd. split; [by eapply scraped_is_record|].
  destruct Hd as (url & soup & book & Hf & Hin & Htry).
  pose proof Htry as
    (a & title & pt & cs & label & avt & href & u & Ha & Htitle & _ & _ & _ & _ & _ & _ & ->)
      %extract_try_Ok.
  split; [done|]. by exists url, soup, book, a, title.
Qed.

Lemma accumulated_records_have_five_fields_witness :
  Forall (λ d,
            is_record d ∧ dict_keys d = record_fields
            ∧ ∃ url soup book a title,
                fetched Demo.web url = Some soup
                ∧ book ∈ find_all "article" (Some "product_pod") soup
                ∧ _extract_book_data_try urllib_parse.urljoin Demo.scraper book = Ok d
                ∧ heading_anchor book = Ok a
                ∧ getitem a "title" = Ok title
                ∧ dict_get d "title" = Some (VStr title))
    [[("title", VStr "A Light in the Attic");
      ("price", VStr (Demo.pounds "51.77"));
      ("rating", VInt 3);
      ("availability", VStr "In stock");
      ("url", VStr "https://books.toscrape.com/catalogue/a-light-in-the-attic_1000/index.html")];
     [("title", VStr "It's Only the Himalayas");
      ("price", VStr (Demo.pounds "45.17"));
      ("rating", VInt 2);
      ("availability", VStr "In stock");
      ("url", VStr "https://books.toscrape.com/its-only-the-himalayas_981/index.html")]].
Proof.
  apply (accumulated_records_have_five_fields urllib_parse.urljoin Demo.web 2
           Demo.scraper Demo.w0 _
           (snd (while_current_url urllib_parse.urljoin Demo.web 2 Demo.scraper
                   (Some (base_url Demo.scraper)) [] Demo.w0))).
  vm_compute. reflexivity.
Defined.

(** C3, as stated, fails on the title: on the site [Demo.web_untitled], whose
    one item has an empty [title] attribute, the walk accumulates and returns
    a record whose title is the empty string. *)
Lemma empty_title_is_recorded :
  ∃ d w',
    scrape_books urllib_parse.urljoin Demo.web_untitled 1 Demo.scraper
      "data/books.csv" Demo.w0 = (Ok (Some [d]), w')
    ∧ dict_get d "title" = Some (VStr "").
Proof.
  do 2 eexists. split; [vm_compute; reflexivity | reflexivity].
Qed.

(** *** The walk along a chain of pages *)

(** C4: when the pages reached from the seed URL form a chain of N pages that
    are all fetched and of which only the last has no next-page link, the
    walk ends with any fuel of N or more, requests exactly the N URLs of the
    chain, in order, and returns the records of the pages, page after page,
    each page's in document order. *)
Theorem walk_visits_every_page_of_chain urljoin web self output_file pages fuel w :
  linked urljoin web (base_url self) pages None →
  (length pages ≤ fuel)%nat →
  ∃ w',
    scrape_books urljoin web fuel self output_file w
    = (Ok (Some (chain_records urljoin self pages)), w')
    ∧ visited (trace w') = visited (trace w) ++ map fst pages.
Proof.
  intros Hchain Hfuel.
  destruct (while_linked urljoin web self _ _ _ Hchain (fuel - length pages) [] w)
    as (evs & w1 & Hloop & Ht & _ & Hv & _ & _).
  replace (length pages + (fuel - length pages))%nat with fuel in Hloop by lia.
  rewrite while_done in Hloop. cbn [app] in Hloop.
  eexists. split; [by apply scrape_books_after_loop|].
  rewrite trace_logged.
  destruct (save_to_csv_quiet self (chain_records urljoin self pages) output_file w1)
    as (evs' & -> & Hv' & _).
  rewrite Ht, !visited_app, Hv, Hv'. cbn. by rewrite !app_nil_r.
Qed.

Lemma walk_visits_every_page_of_chain_witness :
  ∃ w',
    scrape_books urllib_parse.urljoin Demo.web 2 Demo.scraper "data/books.csv" Demo.w0
    = (Ok (Some (chain_records urllib_parse.urljoin Demo.scraper
                   [(Demo.seed, BeautifulSoup Demo.page1);
                    (Demo.page2_url, BeautifulSoup Demo.page2)])), w')
    ∧ visited (trace w')
      = visited (trace Demo.w0)
        ++ map fst [(Demo.seed, BeautifulSoup Demo.page1);
                    (Demo.page2_url, BeautifulSoup Demo.page2)].
Proof.
  apply (walk_visits_every_page_of_chain urllib_parse.urljoin Demo.web Demo.scraper
           "data/books.csv"
           [(Demo.seed, BeautifulSoup Demo.page1);
            (Demo.page2_url, BeautifulSoup Demo.page2)] 2 Demo.w0).
  - eapply (linked_next _ _ Demo.seed _ (Demo.next_link "catalogue/page-2.html")
              "catalogue/page-2.html" Demo.page2_url).
    + discriminate.
    + vm_compute. reflexivity.
    + vm_compute. reflexivity.
    + vm_compute. reflexivity.
    + vm_compute. reflexivity.
    + apply linked_last.
      * discriminate.
      * vm_compute. reflexivity.
      * vm_compute. reflexivity.
  - cbn. lia.
Defined.

(** C5, as the code has it: when the pages before page k are fetched and
    linked one to the next and the fetch of page k meets a transport error
    or a 4xx or 5xx status, the loop ends there: the URLs requested are
    those of pages 1..k-1 and then page k's, once; the list the loop returns
    holds the records of pages 1..k-1; [scrape_books] hands that list to
    [_save_to_csv], requests nothing more, and returns it. *)
Theorem walk_stops_at_failed_fetch urljoin web self output_file pages url_k fuel w :
  linked urljoin web (base_url self) pages (Some url_k) →
  url_k ≠ "" →
  fetched web url_k = None →
  (length pages < fuel)%nat →
  ∃ w1 w2,
    while_current_url urljoin web fuel self (Some (base_url self)) [] w
    = (Ok (Some (chain_records urljoin self pages)), w1)
    ∧ visited (trace w1) = visited (trace w) ++ map fst pages ++ [url_k]
    ∧ _save_to_csv self (chain_records urljoin self pages) output_file w1 = (Ok tt, w2)
    ∧ visited (trace w2) = visited (trace w1)
    ∧ scrape_books urljoin web fuel self output_file w
      = (Ok (Some (chain_records urljoin self pages)),
         logged INFO (success_message (chain_records urljoin self pages) output_file) w2).
Proof.
  intros Hchain Hurl Hfail Hfuel.
  destruct (while_linked urljoin web self _ _ _ Hchain (fuel - length pages) [] w)
    as (evs & w0 & Hloop & Ht & _ & Hv & _ & _).
  replace (length pages + (fuel - length pages))%nat with fuel in Hloop by lia.
  destruct (fuel - length pages)%nat as [|rest] eqn:Hrest; [lia|].
  destruct (while_fetch_fails urljoin web rest self url_k
              ([] ++ chain_records urljoin self pages) w0 Hurl Hfail)
    as (evs' & w1 & Hstop & Ht' & _ & Hv' & _ & _).
  rewrite Hstop in Hloop. cbn [app] in Hloop.
  pose proof (save_to_csv_quiet self (chain_records urljoin self pages) output_file w1)
    as (evs'' & Htr & Hv'' & _).
  pose proof (save_to_csv_run self (chain_records urljoin self pages) output_file w1)
    as Hsave.
  destruct (_save_to_csv self (chain_records urljoin self pages) output_file w1)
    as [r w2] eqn:Hsaved.
  assert (r = Ok tt) as ->.
  { destruct (_save_to_csv_try _ _ w1) as [[[]|e] ?]; congruence. }
  exists w1, w2. split; [exact Hloop|]. split.
  { rewrite Ht', Ht, !visited_app, Hv, Hv'. by rewrite <- app_assoc. }
  split; [done|]. split.
  { cbn [snd] in Htr. rewrite Htr, visited_app, Hv''. by rewrite app_nil_r. }
  rewrite (scrape_books_after_loop _ _ _ _ _ _ _ _ Hloop), Hsaved. reflexivity.
Qed.

Lemma walk_stops_at_failed_fetch_witness :
  ∃ w1 w2,
    while_current_url urllib_parse.urljoin Demo.web_page2_down 2 Demo.scraper
      (Some (base_url Demo.scraper)) [] Demo.w0
    = (Ok (Some (chain_records urllib_parse.urljoin Demo.scraper
                   [(Demo.seed, BeautifulSoup Demo.page1)])), w1)
    ∧ visited (trace w1)
      = visited (trace Demo.w0)
        ++ map fst [(Demo.seed, BeautifulSoup Demo.page1)] ++ [Demo.page2_url]
    ∧ _save_to_csv Demo.scraper
        (chain_records urllib_parse.urljoin Demo.scraper
           [(Demo.seed, BeautifulSoup Demo.page1)]) "data/books.csv" w1 = (Ok tt, w2)
    ∧ visited (trace w2) = visited (trace w1)
    ∧ scrape_books urllib_parse.urljoin Demo.web_page2_down 2 Demo.scraper
        "data/books.csv" Demo.w0
      = (Ok (Some (chain_records urllib_parse.urljoin Demo.scraper
                     [(Demo.seed, BeautifulSoup Demo.page1)])),
         logged INFO
           (success_message
              (chain_records urllib_parse.urljoin Demo.scraper
                 [(Demo.seed, BeautifulSoup Demo.page1)]) "data/books.csv") w2).
Proof.
  apply (walk_stops_at_failed_fetch urllib_parse.urljoin Demo.web_page2_down
           Demo.scraper "data/books.csv"
           [(Demo.seed, BeautifulSoup Demo.page1)] Demo.page2_url 2 Demo.w0).
  - eapply (linked_next _ _ Demo.seed _ (Demo.next_link "catalogue/page-2.html")
              "catalogue/page-2.html" Demo.page2_url).
    + discriminate.
    + vm_compute. reflexivity.
    + vm_compute. reflexivity.
    + vm_compute. reflexivity.
    + vm_compute. reflexivity.
    + apply linked_nil.
  - discriminate.
  - vm_compute. reflexivity.
  - cbn. lia.
Defined.

(** C5, as stated, fails on a non-success status that is no error status: on
    the site [Sites.web_multiple_choices] the second page is answered with
    the status 300, a fetch failure in the words of the specification; the
    walk does not stop there: it sleeps the delay, records the item of that
    page, and goes on to request the third page. *)
Lemma walk_goes_on_after_non_success_status :
  spec_fetch_failure (Sites.web_multiple_choices Demo.page2_url) = true
  ∧ ∃ d1 d2 w',
      scrape_books urllib_parse.urljoin Sites.web_multiple_choices 3 Demo.scraper
        "data/books.csv" Demo.w0 = (Ok (Some [d1; d2]), w')
      ∧ visited (trace w') = [Demo.seed; Demo.page2_url; Sites.page3_url]
      ∧ sleeps (trace w') = [1; 1; 1]
      ∧ page_records urllib_parse.urljoin Demo.scraper
          (BeautifulSoup (Demo.document [Demo.book_himalayas;
                                         Demo.next_link "page-3.html"])) = [d2].
Proof.
  split; [vm_compute; reflexivity|].
  eexists _, _, _. split; [vm_compute; reflexivity|].
  repeat split; vm_compute; reflexivity.
Qed.

(** *** Saving the records *)

(** The header [_save_to_csv] writes for a non-empty list of records is the
    row of the five columns. *)
Lemma csv_text_header d data :
  is_record d →
  csv_text (d :: data) = csv_header +:+ csv_rows record_fields (d :: data).
Proof.
  intros (t & p & r & a & u & -> & _). unfold csv_text. f_equal.
Qed.

(** C8, as the code has it: when the loop of the walk has returned its list
    and the [try] block of [_save_to_csv] raises nothing, the output file is
    opened for writing once, after every request of the walk, and no file is
    opened before; when the save is over the path names a file that holds,
    whatever it held before, the header row
    title,price,rating,availability,url followed by one row per record when
    there is a record, and nothing at all when there is none; at the end of
    [scrape_books] it still does, followed by the last log record in the one
    case that the path names the log file; the directory of the path is a
    directory. *)
Theorem csv_written_once_after_walk urljoin web fuel self output_file w books w1 w2 :
  while_current_url urljoin web fuel self (Some (base_url self)) [] w
    = (Ok (Some books), w1) →
  _save_to_csv_try books output_file w1 = (Ok tt, w2) →
  ∃ w',
    scrape_books urljoin web fuel self output_file w = (Ok (Some books), w')
    ∧ opened (trace w1) = opened (trace w)
    ∧ (∃ done, trace w' = trace w1 ++ [EvOpen output_file; EvLog INFO done])
    ∧ stat w2 output_file = inr (FsFile (csv_text books))
    ∧ (∃ logs, stat w' output_file = inr (FsFile (csv_text books +:+ logs))
               ∧ (abspath w output_file ≠ log_path w → logs = ""))
    ∧ csv_text books
      = match books with
        | [] => ""
        | _ => csv_header +:+ csv_rows record_fields books
        end
    ∧ stat w' (os_path_dirname output_file) = inr FsDir.
Proof.
  intros Hloop Hsave.
  pose proof (scrape_books_after_loop _ _ _ _ output_file _ _ _ Hloop) as Hrun.
  rewrite save_to_csv_run, Hsave in Hrun. cbn [snd] in Hrun.
  apply save_to_csv_try_Ok in Hsave as (Htr & [Hcwd Henv] & Hfile & _ & Hdir).
  pose proof Hloop as Hinv.
  apply while_invariant in Hinv as ([Hcwd1 _] & (evs & Hevs & Ho) & Hbooks).
  destruct (Hbooks books eq_refl) as (more & -> & Hmore). cbn [app] in *.
  pose proof (logged_only_logged INFO (success_message more output_file) w2) as Hlog.
  eexists. split; [exact Hrun|].
  split; [by rewrite Hevs, opened_app, Ho, app_nil_r|].
  split; [eexists; by rewrite trace_logged, Htr, <- app_assoc|].
  split; [done|]. split; [|split].
  - destruct (stat_file_only_logged _ _ _ _ Hlog Hfile) as (s & Hs & Hne).
    exists s. split; [done|]. intros Hp. apply Hne.
    unfold abspath, start, log_path in *. by rewrite Hcwd, Hcwd1.
  - destruct more as [|d more]; [done|].
    apply csv_text_header. apply Forall_cons in Hmore as [Hd _].
    by eapply scraped_is_record.
  - by apply (stat_dir_only_logged _ _ _ Hlog).
Qed.

Lemma csv_written_once_after_walk_witness :
  ∃ w',
    scrape_books urllib_parse.urljoin Demo.web 2 Demo.scraper "data/books.csv" Demo.w0
    = (Ok (Some (chain_records urllib_parse.urljoin Demo.scraper
                   [(Demo.seed, BeautifulSoup Demo.page1);
                    (Demo.page2_url, BeautifulSoup Demo.page2)])), w')
    ∧ opened (trace (snd (while_current_url urllib_parse.urljoin Demo.web 2
                            Demo.scraper (Some (base_url Demo.scraper)) [] Demo.w0)))
      = opened (trace Demo.w0)
    ∧ (∃ done,
         trace w'
         = trace (snd (while_current_url urllib_parse.urljoin Demo.web 2
                         Demo.scraper (Some (base_url Demo.scraper)) [] Demo.w0))
           ++ [EvOpen "data/books.csv"; EvLog INFO done])
    ∧ stat (snd (_save_to_csv_try
                   (chain_records urllib_parse.urljoin Demo.scraper
                      [(Demo.seed, BeautifulSoup Demo.page1);
                       (Demo.page2_url, BeautifulSoup Demo.page2)])
                   "data/books.csv"
                   (snd (while_current_url urllib_parse.urljoin Demo.web 2
                           Demo.scraper (Some (base_url Demo.scraper)) [] Demo.w0))))
        "data/books.csv"
      = inr (FsFile (csv_text (chain_records urllib_parse.urljoin Demo.scraper
                                 [(Demo.seed, BeautifulSoup Demo.page1);
                                  (Demo.page2_url, BeautifulSoup Demo.page2)])))
    ∧ (∃ logs,
         stat w' "data/books.csv"
         = inr (FsFile (csv_text (chain_records urllib_parse.urljoin Demo.scraper
                                    [(Demo.seed, BeautifulSoup Demo.page1);
                                     (Demo.page2_url, BeautifulSoup Demo.page2)])
                        +:+ logs))
         ∧ (abspath Demo.w0 "data/books.csv" ≠ log_path Demo.w0 → logs = ""))
    ∧ csv_text (chain_records urllib_parse.urljoin Demo.scraper
                  [(Demo.seed, BeautifulSoup Demo.page1);
                   (Demo.page2_url, BeautifulSoup Demo.page2)])
      = match chain_records urllib_parse.urljoin Demo.scraper
                [(Demo.seed, BeautifulSoup Demo.page1);
                 (Demo.page2_url, BeautifulSoup Demo.page2)] with
        | [] => ""
        | _ => csv_header
               +:+ csv_rows record_fields
                     (chain_records urllib_parse.urljoin Demo.scraper
                        [(Demo.seed, BeautifulSoup Demo.page1);
                         (Demo.page2_url, BeautifulSoup Demo.page2)])
        end
    ∧ stat w' (os_path_dirname "data/books.csv") = inr FsDir.
Proof.
  apply (csv_written_once_after_walk urllib_parse.urljoin Demo.web 2 Demo.scraper
           "data/books.csv" Demo.w0 _ _
           (snd (_save_to_csv_try
                   (chain_records urllib_parse.urljoin Demo.scraper
                      [(Demo.seed, BeautifulSoup Demo.page1);
                       (Demo.page2_url, BeautifulSoup Demo.page2)])
                   "data/books.csv"
                   (snd (while_current_url urllib_parse.urljoin Demo.web 2
                           Demo.scraper (Some (base_url Demo.scraper)) [] Demo.w0)))));
    vm_compute; reflexivity.
Defined.

(** C8, as stated, fails on the header: on the site [Demo.web_no_items],
    whose one page lists no item, the walk completes, opens
    [data/books.csv] once and leaves it empty, with no header row. *)
Lemma empty_walk_writes_no_header :
  ∃ w',
    scrape_books urllib_parse.urljoin Demo.web_no_items 1 Demo.scraper
      "data/books.csv" Demo.w0 = (Ok (Some []), w')
    ∧ visited (trace w') = [Demo.seed]
    ∧ opened (trace w') = ["data/books.csv"]
    ∧ stat w' "data/books.csv" = inr (FsFile "").
Proof.
  eexists. split; [vm_compute; reflexivity|].
  repeat split; vm_compute; reflexivity.
Qed.

(** C9: when the loop of the walk has returned its list and the [try] block
    of [_save_to_csv] raises [e], [scrape_books] does not raise: it logs the
    error, then its closing message, and returns the whole list. *)
Theorem csv_failure_is_logged_and_records_returned
    urljoin web fuel self output_file w books w1 e w2 :
  while_current_url urljoin web fuel self (Some (base_url self)) [] w
    = (Ok (Some books), w1) →
  _save_to_csv_try books output_file w1 = (Raise e, w2) →
  ∃ done,
    scrape_books urljoin web fuel self output_file w
    = (Ok (Some books),
       logged INFO done (logged ERROR ("Error saving to CSV: " +:+ exn_str e) w2)).
Proof.
  intros Hloop Hsave.
  rewrite (scrape_books_after_loop _ _ _ _ output_file _ _ _ Hloop).
  rewrite save_to_csv_run, Hsave. cbn [snd]. by eexists.
Qed.

Lemma csv_failure_is_logged_and_records_returned_witness :
  ∃ done,
    scrape_books urllib_parse.urljoin Demo.web 2 Demo.scraper "out/books.csv"
      Demo.w_out_is_file
    = (Ok (Some (chain_records urllib_parse.urljoin Demo.scraper
                   [(Demo.seed, BeautifulSoup Demo.page1);
                    (Demo.page2_url, BeautifulSoup Demo.page2)])),
       logged INFO done
         (logged ERROR ("Error saving to CSV: " +:+ exn_str (errno EEXIST "out"))
            (snd (while_current_url urllib_parse.urljoin Demo.web 2 Demo.scraper
                    (Some (base_url Demo.scraper)) [] Demo.w_out_is_file)))).
Proof.
  apply (csv_failure_is_logged_and_records_returned urllib_parse.urljoin Demo.web 2
           Demo.scraper "out/books.csv" Demo.w_out_is_file
           (chain_records urllib_parse.urljoin Demo.scraper
              [(Demo.seed, BeautifulSoup Demo.page1);
               (Demo.page2_url, BeautifulSoup Demo.page2)])
           (snd (while_current_url urllib_parse.urljoin Demo.web 2 Demo.scraper
                   (Some (base_url Demo.scraper)) [] Demo.w_out_is_file))
           (errno EEXIST "out")
           (snd (while_current_url urllib_parse.urljoin Demo.web 2 Demo.scraper
                   (Some (base_url Demo.scraper)) [] Demo.w_out_is_file)));
    vm_compute; reflexivity.
Defined.

(** C10: when the output path has no directory part, as the default
    [books.csv], the directory-creation step raises; [scrape_books] logs the
    error and then the success message, opens no file, changes nothing in
    the tree but the log file, which gains the records logged, and returns
    the whole list. *)
Theorem bare_filename_is_never_written urljoin web fuel self output_file w books w1 :
  os_path_dirname output_file = "" →
  while_current_url urljoin web fuel self (Some (base_url self)) [] w
    = (Ok (Some books), w1) →
  os_makedirs (os_path_dirname output_file) true w1 = (Raise (errno ENOENT ""), w1)
  ∧ (∃ w',
       scrape_books urljoin web fuel self output_file w = (Ok (Some books), w')
       ∧ w' = logged INFO (success_message books output_file)
                (logged ERROR
                   "Error saving to CSV: [Errno 2] No such file or directory: ''" w1)
       ∧ opened (trace w') = opened (trace w)
       ∧ only_logged w w')
  ∧ opened (trace w1) = opened (trace w).
Proof.
  intros Hdir Hloop.
  rewrite Hdir, makedirs_empty. split; [done|].
  rewrite (scrape_books_after_loop _ _ _ _ output_file _ _ _ Hloop).
  rewrite save_to_csv_run. unfold _save_to_csv_try.
  rewrite bind_run, Hdir, makedirs_empty. cbn [snd].
  apply while_invariant in Hloop as (Hlog & (evs & Hevs & Ho) & _).
  assert (opened (trace w1) = opened (trace w)) as Hopen
    by (by rewrite Hevs, opened_app, Ho, app_nil_r).
  split; [|done]. eexists. split; [reflexivity|]. split; [reflexivity|]. split.
  - rewrite !trace_logged, !opened_app, Hopen. cbn. by rewrite !app_nil_r.
  - eapply only_logged_trans; [exact Hlog|].
    eapply only_logged_trans; apply logged_only_logged.
Qed.

Lemma bare_filename_is_never_written_witness :
  os_makedirs (os_path_dirname default_output_file) true
    (snd (while_current_url urllib_parse.urljoin Demo.web 2 Demo.scraper
            (Some (base_url Demo.scraper)) [] Demo.w0))
  = (Raise (errno ENOENT ""),
     snd (while_current_url urllib_parse.urljoin Demo.web 2 Demo.scraper
            (Some (base_url Demo.scraper)) [] Demo.w0))
  ∧ (∃ w',
       scrape_books urllib_parse.urljoin Demo.web 2 Demo.scraper default_output_file
         Demo.w0
       = (Ok (Some (chain_records urllib_parse.urljoin Demo.scraper
                      [(Demo.seed, BeautifulSoup Demo.page1);
                       (Demo.page2_url, BeautifulSoup Demo.page2)])), w')
       ∧ w' = logged INFO
                (success_message
                   (chain_records urllib_parse.urljoin Demo.scraper
                      [(Demo.seed, BeautifulSoup Demo.page1);
                       (Demo.page2_url, BeautifulSoup Demo.page2)])
                   default_output_file)
                (logged ERROR
                   "Error saving to CSV: [Errno 2] No such file or directory: ''"
                   (snd (while_current_url urllib_parse.urljoin Demo.web 2 Demo.scraper
                           (Some (base_url Demo.scraper)) [] Demo.w0)))
       ∧ opened (trace w') = opened (trace Demo.w0)
       ∧ only_logged Demo.w0 w')
  ∧ opened (trace (snd (while_current_url urllib_parse.urljoin Demo.web 2 Demo.scraper
                          (Some (base_url Demo.scraper)) [] Demo.w0)))
    = opened (trace Demo.w0).
Proof.
  apply (bare_filename_is_never_written urllib_parse.urljoin Demo.web 2 Demo.scraper
           default_output_file Demo.w0
           (chain_records urllib_parse.urljoin Demo.scraper
              [(Demo.seed, BeautifulSoup Demo.page1);
               (Demo.page2_url, BeautifulSoup Demo.page2)])
           (snd (while_current_url urllib_parse.urljoin Demo.web 2 Demo.scraper
                   (Some (base_url Demo.scraper)) [] Demo.w0)));
    vm_compute; reflexivity.
Defined.

(** *** The URL of a record *)

(** Whatever page an item is on, the URL of its record is its link resolved
    against the scraper's [base_url]. *)
Lemma record_url_uses_base_url urljoin self book d :
  _extract_book_data_try urljoin self book = Ok d →
  ∃ a href book_url,
    heading_anchor book = Ok a
    ∧ getitem a "href" = Ok href
    ∧ urljoin (base_url self) href = Ok book_url
    ∧ dict_get d "url" = Some (VStr book_url).
Proof.
  intros (a & t & pt & cs & l & avt & href & u & Ha & _ & _ & _ & _ & _ & Hh & Hu & ->)
    %extract_try_Ok.
  by exists a, href, u.
Qed.

(** C2 on the two pages of [Demo.web]: the walk requests the seed page and
    then [catalogue/page-2.html]; the item of the second page links to
    [its-only-the-himalayas_981/index.html], which read from that page is
    under [catalogue/]; the URL of its record is the link resolved against
    the seed URL instead, outside [catalogue/]. *)
Theorem second_page_url_resolved_against_seed :
  ∃ d1 d2 w',
    scrape_books urllib_parse.urljoin Demo.web 2 Demo.scraper "data/books.csv" Demo.w0
    = (Ok (Some [d1; d2]), w')
    ∧ visited (trace w') = [Demo.seed; Demo.page2_url]
    ∧ page_records urllib_parse.urljoin Demo.scraper (BeautifulSoup Demo.page2) = [d2]
    ∧ dict_get d2 "url"
      = Some (VStr "https://books.toscrape.com/its-only-the-himalayas_981/index.html")
    ∧ urllib_parse.urljoin Demo.page2_url "its-only-the-himalayas_981/index.html"
      = Ok "https://books.toscrape.com/catalogue/its-only-the-himalayas_981/index.html"
    ∧ urllib_parse.urljoin Demo.seed "its-only-the-himalayas_981/index.html"
      = Ok "https://books.toscrape.com/its-only-the-himalayas_981/index.html".
Proof.
  do 3 eexists. split; [vm_compute; reflexivity|].
  repeat split; vm_compute; reflexivity.
Qed.

(** ** Further properties of [BookScraper] *)

(** *** When an item is recorded *)

(** X1: the [try] block of [_extract_book_data] returns a record exactly when
    the item has a heading anchor with [title] and [href] attributes, a price
    paragraph, a star-rating paragraph with at least two class tokens, an
    availability paragraph whose class is [instock availability], and a link
    that [urljoin] joins to [base_url] without raising; the record then
    holds the title attribute as it is, the price and availability texts
    stripped, the rating of the second class token, and the joined link. *)
Theorem extraction_succeeds_iff_fields_present urljoin self book d :
  _extract_book_data_try urljoin self book = Ok d
  ↔ ∃ a title price_tag classes label avail_tag href book_url,
      heading_anchor book = Ok a
      ∧ getitem a "title" = Ok title
      ∧ find "p" (Some "price_color") book = Some price_tag
      ∧ getitem_class (find "p" (Some "star-rating") book) = Ok classes
      ∧ classes !! 1%nat = Some label
      ∧ find "p" (Some "instock availability") book = Some avail_tag
      ∧ getitem a "href" = Ok href
      ∧ urljoin (base_url self) href = Ok book_url
      ∧ d = [("title", VStr title);
             ("price", VStr (str_strip (text price_tag)));
             ("rating", rating_of_label label);
             ("availability", VStr (str_strip (text avail_tag)));
             ("url", VStr book_url)].
Proof.
  split; [apply extract_try_Ok|].
  intros (a & title & pt & cs & label & avt & href & u
          & Ha & Ht & Hp & Hc & Hl & Hav & Hh & Hu & ->).
  by eapply extract_try_fields.
Qed.

(** X2: [_extract_book_data] never raises and never returns a partial dict:
    either it returns a record of the five fields and leaves the world as it
    is, or it returns the empty dict after logging exactly one error, which
    the log file gains and which changes nothing else. *)
Theorem extract_book_data_never_raises urljoin self book w :
  (∃ d, is_record d ∧ _extract_book_data urljoin self book w = (Ok d, w))
  ∨ (∃ msg,
       _extract_book_data urljoin self book w = (Ok [], logged ERROR msg w)
       ∧ trace (logged ERROR msg w) = trace w ++ [EvLog ERROR msg]
       ∧ only_logged w (logged ERROR msg w)).
Proof.
  rewrite extract_book_data_run.
  destruct (_extract_book_data_try urljoin self book) as [d|e] eqn:Htry.
  - left. exists d. split; [by eapply extract_try_is_record | done].
  - right. eexists. split; [done|]. split; [done|]. apply logged_only_logged.
Qed.

(** X16: an item that has every field but whose link [urljoin] refuses is
    not recorded: the [ValueError] is caught with the other exceptions, its
    message is logged, and the empty dict is returned. *)
Theorem unjoinable_link_drops_the_item urljoin self book a title price_tag classes
    label avail_tag href e w :
  heading_anchor book = Ok a →
  getitem a "title" = Ok title →
  find "p" (Some "price_color") book = Some price_tag →
  getitem_class (find "p" (Some "star-rating") book) = Ok classes →
  classes !! 1%nat = Some label →
  find "p" (Some "instock availability") book = Some avail_tag →
  getitem a "href" = Ok href →
  urljoin (base_url self) href = Raise e →
  _extract_book_data urljoin self book w
  = (Ok [], logged ERROR ("Error extracting book data: " +:+ exn_str e) w).
Proof.
  intros Ha Htitle Hp Hc Hl Hav Hhref Hurl.
  rewrite extract_book_data_run.
  assert (_extract_book_data_try urljoin self book = Raise e) as ->; [|done].
  unfold heading_anchor, _extract_book_data_try in *.
  destruct (getattr_tag (Some book) "h3") as [h3|] eqn:Hh3; [|done].
  cbn [mbind Result_bind] in Ha |- *. rewrite Ha.
  cbn [mbind Result_bind]. rewrite Htitle, Hp, Hc, Hav, Hhref.
  cbn [mbind Result_bind getattr_text mret Result_ret].
  unfold list_getitem. rewrite Hl. cbn [mbind Result_bind]. by rewrite Hurl.
Qed.

Lemma unjoinable_link_drops_the_item_witness :
  _extract_book_data urllib_parse.urljoin Demo.scraper Sites.book_bad_link Demo.w0
  = (Ok [], logged ERROR ("Error extracting book data: "
                          +:+ exn_str urllib_parse.Invalid_IPv6_URL) Demo.w0).
Proof.
  apply (unjoinable_link_drops_the_item urllib_parse.urljoin Demo.scraper
           Sites.book_bad_link
           (Some (Tag "a" None [("href", "//[bad"); ("title", "Olio")]
                    [NavigableString "Olio"]))
           "Olio"
           (Tag "p" (Some ["price_color"]) [] [NavigableString (Demo.pounds "23.88")])
           ["star-rating"; "One"] "One"
           (Tag "p" (Some ["instock"; "availability"]) []
              [NavigableString "   In stock   "])
           "//[bad" urllib_parse.Invalid_IPv6_URL Demo.w0);
    vm_compute; reflexivity.
Defined.

(** *** A next-page item without a usable link *)

(** X3: when the walk reaches a page whose [li.next] holds no anchor with an
    [href], or a link that [urljoin] refuses, the exception leaves the loop:
    [scrape_books] logs it, returns the empty list instead of the records of
    the pages before, and opens no file; nothing changes in the tree but the
    log file. *)
Theorem broken_next_link_loses_all_records
    urljoin web self output_file pages url_k soup next_button e fuel w :
  linked urljoin web (base_url self) pages (Some url_k) →
  url_k ≠ "" →
  fetched web url_k = Some soup →
  find "li" (Some "next") soup = Some next_button →
  (next_href next_button ≫= urljoin url_k) = Raise e →
  (length pages < fuel)%nat →
  ∃ evs w1,
    scrape_books urljoin web fuel self output_file w
    = (Ok (Some []), logged ERROR ("Error during scraping: " +:+ exn_str e) w1)
    ∧ trace w1 = trace w ++ evs
    ∧ only_logged w (logged ERROR ("Error during scraping: " +:+ exn_str e) w1)
    ∧ visited evs = map fst pages ++ [url_k]
    ∧ opened evs = [].
Proof.
  intros Hchain Hurl Hfetch Hnb Hhref Hfuel.
  destruct (while_linked urljoin web self _ _ _ Hchain (fuel - length pages) [] w)
    as (evs & w0 & Hloop & Ht & Hl & Hv & _ & Ho).
  replace (length pages + (fuel - length pages))%nat with fuel in Hloop by lia.
  destruct (fuel - length pages)%nat as [|rest] eqn:Hrest; [lia|].
  destruct (while_page urljoin web rest self url_k soup
              ([] ++ chain_records urljoin self pages) w0 Hurl Hfetch)
    as (evs' & w1 & Hpage & Ht' & Hl' & Hv' & _ & Ho').
  rewrite Hpage, Hnb in Hloop. run_in Hloop.
  assert (while_current_url urljoin web (S (length pages + rest)) self
            (Some (base_url self)) [] w = (Raise e, w1)) as Hraise.
  { replace (S (length pages + rest)) with fuel by lia. rewrite Hloop.
    destruct (next_href next_button) as [href|e']; cbn [mbind Result_bind] in Hhref.
    - run. by rewrite Hhref.
    - by injection Hhref as ->. }
  replace (S (length pages + rest)) with fuel in Hraise by lia.
  exists (evs ++ evs'), w1. split.
  { unfold scrape_books, try_except. rewrite bind_run, Hraise.
    cbn [is_Exception]. by run. }
  split; [by rewrite Ht', Ht, <- app_assoc|]. split.
  { eapply only_logged_trans; [exact Hl|].
    eapply only_logged_trans; [exact Hl' | apply logged_only_logged]. }
  by rewrite visited_app, opened_app, Hv, Hv', Ho, Ho'.
Qed.

Lemma broken_next_link_loses_all_records_witness :
  ∃ evs w1,
    scrape_books urllib_parse.urljoin Sites.web_broken_next 1 Demo.scraper
      "data/books.csv" Demo.w0
    = (Ok (Some []),
       logged ERROR ("Error during scraping: " +:+ exn_str NoneType_not_subscriptable) w1)
    ∧ trace w1 = trace Demo.w0 ++ evs
    ∧ only_logged Demo.w0
        (logged ERROR ("Error during scraping: " +:+ exn_str NoneType_not_subscriptable)
           w1)
    ∧ visited evs = map fst ([] : list (string * PageElement)) ++ [Demo.seed]
    ∧ opened evs = [].
Proof.
  apply (broken_next_link_loses_all_records urllib_parse.urljoin Sites.web_broken_next
           Demo.scraper "data/books.csv" [] Demo.seed
           (BeautifulSoup (Demo.document
                             [Demo.book_attic; Tag "li" (Some ["next"]) [] []]))
           (Tag "li" (Some ["next"]) [] []) NoneType_not_subscriptable 1 Demo.w0).
  - apply linked_nil.
  - discriminate.
  - vm_compute. reflexivity.
  - vm_compute. reflexivity.
  - vm_compute. reflexivity.
  - cbn. lia.
Defined.

(** *** The delays of a walk *)

Lemma map_const_replicate {A B} (b : B) (l : list A) :
  map (λ _, b) l = replicate (length l) b.
Proof. induction l as [|a l IH]; [done|]. cbn. by f_equal. Qed.

(** X4: a walk that fetches N pages one after the other and then ends, at a
    page without next-page link or at a failed fetch, sleeps the delay of 1
    exactly N times: once per page fetched, never for the failed fetch and
    never while saving. *)
Theorem walk_sleeps_once_per_fetched_page
    urljoin web self output_file pages nxt fuel w :
  linked urljoin web (base_url self) pages nxt →
  walk_ends web nxt →
  (length pages < fuel)%nat →
  ∃ w',
    scrape_books urljoin web fuel self output_file w
    = (Ok (Some (chain_records urljoin self pages)), w')
    ∧ sleeps (trace w') = sleeps (trace w) ++ replicate (length pages) 1.
Proof.
  intros Hchain Hends Hfuel.
  destruct (while_linked urljoin web self _ _ _ Hchain (fuel - length pages) [] w)
    as (evs & w0 & Hloop & Ht & _ & _ & Hs & _).
  replace (length pages + (fuel - length pages))%nat with fuel in Hloop by lia.
  rewrite map_const_replicate in Hs. cbn [app] in Hloop.
  assert (∃ evs' w1,
             while_current_url urljoin web fuel self (Some (base_url self)) [] w
             = (Ok (Some (chain_records urljoin self pages)), w1)
             ∧ trace w1 = trace w0 ++ evs'
             ∧ sleeps evs' = []) as (evs' & w1 & Hdone & Ht' & Hs').
  { destruct nxt as [u|].
    - destruct Hends as [Hu Hfail].
      destruct (fuel - length pages)%nat as [|rest] eqn:Hrest; [lia|].
      destruct (while_fetch_fails urljoin web rest self u
                  (chain_records urljoin self pages) w0 Hu Hfail)
        as (evs' & w1 & Hstop & Ht' & _ & _ & Hs' & _).
      exists evs', w1. by rewrite Hloop, Hstop.
    - exists [], w0. rewrite Hloop, while_done, app_nil_r. done. }
  eexists. split; [by apply scrape_books_after_loop|].
  rewrite trace_logged.
  destruct (save_to_csv_quiet self (chain_records urljoin self pages) output_file w1)
    as (evs'' & -> & _ & Hs'').
  rewrite Ht', Ht, !sleeps_app, Hs, Hs', Hs''. cbn.
  by rewrite !app_nil_r.
Qed.

Lemma walk_sleeps_once_per_fetched_page_witness :
  ∃ w',
    scrape_books urllib_parse.urljoin Demo.web 3 Demo.scraper "data/books.csv" Demo.w0
    = (Ok (Some (chain_records urllib_parse.urljoin Demo.scraper
                   [(Demo.seed, BeautifulSoup Demo.page1);
                    (Demo.page2_url, BeautifulSoup Demo.page2)])), w')
    ∧ sleeps (trace w')
      = sleeps (trace Demo.w0)
        ++ replicate (length [(Demo.seed, BeautifulSoup Demo.page1);
                              (Demo.page2_url, BeautifulSoup Demo.page2)]) 1.
Proof.
  apply (walk_sleeps_once_per_fetched_page urllib_parse.urljoin Demo.web Demo.scraper
           "data/books.csv"
           [(Demo.seed, BeautifulSoup Demo.page1);
            (Demo.page2_url, BeautifulSoup Demo.page2)] None 3 Demo.w0).
  - eapply (linked_next _ _ Demo.seed _ (Demo.next_link "catalogue/page-2.html")
              "catalogue/page-2.html" Demo.page2_url).
    + discriminate.
    + vm_compute. reflexivity.
    + vm_compute. reflexivity.
    + vm_compute. reflexivity.
    + vm_compute. reflexivity.
    + apply linked_last.
      * discriminate.
      * vm_compute. reflexivity.
      * vm_compute. reflexivity.
  - exact I.
  - cbn. lia.
Defined.

(** *** Pagination that comes back to a page *)

(** With less fuel than pages, the loop stops inside the chain. *)
Lemma while_linked_short urljoin web self u pages nxt :
  linked urljoin web u pages nxt →
  ∀ fuel all_books w,
    (fuel < length pages)%nat →
    ∃ evs w',
      while_current_url urljoin web fuel self (Some u) all_books w = (Ok None, w')
      ∧ trace w' = trace w ++ evs
      ∧ only_logged w w'
      ∧ length (visited evs) = fuel
      ∧ opened evs = [].
Proof.
  induction 1 as [u | u soup Hu Hf Hnone
                 | u soup nb href next_url pages nxt Hu Hf Hnb Hhref Hjoin _ IH];
    intros fuel all_books w Hfuel.
  - cbn in Hfuel. lia.
  - cbn in Hfuel. assert (fuel = 0%nat) as -> by lia.
    exists [], w. rewrite app_nil_r. destruct u; [done|].
    do 2 (split; [done|]). split; [apply only_logged_refl | done].
  - destruct fuel as [|fuel].
    + exists [], w. rewrite app_nil_r. destruct u; [done|].
      do 2 (split; [done|]). split; [apply only_logged_refl | done].
    + destruct (while_page urljoin web fuel self u soup all_books w Hu Hf)
        as (evs & w1 & Hrun & Ht & Hl & Hv & _ & Ho).
      rewrite Hrun, Hnb, Hhref. run. rewrite Hjoin. run.
      destruct (IH fuel (all_books ++ page_records urljoin self soup) w1)
        as (evs' & w2 & -> & Ht' & Hl' & Hv' & Ho'); [cbn in Hfuel; lia|].
      exists (evs ++ evs'), w2.
      rewrite Ht', Ht, <- app_assoc, visited_app, opened_app, length_app, Hv, Hv', Ho, Ho'.
      do 2 (split; [done|]). split; [by eapply only_logged_trans | done].
Qed.

(** X5: when following the next-page links from the seed URL leads back to
    the seed URL, the loop of [scrape_books] never ends: whatever the fuel,
    it is used up, with one more request for each unit of it, and no file is
    ever opened; nothing changes in the tree but the log file. *)
Theorem cyclic_pagination_never_ends urljoin web self output_file pages w fuel :
  linked urljoin web (base_url self) pages (Some (base_url self)) →
  pages ≠ [] →
  ∃ w',
    scrape_books urljoin web fuel self output_file w = (Ok None, w')
    ∧ length (visited (trace w')) = (length (visited (trace w)) + fuel)%nat
    ∧ opened (trace w') = opened (trace w)
    ∧ only_logged w w'.
Proof.
  intros Hchain Hpages.
  assert (∀ all_books w0, ∃ evs w1,
            while_current_url urljoin web fuel self (Some (base_url self)) all_books w0
            = (Ok None, w1)
            ∧ trace w1 = trace w0 ++ evs
            ∧ only_logged w0 w1
            ∧ length (visited evs) = fuel ∧ opened evs = []) as Hloop.
  { induction fuel as [fuel IH] using lt_wf_ind. intros all_books w0.
    destruct (decide (fuel < length pages)%nat) as [Hlt|Hge].
    - by apply (while_linked_short _ _ _ _ _ _ Hchain).
    - destruct (while_linked urljoin web self _ _ _ Hchain (fuel - length pages)
                  all_books w0) as (evs & w1 & Hrun & Ht & Hl & Hv & _ & Ho).
      replace (length pages + (fuel - length pages))%nat with fuel in Hrun by lia.
      rewrite Hrun.
      assert (length pages ≠ 0%nat) by (by destruct pages).
      destruct (IH (fuel - length pages)%nat ltac:(lia)
                  (all_books ++ chain_records urljoin self pages) w1)
        as (evs' & w2 & -> & Ht' & Hl' & Hv' & Ho').
      exists (evs ++ evs'), w2.
      rewrite Ht', Ht, <- app_assoc, visited_app, opened_app, length_app, Hv, Hv', Ho, Ho'.
      rewrite length_map. split; [done|]. split; [done|].
      split; [by eapply only_logged_trans|]. split; [lia | done]. }
  destruct (Hloop [] w) as (evs & w1 & Hrun & Ht & Hl & Hv & Ho).
  exists w1. split.
  - unfold scrape_books, try_except. rewrite bind_run, Hrun. reflexivity.
  - rewrite Ht, visited_app, opened_app, length_app, Hv, Ho, app_nil_r. done.
Qed.

Lemma cyclic_pagination_never_ends_witness :
  ∃ w',
    scrape_books urllib_parse.urljoin Sites.web_cycle 1000 Demo.scraper
      "data/books.csv" Demo.w0 = (Ok None, w')
    ∧ length (visited (trace w')) = (length (visited (trace Demo.w0)) + 1000)%nat
    ∧ opened (trace w') = opened (trace Demo.w0)
    ∧ only_logged Demo.w0 w'.
Proof.
  apply (cyclic_pagination_never_ends urllib_parse.urljoin Sites.web_cycle Demo.scraper
           "data/books.csv"
           [(Demo.seed,
             BeautifulSoup (Demo.document [Demo.book_attic; Demo.next_link "/"]))]
           Demo.w0 1000).
  - eapply (linked_next _ _ Demo.seed _ (Demo.next_link "/") "/" Demo.seed).
    + discriminate.
    + vm_compute. reflexivity.
    + vm_compute. reflexivity.
    + vm_compute. reflexivity.
    + vm_compute. reflexivity.
    + apply linked_nil.
  - discriminate.
Defined.

(** *** What a save leaves alone *)

Lemma grows_fs_refl w : grows_fs w w.
Proof. by intros p node. Qed.

Lemma grows_fs_trans w1 w2 w3 : grows_fs w1 w2 → grows_fs w2 w3 → grows_fs w1 w3.
Proof. intros H1 H2 p node Hp. by apply H2, H1. Qed.

Lemma mkdir_grows name : keeps grows_fs (os_mkdir name).
Proof.
  intros w p node Hp. unfold os_mkdir.
  repeat (case_match; try done). cbn [snd fs with_fs].
  rewrite lookup_insert_ne; [done|]. congruence.
Qed.

Lemma makedirs_grows name exist_ok : keeps grows_fs (os_makedirs name exist_ok).
Proof.
  apply (keeps_makedirs grows_fs);
    [apply grows_fs_refl | apply grows_fs_trans | apply mkdir_grows].
Qed.

(** The file [open] gives is the one the path names. *)
Lemma open_w_abspath filename w f w' :
  open_w filename w = (Ok f, w') → f = abspath w filename.
Proof.
  intros (dir & c & Hres & -> & _ & _ & _ & _)%open_w_Ok.
  apply resolve_parent_Ok in Hres as (before & Hcomp & Hwalk & _ & Hdot).
  unfold abspath. rewrite Hcomp, fold_left_app. cbn [fold_left].
  by rewrite <- (walk_abspath _ _ _ _ Hwalk), (step_name _ _ Hdot).
Qed.

Lemma open_w_Raise filename w e w' : open_w filename w = (Raise e, w') → w' = w.
Proof.
  unfold open_w. repeat (case_match; try done); by intros [= _ <-].
Qed.

Lemma writes_only_refl f w : writes_only f w w.
Proof. done. Qed.

Lemma writes_only_trans f w1 w2 w3 :
  writes_only f w1 w2 → writes_only f w2 w3 → writes_only f w1 w3.
Proof.
  intros ([Hc1 He1] & Ht1 & Ho1) ([Hc2 He2] & Ht2 & Ho2).
  split; [split; congruence|]. split; [congruence|].
  intros p Hp. by rewrite Ho2, Ho1.
Qed.

Lemma file_write_writes_only f s : keeps (writes_only f) (file_write f s).
Proof.
  intros w. unfold file_write.
  case_match; cbn [snd]; (split; [done|]); (split; [done|]);
    intros p Hp; cbn [fs with_fs]; by rewrite lookup_alter_ne.
Qed.

Lemma write_records_writes_only data f : keeps (writes_only f) (write_records data f).
Proof.
  destruct data as [|d0 rest]; [apply keeps_ret, writes_only_refl|].
  apply keeps_bind; [apply writes_only_trans| |].
  - apply keeps_writerow;
      [apply writes_only_refl | apply writes_only_trans | apply file_write_writes_only].
  - intros _. apply keeps_writerows;
      [apply writes_only_refl | apply writes_only_trans | apply file_write_writes_only].
Qed.

Lemma file_close_world f w : snd (file_close f w) = w.
Proof. unfold file_close. by case_match. Qed.

(** The [try] block of [_save_to_csv] keeps every node of the tree but the
    one its path names. *)
Lemma save_try_keeps_others data filename w p node :
  p ≠ abspath w filename →
  fs w !! p = Some node →
  fs (snd (_save_to_csv_try data filename w)) !! p = Some node.
Proof.
  intros Hne Hp. unfold _save_to_csv_try. rewrite bind_run.
  pose proof (makedirs_grows (os_path_dirname filename) true w) as Hgrow.
  pose proof (makedirs_same_process (os_path_dirname filename) true w) as [Hcwd _].
  destruct (os_makedirs (os_path_dirname filename) true w) as [[[]|e] wa];
    cbn [snd] in *; [|by apply Hgrow].
  apply Hgrow in Hp.
  assert (abspath wa filename = abspath w filename) as Habs.
  { unfold abspath, start. by rewrite Hcwd. }
  unfold with_open_w.
  destruct (open_w filename wa) as [[f|e] wb] eqn:Hopen.
  - pose proof (open_w_abspath _ _ _ _ Hopen) as Hf.
    apply open_w_Ok in Hopen as (dir & c & _ & _ & _ & _ & _ & ->).
    pose proof (write_records_writes_only data f
                  (mkWorld (trace wa ++ [EvOpen filename])
                     (<[f := FsFile ""]> (fs wa)) (cwd wa) (env wa)))
      as (_ & _ & Hother).
    destruct (write_records data f _) as [[[]|e] w1]; cbn [snd fs] in Hother;
      pose proof (file_close_world f w1) as Hclose;
      destruct (file_close f w1) as [[[]|e'] w2]; cbn [snd] in *; subst w2;
      rewrite Hother by congruence; rewrite lookup_insert_ne by congruence; done.
  - apply open_w_Raise in Hopen as ->. done.
Qed.

(** X6: whatever the web answers and however the save goes, [scrape_books]
    leaves every file and directory that exists before the run as it is,
    but for two: the file its output path names, and the log file.  Nothing
    else is removed, emptied or overwritten.  (The tree has no links: a file
    has one path.) *)
Theorem scrape_books_keeps_other_files urljoin web fuel self output_file w p node :
  p ≠ abspath w output_file →
  p ≠ log_path w →
  fs w !! p = Some node →
  fs (snd (scrape_books urljoin web fuel self output_file w)) !! p = Some node.
Proof.
  intros Hne Hlog Hp. unfold scrape_books, try_except. rewrite bind_run.
  destruct (while_current_url urljoin web fuel self (Some (base_url self)) [] w)
    as [r w1] eqn:Hloop.
  apply while_invariant in Hloop as ((Hcwd & _ & Hother & _) & _ & _).
  assert (fs w1 !! p = Some node) as Hp1 by (by rewrite Hother).
  assert (abspath w1 output_file = abspath w output_file) as Habs.
  { unfold abspath, start. by rewrite Hcwd. }
  assert (∀ lvl msg w2, cwd w2 = cwd w → fs w2 !! p = Some node →
                        fs (logged lvl msg w2) !! p = Some node) as Hlogged.
  { intros lvl msg w2 Hc Hw2. unfold logged. cbn [fs].
    rewrite lookup_alter_ne; [done|]. unfold log_path in *. by rewrite Hc. }
  destruct r as [[books|]|e].
  - rewrite !bind_run, save_to_csv_run.
    pose proof (save_try_keeps_others books output_file w1 p node) as Hsave.
    rewrite Habs in Hsave. specialize (Hsave Hne Hp1).
    assert (cwd (snd (_save_to_csv_try books output_file w1)) = cwd w) as Hc.
    { rewrite <- Hcwd.
      apply (keeps_save_try same_process same_process_refl same_process_trans);
        [apply mkdir_same_process | apply open_w_same_process
        | apply write_same_process]. }
    destruct (_save_to_csv_try books output_file w1) as [[[]|e] w2]; cbn [snd] in *;
      run; cbn [snd]; repeat apply Hlogged; done.
  - cbn. done.
  - cbn [is_Exception]. run. cbn [snd]. by apply Hlogged.
Qed.

Lemma scrape_books_keeps_other_files_witness :
  fs (snd (scrape_books urllib_parse.urljoin Demo.web 2 Demo.scraper "data/books.csv"
             Sites.w_notes)) !! (Demo.home ++ ["notes.txt"]) = Some (FsFile "keep me").
Proof.
  apply (scrape_books_keeps_other_files urllib_parse.urljoin Demo.web 2 Demo.scraper
           "data/books.csv" Sites.w_notes (Demo.home ++ ["notes.txt"])
           (FsFile "keep me")).
  - vm_compute. discriminate.
  - vm_compute. discriminate.
  - vm_compute. reflexivity.
Defined.

(** *** How a save after a walk can fail *)















Lemma csv_line_header :
  csv_line record_fields (map (λ k, (k, VStr k)) record_fields) = csv_header.
Proof. reflexivity. Qed.





(** *** Saving under [dir/name] *)


Lemma rstrip_slash_no_slash s : no_slash s → str_rstrip_slash s = s.
Proof.
  unfold no_slash. induction s as [|c s IH]; [done|].
  cbn [str_contains str_rstrip_slash]. intros [Hc Hs]%orb_false_elim.
  rewrite (IH Hs). rewrite Ascii.eqb_sym in Hc. rewrite Hc. by destruct s.
Qed.
















(** ** The [__main__] block and the two short scripts *)

Lemma sbind_run {A B} (m : Proc A) (f : A → Proc B) (c : Console) :
  (m ≫= f) c = match m c with
               | (Ok a, c') => f a c'
               | (Raise e, c') => (Raise e, c')
               end.
Proof. reflexivity. Qed.

Ltac srun :=
  repeat first
    [ rewrite sbind_run
    | progress unfold eval, print, in_world
    | progress cbn [world stdout mret Proc_ret fst snd] ].

Ltac result_run :=
  repeat first
    [ progress cbn [mbind Result_bind mret Result_ret]
    | progress srun ].

(** *** The block of [web_scraper_deepseek.py] *)







(** *** [web_scraper_chatgpt.py] *)

(** One turn of the loop: the block of the item is printed, or what the item
    raises leaves the loop. *)
Lemma chatgpt_for_book_in_step book rest c :
  web_scraper_chatgpt.for_book_in (book :: rest) c
  = match book_block book with
    | Ok block =>
        web_scraper_chatgpt.for_book_in rest
          (mkConsole (world c) (stdout c ++ [block]))
    | Raise e => (Raise e, c)
    end.
Proof.
  cbn [web_scraper_chatgpt.for_book_in]. unfold book_block, heading_anchor.
  destruct (getattr_tag (Some book) "h3") as [h3|e]; result_run; [|done].
  destruct (getattr_tag h3 "a") as [a|e]; result_run; [|done].
  destruct (getitem a "title") as [title|e]; result_run; [|done].
  destruct (getattr_text (find "p" (Some "price_color") book)) as [price|e];
    result_run; [|done].
  destruct (getitem_class (find "p" (Some "star-rating") book)) as [cls|e];
    result_run; [|done].
  destruct (list_getitem cls 1) as [rating|e]; by result_run.
Qed.

Lemma chatgpt_for_book_in_Ok books :
  ∀ blocks c,
    all_Ok (map book_block books) = Some blocks →
    web_scraper_chatgpt.for_book_in books c
    = (Ok tt, mkConsole (world c) (stdout c ++ blocks)).
Proof.
  induction books as [|book books IH]; intros blocks c Hall.
  - injection Hall as <-. rewrite app_nil_r. by destruct c.
  - rewrite chatgpt_for_book_in_step. cbn [map all_Ok] in Hall.
    destruct (book_block book) as [block|e]; [|done].
    destruct (all_Ok (map book_block books)) as [bs|] eqn:Hbs; [|done].
    injection Hall as <-. rewrite (IH bs _ eq_refl). cbn [world stdout].
    by rewrite <- app_assoc.
Qed.

Lemma chatgpt_for_book_in_Raise good bad rest e :
  ∀ blocks c,
    all_Ok (map book_block good) = Some blocks →
    book_block bad = Raise e →
    web_scraper_chatgpt.for_book_in (good ++ bad :: rest) c
    = (Raise e, mkConsole (world c) (stdout c ++ blocks)).
Proof.
  induction good as [|book good IH]; intros blocks c Hall Hbad.
  - injection Hall as <-. cbn [app]. rewrite chatgpt_for_book_in_step, Hbad.
    rewrite app_nil_r. by destruct c.
  - cbn [app]. rewrite chatgpt_for_book_in_step. cbn [map all_Ok] in Hall.
    destruct (book_block book) as [block|e']; [|done].
    destruct (all_Ok (map book_block good)) as [bs|] eqn:Hbs; [|done].
    injection Hall as <-. rewrite (IH bs _ eq_refl Hbad). cbn [world stdout].
    by rewrite <- app_assoc.
Qed.

(** What [scrape_books] does once the page has come with status 200. *)
Lemma chatgpt_scrape_books_200 web url r c :
  web url = inr r →
  status_code r = 200 →
  web_scraper_chatgpt.scrape_books web url c
  = web_scraper_chatgpt.for_book_in
      (find_all "article" (Some "product_pod") (BeautifulSoup (resp_text r)))
      (mkConsole (with_trace (world c) (trace (world c) ++ [EvGet url])) (stdout c)).
Proof.
  intros Hweb Hstatus. unfold web_scraper_chatgpt.scrape_books, requests_get.
  srun. run. rewrite Hweb. run. srun. by rewrite Hstatus.
Qed.

(** X9: on a page that comes with status 200 and whose items all have a
    title, a price paragraph and a second rating class,
    [web_scraper_chatgpt.scrape_books] makes one request, prints one block
    per item, in document order, and nothing else; it follows no next-page
    link and touches no file. *)
Theorem chatgpt_prints_one_block_per_item web url r blocks c :
  web url = inr r →
  status_code r = 200 →
  all_Ok (map book_block
            (find_all "article" (Some "product_pod") (BeautifulSoup (resp_text r))))
    = Some blocks →
  web_scraper_chatgpt.scrape_books web url c
  = (Ok tt,
     mkConsole (with_trace (world c) (trace (world c) ++ [EvGet url]))
       (stdout c ++ blocks)).
Proof.
  intros Hweb Hstatus Hall.
  rewrite (chatgpt_scrape_books_200 _ _ _ _ Hweb Hstatus).
  by rewrite (chatgpt_for_book_in_Ok _ _ _ Hall).
Qed.

Lemma chatgpt_prints_one_block_per_item_witness :
  web_scraper_chatgpt.scrape_books Sites.web_two_items Demo.seed Sites.c0
  = (Ok tt,
     mkConsole (with_trace (world Sites.c0) (trace (world Sites.c0) ++ [EvGet Demo.seed]))
       (stdout Sites.c0
        ++ ["Title: A Light in the Attic" +:+ NL +:+ "Rating: Three" +:+ NL
            +:+ "Price: " +:+ Demo.pounds "51.77" +:+ NL;
            "Title: Sharp Objects" +:+ NL +:+ "Rating: Six" +:+ NL
            +:+ "Price: " +:+ Demo.pounds "47.82" +:+ NL])).
Proof.
  apply (chatgpt_prints_one_block_per_item Sites.web_two_items Demo.seed
           (mkResponse 200 "OK" (Demo.document [Demo.book_attic; Demo.book_six_stars]))
           _ Sites.c0);
    vm_compute; reflexivity.
Defined.

(** X10: [web_scraper_chatgpt.scrape_books] isolates no item: at the first
    item that lacks the title, the price paragraph or the second rating
    class, the exception leaves the function; the blocks of the items before
    it have been printed, and no later item is looked at. *)
Theorem chatgpt_stops_at_first_malformed_item web url r good bad rest blocks e c :
  web url = inr r →
  status_code r = 200 →
  find_all "article" (Some "product_pod") (BeautifulSoup (resp_text r))
    = good ++ bad :: rest →
  all_Ok (map book_block good) = Some blocks →
  book_block bad = Raise e →
  web_scraper_chatgpt.scrape_books web url c
  = (Raise e,
     mkConsole (with_trace (world c) (trace (world c) ++ [EvGet url]))
       (stdout c ++ blocks)).
Proof.
  intros Hweb Hstatus Hitems Hgood Hbad.
  rewrite (chatgpt_scrape_books_200 _ _ _ _ Hweb Hstatus), Hitems.
  by rewrite (chatgpt_for_book_in_Raise _ _ _ _ _ _ Hgood Hbad).
Qed.

Lemma chatgpt_stops_at_first_malformed_item_witness :
  web_scraper_chatgpt.scrape_books Demo.web Demo.seed Sites.c0
  = (Raise (NoneType_has_no_attribute "text"),
     mkConsole (with_trace (world Sites.c0) (trace (world Sites.c0) ++ [EvGet Demo.seed]))
       (stdout Sites.c0
        ++ ["Title: A Light in the Attic" +:+ NL +:+ "Rating: Three" +:+ NL
            +:+ "Price: " +:+ Demo.pounds "51.77" +:+ NL])).
Proof.
  apply (chatgpt_stops_at_first_malformed_item Demo.web Demo.seed
           (mkResponse 200 "OK" Demo.page1)
           [Demo.book_attic] Demo.book_no_price [] _
           (NoneType_has_no_attribute "text") Sites.c0);
    vm_compute; reflexivity.
Defined.

(** X11: the two files disagree on what a failed fetch is.  Any status other
    than 200 makes [web_scraper_chatgpt.scrape_books] print the failure line
    with the status and return, without raising and without reading the
    body; [BookScraper._get_page_content] gives up on 4xx and 5xx only, and
    returns the page for every other status. *)
Theorem status_other_than_200_is_handled_differently web url r c self :
  web url = inr r →
  status_code r ≠ 200 →
  web_scraper_chatgpt.scrape_books web url c
  = (Ok tt,
     mkConsole (with_trace (world c) (trace (world c) ++ [EvGet url]))
       (stdout c ++ ["Failed to retrieve the website. Status code: "
                     +:+ pretty (status_code r)]))
  ∧ fst (_get_page_content web self url (world c))
    = Ok (if (400 <=? status_code r) && (status_code r <? 600)
          then None
          else Some (BeautifulSoup (resp_text r))).
Proof.
  intros Hweb Hstatus. split.
  - unfold web_scraper_chatgpt.scrape_books, requests_get.
    srun. run. rewrite Hweb. run. srun.
    apply Z.eqb_neq in Hstatus. by rewrite Hstatus.
  - destruct (get_page_content_run web self url (world c)) as (ev & w' & -> & _).
    unfold fetched, http_error. by rewrite Hweb.
Qed.

Lemma status_other_than_200_is_handled_differently_witness :
  web_scraper_chatgpt.scrape_books
    (λ _, inr (mkResponse 203 "Non-Authoritative Information" Demo.page2))
    Demo.seed Sites.c0
  = (Ok tt,
     mkConsole (with_trace (world Sites.c0) (trace (world Sites.c0) ++ [EvGet Demo.seed]))
       (stdout Sites.c0
        ++ ["Failed to retrieve the website. Status code: "
            +:+ pretty (status_code
                          (mkResponse 203 "Non-Authoritative Information"
                             Demo.page2))]))
  ∧ fst (_get_page_content
           (λ _, inr (mkResponse 203 "Non-Authoritative Information" Demo.page2))
           Demo.scraper Demo.seed (world Sites.c0))
    = Ok (if (400 <=? status_code
                        (mkResponse 203 "Non-Authoritative Information" Demo.page2))
             && (status_code
                   (mkResponse 203 "Non-Authoritative Information" Demo.page2)
                 <? 600)
          then None
          else Some (BeautifulSoup
                       (resp_text
                          (mkResponse 203 "Non-Authoritative Information"
                             Demo.page2)))).
Proof.
  apply (status_other_than_200_is_handled_differently
           (λ _, inr (mkResponse 203 "Non-Authoritative Information" Demo.page2))
           Demo.seed
           (mkResponse 203 "Non-Authoritative Information" Demo.page2)
           Sites.c0 Demo.scraper).
  - reflexivity.
  - vm_compute. discriminate.
Defined.

(** *** [web_scraper.py] *)

Lemma script_for_book_in_step book rest c :
  web_scraper.for_book_in (book :: rest) c
  = match book_line book with
    | Ok line =>
        web_scraper.for_book_in rest (mkConsole (world c) (stdout c ++ [line]))
    | Raise e => (Raise e, c)
    end.
Proof.
  cbn [web_scraper.for_book_in]. unfold book_line, heading_anchor.
  destruct (getattr_tag (Some book) "h3") as [h3|e]; result_run; [|done].
  destruct (getattr_tag h3 "a") as [a|e]; result_run; [|done].
  destruct (getitem a "title") as [title|e]; result_run; [|done].
  destruct (getattr_tag (Some book) "p") as [p|e]; result_run; [|done].
  destruct (getitem_class p) as [cls|e]; result_run; [|done].
  destruct (list_getitem cls 1) as [rating|e]; result_run; [|done].
  destruct (getattr_text (find "p" (Some "price_color") book)) as [price|e];
    by result_run.
Qed.

Lemma script_for_book_in_Ok books :
  ∀ lines c,
    all_Ok (map book_line books) = Some lines →
    web_scraper.for_book_in books c
    = (Ok tt, mkConsole (world c) (stdout c ++ lines)).
Proof.
  induction books as [|book books IH]; intros lines c Hall.
  - injection Hall as <-. rewrite app_nil_r. by destruct c.
  - rewrite script_for_book_in_step. cbn [map all_Ok] in Hall.
    destruct (book_line book) as [line|e]; [|done].
    destruct (all_Ok (map book_line books)) as [ls|] eqn:Hls; [|done].
    injection Hall as <-. rewrite (IH ls _ eq_refl). cbn [world stdout].
    by rewrite <- app_assoc.
Qed.

(** X12: [web_scraper.py] never looks at the status of the response: the
    body that comes back, with an error status as with 200, is parsed, and
    when every [article] of it has a title, a first paragraph with a second
    class and a price paragraph, one line per [article] is printed, in
    document order, after the one request. *)
Theorem script_prints_whatever_the_status web r lines c :
  web "https://books.toscrape.com/" = inr r →
  all_Ok (map book_line (find_all "article" None (BeautifulSoup (resp_text r))))
    = Some lines →
  web_scraper.script web c
  = (Ok tt,
     mkConsole (with_trace (world c) (trace (world c) ++ [EvGet "https://books.toscrape.com/"]))
       (stdout c ++ lines)).
Proof.
  intros Hweb Hall. unfold web_scraper.script, requests_get.
  srun. run. rewrite Hweb. run. srun.
  by rewrite (script_for_book_in_Ok _ _ _ Hall).
Qed.

Lemma script_prints_whatever_the_status_witness :
  web_scraper.script Sites.web_unavailable Sites.c0
  = (Ok tt,
     mkConsole (with_trace (world Sites.c0) (trace (world Sites.c0) ++ [EvGet "https://books.toscrape.com/"]))
       (stdout Sites.c0
        ++ ["Book title:" +:+ "A Light in the Attic" +:+ " has a rating rating of : "
            +:+ "Three" +:+ "stars" +:+ "with price " +:+ Demo.pounds "51.77"])).
Proof.
  apply (script_prints_whatever_the_status Sites.web_unavailable
           (mkResponse 503 "Service Unavailable" (Demo.document [Demo.book_attic]))
           _ Sites.c0);
    vm_compute; reflexivity.
Defined.

(** X13: neither short script catches a transport error: the exception of
    [requests.get] leaves [web_scraper_chatgpt.scrape_books] and
    [web_scraper.py] with nothing printed, where [BookScraper] logs it, with
    its message, goes on to the save and returns the empty list. *)
Theorem scripts_do_not_catch_transport_errors web kind msg c :
  web "https://books.toscrape.com/" = inl (kind, msg) →
  web_scraper_chatgpt.main web c
  = (Raise (mkExn (RequestException kind) msg),
     mkConsole (with_trace (world c)
                  (trace (world c) ++ [EvGet "https://books.toscrape.com/"]))
       (stdout c))
  ∧ web_scraper.script web c
    = (Raise (mkExn (RequestException kind) msg),
       mkConsole (with_trace (world c)
                    (trace (world c) ++ [EvGet "https://books.toscrape.com/"]))
         (stdout c))
  ∧ ∀ urljoin fuel self,
      base_url self = "https://books.toscrape.com/" →
      (0 < fuel)%nat →
      ∃ w' evs,
        scrape_books urljoin web fuel self "data/books.csv" (world c)
        = (Ok (Some []), w')
        ∧ trace w'
          = trace (world c)
            ++ [EvLog INFO "Scraping page: https://books.toscrape.com/";
                EvGet "https://books.toscrape.com/";
                EvLog ERROR ("Error fetching https://books.toscrape.com/: " +:+ msg)]
            ++ evs
        ∧ visited evs = []
        ∧ List.last evs (EvSleep 0) = EvLog INFO (success_message [] "data/books.csv").
Proof.
  intros Hweb. split; [|split].
  - unfold web_scraper_chatgpt.main, web_scraper_chatgpt.scrape_books, requests_get.
    srun. run. rewrite Hweb. by run.
  - unfold web_scraper.script, requests_get.
    srun. run. rewrite Hweb. by run.
  - intros urljoin fuel self Hbase Hfuel.
    destruct fuel as [|fuel]; [lia|].
    assert (∃ w1,
               while_current_url urljoin web (S fuel) self (Some (base_url self)) []
                 (world c) = (Ok (Some []), w1)
               ∧ trace w1
                 = trace (world c)
                   ++ [EvLog INFO "Scraping page: https://books.toscrape.com/";
                       EvGet "https://books.toscrape.com/";
                       EvLog ERROR ("Error fetching https://books.toscrape.com/: "
                                    +:+ msg)]) as (w1 & Hloop & Ht).
    { rewrite Hbase. cbn [while_current_url str_is_empty]. run.
      unfold _get_page_content, try_except, session_get. run. rewrite Hweb. run.
      cbn [is_RequestException exn_class]. run. eexists. split; [reflexivity|].
      cbn [trace logged with_trace exn_str]. rewrite <- !app_assoc. reflexivity. }
    pose proof (scrape_books_after_loop _ _ _ _ "data/books.csv" _ _ _ Hloop) as Hrun.
    destruct (save_to_csv_quiet self [] "data/books.csv" w1) as (evs & He & Hv & _).
    eexists _, (evs ++ [EvLog INFO (success_message [] "data/books.csv")]).
    split; [exact Hrun|]. rewrite trace_logged, He, Ht, <- !app_assoc.
    split; [done|]. split.
    + rewrite visited_app, Hv. done.
    + by rewrite last_last.
Qed.

Lemma scripts_do_not_catch_transport_errors_witness :
  web_scraper_chatgpt.main Sites.web_offline Sites.c0
  = (Raise (mkExn (RequestException ConnectionError) "Connection refused"),
     mkConsole (with_trace (world Sites.c0)
                  (trace (world Sites.c0) ++ [EvGet "https://books.toscrape.com/"]))
       (stdout Sites.c0))
  ∧ web_scraper.script Sites.web_offline Sites.c0
    = (Raise (mkExn (RequestException ConnectionError) "Connection refused"),
       mkConsole (with_trace (world Sites.c0)
                    (trace (world Sites.c0) ++ [EvGet "https://books.toscrape.com/"]))
         (stdout Sites.c0))
  ∧ ∀ urljoin fuel self,
      base_url self = "https://books.toscrape.com/" →
      (0 < fuel)%nat →
      ∃ w' evs,
        scrape_books urljoin Sites.web_offline fuel self "data/books.csv"
          (world Sites.c0)
        = (Ok (Some []), w')
        ∧ trace w'
          = trace (world Sites.c0)
            ++ [EvLog INFO "Scraping page: https://books.toscrape.com/";
                EvGet "https://books.toscrape.com/";
                EvLog ERROR ("Error fetching https://books.toscrape.com/: "
                             +:+ "Connection refused")]
            ++ evs
        ∧ visited evs = []
        ∧ List.last evs (EvSleep 0) = EvLog INFO (success_message [] "data/books.csv").
Proof.
  apply (scripts_do_not_catch_transport_errors Sites.web_offline ConnectionError
           "Connection refused" Sites.c0).
  reflexivity.
Defined.

(** *** The three ways of reading the rating *)

(** The first match of a search is also the first match of a narrower
    search, when it passes the narrower test. *)
Lemma head_filter_narrow {A} (P Q : A → bool) (l : list A) (x : A) :
  (∀ y, Q y = true → P y = true) →
  head (filter (λ y, P y = true) l) = Some x →
  Q x = true →
  head (filter (λ y, Q y = true) l) = Some x.
Proof.
  intros HQP. induction l as [|y l IH]; [done|].
  rewrite !filter_cons. intros Hhead Hx.
  destruct (decide (P y = true)) as [HP|HP].
  - cbn in Hhead. injection Hhead as ->. by rewrite decide_True.
  - rewrite decide_False; [by apply IH|].
    intros HQ. by apply HP, HQP.
Qed.

(** X14: [web_scraper.py] reads the rating from the first paragraph of the
    item, the other two files from the first paragraph of class
    [star-rating]; when the first paragraph of the item has that class, the
    three read the same class list, hence the same rating word. *)
Theorem first_paragraph_rating_agrees book p :
  getattr_tag (Some book) "p" = Ok (Some p) →
  tag_matches "p" (Some "star-rating") p = true →
  (q ← getattr_tag (Some book) "p"; c ← getitem_class q; list_getitem c 1)
  = (c ← getitem_class (find "p" (Some "star-rating") book); list_getitem c 1).
Proof.
  intros Hfirst Hclass. rewrite Hfirst. cbn [mbind Result_bind].
  destruct book as [s|cls s|n c a k]; try done.
  injection Hfirst as Hfirst. unfold find, find_all in *.
  rewrite (head_filter_narrow (tag_matches "p" None)
             (tag_matches "p" (Some "star-rating")) _ p); try done.
  intros [s|cls s|n' c' a' k']; cbn; try done. by intros [-> _]%andb_prop.
Qed.

Lemma first_paragraph_rating_agrees_witness :
  (q ← getattr_tag (Some Demo.book_attic) "p"; c ← getitem_class q; list_getitem c 1)
  = (c ← getitem_class (find "p" (Some "star-rating") Demo.book_attic);
     list_getitem c 1).
Proof.
  apply (first_paragraph_rating_agrees Demo.book_attic
           (Tag "p" (Some ["star-rating"; "Three"]) [] []));
    vm_compute; reflexivity.
Defined.

(** X15: every item [BookScraper] records is an item
    [web_scraper_chatgpt.scrape_books] prints: its block shows the title of
    the record, the rating word the record's rating is looked up from, and
    the price text of which the record holds the stripped form. *)
Theorem recorded_item_is_printed_by_chatgpt urljoin self book d :
  _extract_book_data_try urljoin self book = Ok d →
  ∃ title label price,
    book_block book
    = Ok ("Title: " +:+ title +:+ NL +:+ "Rating: " +:+ label +:+ NL
          +:+ "Price: " +:+ price +:+ NL)
    ∧ dict_get d "title" = Some (VStr title)
    ∧ dict_get d "rating" = Some (rating_of_label label)
    ∧ dict_get d "price" = Some (VStr (str_strip price)).
Proof.
  intros (a & title & pt & cs & label & avt & href & u
          & Ha & Ht & Hp & Hc & Hl & _ & _ & _ & ->)%extract_try_Ok.
  exists title, label, (text pt). split; [|done].
  unfold book_block. rewrite Ha. cbn [mbind Result_bind]. rewrite Ht, Hp, Hc.
  cbn [mbind Result_bind getattr_text]. unfold list_getitem. by rewrite Hl.
Qed.

Lemma recorded_item_is_printed_by_chatgpt_witness :
  ∃ title label price,
    book_block Demo.book_attic
    = Ok ("Title: " +:+ title +:+ NL +:+ "Rating: " +:+ label +:+ NL
          +:+ "Price: " +:+ price +:+ NL)
    ∧ dict_get (book_record urllib_parse.urljoin Demo.scraper Demo.book_attic) "title"
      = Some (VStr title)
    ∧ dict_get (book_record urllib_parse.urljoin Demo.scraper Demo.book_attic) "rating"
      = Some (rating_of_label label)
    ∧ dict_get (book_record urllib_parse.urljoin Demo.scraper Demo.book_attic) "price"
      = Some (VStr (str_strip price)).
Proof.
  apply (recorded_item_is_printed_by_chatgpt urllib_parse.urljoin Demo.scraper
           Demo.book_attic).
  vm_compute. reflexivity.
Defined.
